(** * xdg-screensaver-shim: a shallow embedding of [xdg-screensaver-shim.c]

    The program has two operations.  [suspend WindowID] takes a
    screensaver inhibit over D-Bus, watches an X window and waits, in a
    [select] loop over a signal fd and the X connection, until the window
    is destroyed or a signal arrives; it then releases the inhibit.
    [resume WindowID] walks [/proc] and sends [SIGTERM] to the processes
    whose command line is [<prog> suspend <WindowID>].

    The C code talks to the kernel, to libc, to libdbus and to Xlib.  Each
    of these is represented by an explicit description of what the calls
    return (an environment record), the functions of the program are
    translated to functions over that record, and the calls the
    properties speak about are logged in a trace of events. *)

From Stdlib Require Import ZArith List Ascii String Bool Lia.
Import ListNotations.
Local Open Scope Z_scope.

(** ** The parts of libc the program relies on *)

Module LibC.

(** [unsigned long] and [int] on LP64 Linux, the platform of [signalfd]
    and [/proc]. *)
Definition ULONG_MAX : Z := 2 ^ 64 - 1.
Definition LONG_MAX : Z := 2 ^ 63 - 1.
Definition LONG_MIN : Z := - 2 ^ 63.

Definition to_int (z : Z) : Z := (z + 2 ^ 31) mod 2 ^ 32 - 2 ^ 31.

(** errno values (asm-generic/errno-base.h) *)
Definition EPERM : Z := 1.
Definition ENOENT : Z := 2.
Definition ESRCH : Z := 3.
Definition EACCES : Z := 13.

(** signal numbers (asm-generic/signal.h) *)
Definition SIGHUP : Z := 1.
Definition SIGINT : Z := 2.
Definition SIGQUIT : Z := 3.
Definition SIGPIPE : Z := 13.
Definition SIGTERM : Z := 15.

Definition EXIT_SUCCESS : Z := 0.
Definition EXIT_FAILURE : Z := 1.

Definition NULL_BYTE_LEN : Z := 1.

Definition code (c : ascii) : Z := Z.of_N (N_of_ascii c).
Definition chr (z : Z) : ascii := ascii_of_N (Z.to_N z).

Definition NUL : ascii := chr 0.

Definition is_nul (c : ascii) : bool := code c =? 0.

(** <ctype.h>, in the "C" locale *)
Definition isdigit (c : ascii) : bool := (48 <=? code c) && (code c <=? 57).
Definition isspace (c : ascii) : bool :=
  (code c =? 32) || ((9 <=? code c) && (code c <=? 13)).

(** The value of a character as a digit, for bases up to 36. *)
Definition digit_value (c : ascii) : option Z :=
  let n := code c in
  if (48 <=? n) && (n <=? 57) then Some (n - 48)
  else if (97 <=? n) && (n <=? 122) then Some (n - 87)
  else if (65 <=? n) && (n <=? 90) then Some (n - 55)
  else None.

Definition digit_in (base : Z) (c : ascii) : option Z :=
  match digit_value c with
  | Some d => if d <? base then Some d else None
  | None => None
  end.

(** The longest prefix of digits of [s] in [base], accumulated on [acc];
    returns the (unbounded) value and the unread suffix. *)
Fixpoint scan_digits (base acc : Z) (s : list ascii) : Z * list ascii :=
  match s with
  | [] => (acc, [])
  | c :: s' =>
      match digit_in base c with
      | Some d => scan_digits base (acc * base + d) s'
      | None => (acc, s)
      end
  end.

Fixpoint skip_space (s : list ascii) : list ascii :=
  match s with
  | c :: s' => if isspace c then skip_space s' else s
  | [] => []
  end.

(** An optional sign: [(negative, rest)]. *)
Definition scan_sign (s : list ascii) : bool * list ascii :=
  match s with
  | c :: s' =>
      if code c =? 45 then (true, s')
      else if code c =? 43 then (false, s')
      else (false, s)
  | [] => (false, [])
  end.

Definition is_x (c : ascii) : bool := (code c =? 120) || (code c =? 88).

Definition starts_with_digit (base : Z) (s : list ascii) : bool :=
  match s with
  | c :: _ => match digit_in base c with Some _ => true | None => false end
  | [] => false
  end.

(** [strtoul(nptr, &endptr, 0)]: white space, an optional sign, a base
    taken from the prefix ([0x]/[0X] hexadecimal, [0] octal, decimal
    otherwise), then digits.  The result is the value and the string
    [endptr] points to.  A value that does not fit yields [ULONG_MAX]; a
    negated value is taken modulo [2^64]; with no digit at all the value
    is [0] and [endptr] is [nptr] (after a bare [0x], [endptr] is at the
    [x]). *)
Definition strtoul (nptr : list ascii) : Z * list ascii :=
  let '(neg, s1) := scan_sign (skip_space nptr) in
  let finish (base : Z) (s2 : list ascii) :=
    let '(v, rest) := scan_digits base 0 s2 in
    (if ULONG_MAX <? v then ULONG_MAX
     else if neg then (- v) mod 2 ^ 64 else v, rest) in
  match s1 with
  | z :: x :: s2 =>
      if (code z =? 48) && is_x x then
        if starts_with_digit 16 s2 then finish 16 s2 else (0, x :: s2)
      else if code z =? 48 then finish 8 s1
      else if starts_with_digit 10 s1 then finish 10 s1 else (0, nptr)
  | _ =>
      if starts_with_digit 10 s1 then finish 10 s1 else (0, nptr)
  end.

(** [atoi(s)], which glibc defines as [(int) strtol(s, NULL, 10)]. *)
Definition atoi (nptr : list ascii) : Z :=
  let '(neg, s1) := scan_sign (skip_space nptr) in
  let '(v, _) := scan_digits 10 0 s1 in
  let l := if neg then Z.max LONG_MIN (- v) else Z.min LONG_MAX v in
  to_int l.

(** The digit characters [printf] emits: [0-9a-f]. *)
Definition digit_char (d : Z) : ascii :=
  if d <? 10 then chr (48 + d) else chr (87 + d).

(** The digits of [n] in [base], most significant first, in front of
    [acc]; [fuel] bounds the number of digits. *)
Fixpoint render_digits (base : Z) (fuel : nat) (n : Z) (acc : list ascii)
  : list ascii :=
  match fuel with
  | O => acc
  | S f =>
      if n =? 0 then acc
      else render_digits base f (n / base) (digit_char (n mod base) :: acc)
  end.

Definition bytes (s : string) : list ascii := list_ascii_of_string s.

Definition len (l : list ascii) : Z := Z.of_nat (List.length l).

(** [printf("%lx", v)] for an [unsigned long] [v]: at most 16 digits. *)
Definition fmt_lx (v : Z) : list ascii :=
  if v =? 0 then bytes "0" else render_digits 16 16 v [].

(** [printf("%#lx", v)]: the alternate form puts [0x] in front of a
    non-zero value and prints zero as [0]. *)
Definition fmt_alt_lx (v : Z) : list ascii :=
  if v =? 0 then bytes "0" else bytes "0x" ++ render_digits 16 16 v [].

(** [printf("%d", v)] for an [int] [v]: at most 10 digits. *)
Definition fmt_d (v : Z) : list ascii :=
  if v =? 0 then bytes "0"
  else if v <? 0 then bytes "-" ++ render_digits 10 10 (- v) []
  else render_digits 10 10 v [].

(** [strlen] and the C string that starts at the head of a buffer: the
    bytes up to the first NUL. *)
Fixpoint cstr (buf : list ascii) : list ascii :=
  match buf with
  | c :: buf' => if is_nul c then [] else c :: cstr buf'
  | [] => []
  end.

Definition strlen (buf : list ascii) : Z := Z.of_nat (List.length (cstr buf)).

(** [s[0]] of a C string given by its bytes before the NUL *)
Definition head_byte (s : list ascii) : ascii :=
  match s with c :: _ => c | [] => NUL end.

(** [&buf[off]] *)
Definition at_offset (buf : list ascii) (off : Z) : list ascii :=
  skipn (Z.to_nat off) buf.

Definition bytes_eqb (a b : list ascii) : bool :=
  if list_eq_dec ascii_dec a b then true else false.

(** [strcmp(a, b) == 0] *)
Definition streq (a b : list ascii) : bool := bytes_eqb (cstr a) (cstr b).

End LibC.

(** ** Events

    The calls whose order and number the properties below speak about,
    in the order the program makes them. *)

Inductive event : Type :=
| EvStderr (msg : string)                  (* a diagnostic line *)
| EvReadlink (path : list ascii)
| EvOpendir (path : list ascii)
| EvOpen (path : list ascii)
| EvKill (pid sig : Z)
| EvDBusCall (member : string) (cookie : option Z)
                                           (* send_with_reply_and_block *)
| EvXSetHandlers (custom : bool)           (* XSetErrorHandler + XSetIOErrorHandler *)
| EvXOpenDisplay
| EvXSync                                  (* XSelectInput + XSync *)
| EvXPending (queued : bool)               (* XPending(display) > 0 *)
| EvXNextEvent
| EvXCloseDisplay
| EvFork
| EvSelect
| EvReadSignalFd
| EvReceivedSignal (signo : Z)             (* the line "Received signal %d (%s)" *)
| EvCloseFd (fd : Z)
| EvDBusConnUnref
| EvExit (status : Z).

Definition trace := list event.

Definition is_kill (e : event) : bool :=
  match e with EvKill _ _ => true | _ => false end.

Definition is_stderr (e : event) : bool :=
  match e with EvStderr _ => true | _ => false end.

(** ** allocSprintf (lines 39-69)

    [alloc] tells whether [malloc] of that many bytes succeeds and [text]
    is what the format expands to.  [vsnprintf] does not fail on the
    three formats the program uses, so the only failure is [malloc]. *)
Definition allocSprintf (alloc : Z -> bool) (text : list ascii)
  : option (list ascii) * trace :=
  let size := LibC.len text + LibC.NULL_BYTE_LEN in
  if alloc size then (Some text, [])
  else (None, [EvStderr "Out of memory"]).

(** ** The resume operation *)

Module Resume.
Import LibC.

(** *** What the kernel answers *)

Inductive readlink_result := ReadlinkErr (errno : Z) | ReadlinkOk (target : list ascii).

(** An open file: its bytes, and for the [k]-th [read] call on it
    (from 0) the errno it fails with, if it fails.  A [read] that does
    not fail returns as many bytes as are asked for and left. *)
Record file := { f_data : list ascii; f_fail : nat -> option Z }.

Inductive open_result := OpenErr (errno : Z) | OpenOk (f : file).
Inductive kill_result := KillErr (errno : Z) | KillOk.

Record os := {
  os_alloc : Z -> bool;                      (* malloc/realloc of that many bytes succeeds *)
  os_readlink : list ascii -> readlink_result;
  os_open : list ascii -> open_result;       (* open(path, O_RDONLY) *)
  os_kill : Z -> Z -> kill_result;           (* kill(pid, sig) *)
  os_opendir : list ascii -> option (list (list ascii))
                                             (* opendir, then the d_name of each readdir *)
}.

Definition wrap_size_t (z : Z) : Z := z mod 2 ^ 64.

(** [realloc(p, size)]; a request for 0 bytes frees [p] and yields NULL. *)
Definition realloc_ok (o : os) (size : Z) : bool := (0 <? size) && os_alloc o size.

(** *** Straight-line code with [cleanReturn]

    A function body is a computation that logs events and either goes on
    with a value or leaves through [cleanReturn(value)]. *)

Inductive step (A : Type) := Next (a : A) | CleanReturn (value : bool).
Arguments Next {A} a.
Arguments CleanReturn {A} value.

Definition M (A : Type) : Type := step A * trace.

Definition ret {A} (a : A) : M A := (Next a, []).

Definition bind {A B} (m : M A) (k : A -> M B) : M B :=
  match m with
  | (Next a, t) => let '(r, t') := k a in (r, t ++ t')
  | (CleanReturn v, t) => (CleanReturn v, t)
  end.

Definition log (e : event) : M unit := (Next tt, [e]).
Definition cleanReturn {A} (value : bool) : M A := (CleanReturn value, []).
Definition call {A} (r : A * trace) : M A := (Next (fst r), snd r).

#[local] Notation "x <- m ;; k" := (bind m (fun x => k))
  (at level 61, m at next level, right associativity).
#[local] Notation "m ;;; k" := (bind m (fun _ => k))
  (at level 61, right associativity).

(** [bool returnValue = true; ... cleanReturn: return returnValue;] *)
Definition run (body : M unit) : bool * trace :=
  match body with
  | (Next _, t) => (true, t)
  | (CleanReturn v, t) => (v, t)
  end.

(** *** allocReadlink (lines 296-333) *)

Definition suffix_deleted : list ascii := bytes " (deleted)".

Definition cut_deleted (link : list ascii) : list ascii :=
  let linkSize := len link in
  let suffixLen := len suffix_deleted in
  if (suffixLen <=? linkSize)
     && streq (at_offset link (linkSize - suffixLen)) suffix_deleted
  then firstn (Z.to_nat (linkSize - suffixLen)) link
  else link.

(** The loop [for (size = 256; true; size *= 2)].  [size] is a [size_t]:
    after 56 doublings it is 0 and [realloc] fails, which is why 56 units
    of [fuel] are all the loop can use. *)
Fixpoint allocReadlink_loop (fuel : nat) (o : os) (path : list ascii)
    (ignoreAccesError : bool) (size : Z) : (bool * option (list ascii)) * trace :=
  if negb (realloc_ok o size) then ((false, None), [EvStderr "Out of memory"])
  else
    match os_readlink o path with
    | ReadlinkErr errno =>
        if ignoreAccesError && ((errno =? EACCES) || (errno =? ENOENT))
        then ((true, None), [EvReadlink path])
        else ((false, None), [EvReadlink path; EvStderr "Failed to read link"])
    | ReadlinkOk target =>
        (* readlink stores at most [size] bytes and returns their number *)
        let linkSize := Z.min (len target) size in
        if linkSize <? size
        then ((true, Some (cut_deleted target)), [EvReadlink path])
        else
          match fuel with
          | S fuel' =>
              let '(r, t) :=
                allocReadlink_loop fuel' o path ignoreAccesError (wrap_size_t (size * 2)) in
              (r, EvReadlink path :: t)
          | O => ((false, None), [EvReadlink path; EvStderr "Out of memory"])
          end
    end.

Definition allocReadlink (o : os) (path : list ascii) (ignoreAccesError : bool)
  : (bool * option (list ascii)) * trace :=
  allocReadlink_loop 56 o path ignoreAccesError 256.

(** *** checkAndResumeProcess (lines 335-420) *)

(** The loop [for (size = 1024; true; size *= 2)] that reads the whole
    of [/proc/<pid>/cmdline]: [cmdline] is what has been read, [rest]
    what the file still holds, [k] the number of [read] calls so far.
    The result is the buffer, or [None] after a failure. *)
Fixpoint read_cmdline (fuel : nat) (o : os) (f : file) (k : nat) (size : Z)
    (cmdline rest : list ascii) : option (list ascii) * trace :=
  if negb (realloc_ok o size) then (None, [EvStderr "Out of memory"])
  else
    match f_fail f k with
    | Some _ => (None, [EvStderr "Failed to read cmdline"])
    | None =>
        let count := Z.to_nat (size - len cmdline) in
        let cmdline' := cmdline ++ firstn count rest in
        if len cmdline' <? size then (Some cmdline', [])
        else
          match fuel with
          | S fuel' =>
              read_cmdline fuel' o f (S k) (wrap_size_t (size * 2)) cmdline' (skipn count rest)
          | O => (None, [EvStderr "Out of memory"])
          end
    end.

Definition byte_at (buf : list ascii) (off : Z) : ascii := nth (Z.to_nat off) buf NUL.

Definition proc_path (pid : Z) (file : string) : list ascii :=
  bytes "/proc/" ++ fmt_d pid ++ bytes "/" ++ bytes file.

Definition or_cleanReturn {A} (r : option A) : M A :=
  match r with Some a => ret a | None => cleanReturn false end.

Definition checkAndResumeProcess_body (o : os) (pid : Z)
    (selfExeLink : list ascii) (window : Z) : M unit :=
  (* Check if process is same exe *)
  exePath <- (r <- call (allocSprintf (os_alloc o) (proc_path pid "exe")) ;; or_cleanReturn r) ;;
  rl <- call (allocReadlink o exePath true) ;;
  (if negb (fst rl) then cleanReturn false else ret tt) ;;;
  match snd rl with
  | None => cleanReturn true
  | Some exeLink =>
  (* Check command line arguments of process *)
  cmdlinePath <- (r <- call (allocSprintf (os_alloc o) (proc_path pid "cmdline")) ;; or_cleanReturn r) ;;
  log (EvOpen cmdlinePath) ;;;
  match os_open o cmdlinePath with
  | OpenErr errno =>
      if (errno =? EACCES) || (errno =? ENOENT) then cleanReturn true
      else log (EvStderr "Failed to open") ;;; cleanReturn false
  | OpenOk f =>
  cmdline <- (r <- call (read_cmdline 54 o f 0 1024 [] (f_data f)) ;; or_cleanReturn r) ;;
  let cmdlineSize := len cmdline in
  (if (cmdlineSize <? 1) || negb (is_nul (byte_at cmdline (cmdlineSize - 1)))
   then log (EvStderr "Invalid cmdline encountered") ;;; cleanReturn false
   else ret tt) ;;;
  (* check argc >= 1 and argv[1] is "suspend" *)
  let cmdlineArg1Start := strlen cmdline + NULL_BYTE_LEN in
  (if (cmdlineSize <=? cmdlineArg1Start)
      || negb (streq (at_offset cmdline cmdlineArg1Start) (bytes "suspend"))
   then cleanReturn true else ret tt) ;;;
  (* check argc >= 2 and argv[2] is window *)
  let cmdlineArg2Start :=
    cmdlineArg1Start + strlen (at_offset cmdline cmdlineArg1Start) + NULL_BYTE_LEN in
  (if cmdlineSize <=? cmdlineArg2Start then cleanReturn true else ret tt) ;;;
  let '(cmdlineWindow, windowEnd) := strtoul (cstr (at_offset cmdline cmdlineArg2Start)) in
  (if is_nul (byte_at cmdline cmdlineArg2Start)
      || negb (is_nul (head_byte windowEnd))
      || negb (cmdlineWindow =? window)
   then cleanReturn true else ret tt) ;;;
  (* Check that argc == 3 *)
  let cmdlineArgsEnd :=
    cmdlineArg2Start + strlen (at_offset cmdline cmdlineArg2Start) + NULL_BYTE_LEN in
  (if negb (cmdlineArgsEnd =? cmdlineSize) then cleanReturn true else ret tt) ;;;
  (* Send SIGTERM to process *)
  log (EvKill pid SIGTERM) ;;;
  match os_kill o pid SIGTERM with
  | KillErr errno =>
      if (errno =? EPERM) || (errno =? ESRCH) then cleanReturn true
      else log (EvStderr "Failed to kill process") ;;; cleanReturn false
  | KillOk => ret tt
  end
  end
  end.

Definition checkAndResumeProcess (o : os) (pid : Z) (selfExeLink : list ascii)
    (window : Z) : bool * trace :=
  run (checkAndResumeProcess_body o pid selfExeLink window).

(** *** operationResume (lines 422-454) *)

(** The inner loop over the characters of [d_name] (lines 437-441).  Its
    [continue] belongs to this [for] loop, so a character that is not a
    digit only moves the loop on to the next character. *)
Fixpoint d_name_loop (d_name : list ascii) : unit :=
  match d_name with
  | [] => tt
  | c :: d_name' =>
      if is_nul c then tt
      else if negb (isdigit c) then (* continue *) d_name_loop d_name'
      else d_name_loop d_name'
  end.

(** The [while ((procDirEnt = readdir(procDir)) != NULL)] loop. *)
Fixpoint operationResume_scan (o : os) (selfExeLink : list ascii) (window : Z)
    (entries : list (list ascii)) (returnValue : bool) : bool * trace :=
  match entries with
  | [] => (returnValue, [])
  | d_name :: entries' =>
      match d_name_loop d_name with
      | tt =>
          let pid := atoi d_name in
          let '(ok, t) := checkAndResumeProcess o pid selfExeLink window in
          if negb ok then
            let '(r, t') := operationResume_scan o selfExeLink window entries' false in
            (r, t ++ EvStderr "Continuing" :: t')
          else
            let '(r, t') := operationResume_scan o selfExeLink window entries' returnValue in
            (r, t ++ t')
      end
  end.

Definition operationResume (o : os) (prog : list ascii) (window : Z) : bool * trace :=
  run (
    rl <- call (allocReadlink o (bytes "/proc/self/exe") false) ;;
    (if negb (fst rl) then cleanReturn false else ret tt) ;;;
    let selfExeLink := match snd rl with Some l => l | None => [] end in
    (* Search processes in /proc *)
    log (EvOpendir (bytes "/proc")) ;;;
    match os_opendir o (bytes "/proc") with
    | None => log (EvStderr "Failed to open /proc") ;;; cleanReturn false
    | Some entries =>
        r <- call (operationResume_scan o selfExeLink window entries true) ;;
        cleanReturn r
    end).

(** *** Candidates that cannot be read

    The [exe] link of [pid] cannot be read, or it can and the [cmdline]
    file cannot be opened, because the process is gone ([ENOENT]) or
    belongs to someone else ([EACCES]).  The calls that come before the
    failing one in [checkAndResumeProcess] have succeeded. *)

Definition vanished_or_denied (errno : Z) : Prop := errno = ENOENT \/ errno = EACCES.

Definition sprintf_succeeds (o : os) (text : list ascii) : Prop :=
  os_alloc o (len text + NULL_BYTE_LEN) = true.

Inductive unreadable (o : os) (pid : Z) : Prop :=
| exe_unreadable (errno : Z) :
    sprintf_succeeds o (proc_path pid "exe") ->
    os_alloc o 256 = true ->
    os_readlink o (proc_path pid "exe") = ReadlinkErr errno ->
    vanished_or_denied errno ->
    unreadable o pid
| cmdline_unreadable (errno : Z) (exeLink : list ascii) (t : trace) :
    sprintf_succeeds o (proc_path pid "exe") ->
    allocReadlink o (proc_path pid "exe") true = ((true, Some exeLink), t) ->
    sprintf_succeeds o (proc_path pid "cmdline") ->
    os_open o (proc_path pid "cmdline") = OpenErr errno ->
    vanished_or_denied errno ->
    unreadable o pid.

End Resume.

(** ** The suspend operation *)

Module Suspend.
Import LibC.

(** *** What libdbus, Xlib and the kernel answer *)

(** A libdbus call that returns a pointer: NULL, with the [DBusError]
    set or not, or an object. *)
Inductive dbus_result (A : Type) := DBusNull (error_is_set : bool) | DBusOk (a : A).
Arguments DBusNull {A} error_is_set.
Arguments DBusOk {A} a.

(** The arguments of a reply message, by type. *)
Inductive dbus_arg := ArgUInt32 (v : Z) | ArgOther.

Inductive xevent := DestroyNotify (event window : Z) | OtherEvent (type : Z).

(** What a call of [XPending] leads to: an event that [XNextEvent] then
    returns, or an error read from the connection, for which Xlib calls
    the installed error handler. *)
Inductive xitem := XEvent (ev : xevent) | XProtocolError | XIOError.

Inductive select_result := SelectErr | SelectReady (signal_fd x_fd : bool).
Inductive read_result := ReadErr | ReadSiginfo (ssi_signo : Z).

(** One turn of the wait loop: what the drain meets until [XPending]
    returns 0, what [select] then returns, and what reading the signal fd
    gives if it is read. *)
Record iteration := {
  it_pending : list xitem;
  it_select : select_result;
  it_read : read_result
}.

Record env := {
  sigprocmask_ret : Z;
  signalfd_ret : Z;
  dbus_bus_get : dbus_result unit;
  new_inhibit_msg : bool;            (* dbus_message_new_method_call(.., "Inhibit") != NULL *)
  append_prog : bool;                (* dbus_message_iter_append_basic *)
  alloc : Z -> bool;                 (* malloc in allocSprintf *)
  append_reason : bool;
  inhibit_reply : dbus_result (list dbus_arg);
  xopen_display : bool;              (* XOpenDisplay(NULL) != NULL *)
  xsync_error : bool;                (* XSync meets an error, BadWindow for one *)
  fork_ret : Z;
  iterations : list iteration;       (* after them nothing ever becomes ready *)
  new_uninhibit_msg : bool;          (* dbus_message_new_method_call(.., "UnInhibit") != NULL *)
  append_cookie : bool;
  uninhibit_reply : dbus_result (list dbus_arg)
}.

(** *** struct operationSuspendData_t (lines 71-80); pointers are kept
    as "is not NULL" *)
Record data := {
  dbusConn : bool;
  inhibitReason : option (list ascii);
  inhibitMsg : bool;
  inhibitReplyMsg : bool;
  unInhibitMsg : bool;
  unInhibitReplyMsg : bool;
  screenSaverInhibitCookie : Z;
  screenSaverInhibited : bool;
  display : bool;
  signalFd : Z
}.

Definition zero_data : data :=
  {| dbusConn := false; inhibitReason := None; inhibitMsg := false;
     inhibitReplyMsg := false; unInhibitMsg := false; unInhibitReplyMsg := false;
     screenSaverInhibitCookie := 0; screenSaverInhibited := false;
     display := false; signalFd := 0 |}.

Definition set_dbusConn (v : bool) (d : data) : data :=
  {| dbusConn := v; inhibitReason := inhibitReason d; inhibitMsg := inhibitMsg d;
     inhibitReplyMsg := inhibitReplyMsg d; unInhibitMsg := unInhibitMsg d;
     unInhibitReplyMsg := unInhibitReplyMsg d;
     screenSaverInhibitCookie := screenSaverInhibitCookie d;
     screenSaverInhibited := screenSaverInhibited d;
     display := display d; signalFd := signalFd d |}.

Definition set_inhibitReason (v : option (list ascii)) (d : data) : data :=
  {| dbusConn := dbusConn d; inhibitReason := v; inhibitMsg := inhibitMsg d;
     inhibitReplyMsg := inhibitReplyMsg d; unInhibitMsg := unInhibitMsg d;
     unInhibitReplyMsg := unInhibitReplyMsg d;
     screenSaverInhibitCookie := screenSaverInhibitCookie d;
     screenSaverInhibited := screenSaverInhibited d;
     display := display d; signalFd := signalFd d |}.

Definition set_inhibitMsg (v : bool) (d : data) : data :=
  {| dbusConn := dbusConn d; inhibitReason := inhibitReason d; inhibitMsg := v;
     inhibitReplyMsg := inhibitReplyMsg d; unInhibitMsg := unInhibitMsg d;
     unInhibitReplyMsg := unInhibitReplyMsg d;
     screenSaverInhibitCookie := screenSaverInhibitCookie d;
     screenSaverInhibited := screenSaverInhibited d;
     display := display d; signalFd := signalFd d |}.

Definition set_inhibitReplyMsg (v : bool) (d : data) : data :=
  {| dbusConn := dbusConn d; inhibitReason := inhibitReason d; inhibitMsg := inhibitMsg d;
     inhibitReplyMsg := v; unInhibitMsg := unInhibitMsg d;
     unInhibitReplyMsg := unInhibitReplyMsg d;
     screenSaverInhibitCookie := screenSaverInhibitCookie d;
     screenSaverInhibited := screenSaverInhibited d;
     display := display d; signalFd := signalFd d |}.

Definition set_unInhibitMsg (v : bool) (d : data) : data :=
  {| dbusConn := dbusConn d; inhibitReason := inhibitReason d; inhibitMsg := inhibitMsg d;
     inhibitReplyMsg := inhibitReplyMsg d; unInhibitMsg := v;
     unInhibitReplyMsg := unInhibitReplyMsg d;
     screenSaverInhibitCookie := screenSaverInhibitCookie d;
     screenSaverInhibited := screenSaverInhibited d;
     display := display d; signalFd := signalFd d |}.

Definition set_unInhibitReplyMsg (v : bool) (d : data) : data :=
  {| dbusConn := dbusConn d; inhibitReason := inhibitReason d; inhibitMsg := inhibitMsg d;
     inhibitReplyMsg := inhibitReplyMsg d; unInhibitMsg := unInhibitMsg d;
     unInhibitReplyMsg := v;
     screenSaverInhibitCookie := screenSaverInhibitCookie d;
     screenSaverInhibited := screenSaverInhibited d;
     display := display d; signalFd := signalFd d |}.

(** [dbus_message_iter_get_basic(.., &d->screenSaverInhibitCookie);
    d->screenSaverInhibited = true;] *)
Definition set_cookie (v : Z) (d : data) : data :=
  {| dbusConn := dbusConn d; inhibitReason := inhibitReason d; inhibitMsg := inhibitMsg d;
     inhibitReplyMsg := inhibitReplyMsg d; unInhibitMsg := unInhibitMsg d;
     unInhibitReplyMsg := unInhibitReplyMsg d;
     screenSaverInhibitCookie := v;
     screenSaverInhibited := true;
     display := display d; signalFd := signalFd d |}.

Definition set_display (v : bool) (d : data) : data :=
  {| dbusConn := dbusConn d; inhibitReason := inhibitReason d; inhibitMsg := inhibitMsg d;
     inhibitReplyMsg := inhibitReplyMsg d; unInhibitMsg := unInhibitMsg d;
     unInhibitReplyMsg := unInhibitReplyMsg d;
     screenSaverInhibitCookie := screenSaverInhibitCookie d;
     screenSaverInhibited := screenSaverInhibited d;
     display := v; signalFd := signalFd d |}.

Definition set_signalFd (v : Z) (d : data) : data :=
  {| dbusConn := dbusConn d; inhibitReason := inhibitReason d; inhibitMsg := inhibitMsg d;
     inhibitReplyMsg := inhibitReplyMsg d; unInhibitMsg := unInhibitMsg d;
     unInhibitReplyMsg := unInhibitReplyMsg d;
     screenSaverInhibitCookie := screenSaverInhibitCookie d;
     screenSaverInhibited := screenSaverInhibited d;
     display := display d; signalFd := v |}.

(** *** operationSuspendFinish (lines 82-150) *)

(** The block between "Un-inhibit screen saver" and the label
    [unInhibitScreenSaverEnd]: [returnValue], the record and the events. *)
Definition unInhibitScreenSaver (e : env) (d : data) : bool * data * trace :=
  if negb (screenSaverInhibited d) then (true, d, [])
  else if negb (new_uninhibit_msg e) then (false, d, [EvStderr "Out of memory"])
  else
    let d := set_unInhibitMsg true d in
    if negb (append_cookie e) then (false, d, [EvStderr "Out of memory"])
    else
      let send := EvDBusCall "UnInhibit" (Some (screenSaverInhibitCookie d)) in
      match uninhibit_reply e with
      | DBusNull error_is_set =>
          (false, d,
           send :: if error_is_set then [EvStderr "Failed to call D-Bus method"] else [])
      | DBusOk args =>
          let d := set_unInhibitReplyMsg true d in
          match args with
          | [] => (true, d, [send])
          | _ :: _ => (false, d, [send; EvStderr "Unexpected D-Bus reply"])
          end
      end.

Definition operationSuspendFinish (e : env) (d : data) : bool * data * trace :=
  let '(returnValue, d, t) := unInhibitScreenSaver e d in
  (returnValue, d,
   t ++ (if dbusConn d then [EvDBusConnUnref] else [])
     ++ (if negb (signalFd d =? -1) then [EvCloseFd (signalFd d)] else [])
     ++ (if display d
         then (* Unset custom X error handlers because they call this function *)
              [EvXSetHandlers false; EvXCloseDisplay]
         else [])).

(** *** Code that runs on the record, logs events and may leave *)

Inductive stop :=
| CleanReturn (value : bool)   (* cleanReturn(value) *)
| ExitParent                   (* exit(EXIT_SUCCESS) after fork *)
| ExitXError                   (* exit(EXIT_FAILURE) in an X error handler *)
| Blocked.                     (* select never returns *)

Inductive step (A : Type) := Next (a : A) | Stop (s : stop).
Arguments Next {A} a.
Arguments Stop {A} s.

Definition M (A : Type) : Type := data -> step A * data * trace.

Definition ret {A} (a : A) : M A := fun d => (Next a, d, []).

Definition bind {A B} (m : M A) (k : A -> M B) : M B := fun d =>
  match m d with
  | (Next a, d', t) => let '(r, d'', t') := k a d' in (r, d'', t ++ t')
  | (Stop s, d', t) => (Stop s, d', t)
  end.

Definition log (ev : event) : M unit := fun d => (Next tt, d, [ev]).
Definition modify (f : data -> data) : M unit := fun d => (Next tt, f d, []).
Definition leave {A} (s : stop) : M A := fun d => (Stop s, d, []).
Definition cleanReturn {A} (value : bool) : M A := leave (CleanReturn value).

#[local] Notation "m ;;; k" := (bind m (fun _ => k))
  (at level 61, right associativity).

Definition when (b : bool) (m : M unit) : M unit := if b then m else ret tt.

(** *** The X error handlers (lines 152-166)

    [operationSuspendXErrorHandler] and [operationSuspendXIOErrorHandler]
    have the same body up to the default handler they call last, which
    prints and may exit by itself with status 1. *)
Definition operationSuspendXErrorHandler {A} (e : env) : M A := fun d =>
  let d := set_display false d in   (* don't free display structure *)
  let '(_, d, t) := operationSuspendFinish e d in
  (Stop ExitXError, d, t ++ [EvExit EXIT_FAILURE]).

(** *** operationSuspend (lines 168-294) *)

Definition reason_text (window : Z) : list ascii :=
  bytes "waiting for X window " ++ fmt_alt_lx window.

(** Lines 169-257: up to the [fork]. *)
Definition operationSuspend_setup (e : env) (prog : list ascii) (window : Z) : M unit :=
  (* Set up signal fd *)
  when (sigprocmask_ret e <? 0)
    (log (EvStderr "Failed to block signals") ;;; cleanReturn false) ;;;
  modify (set_signalFd (signalfd_ret e)) ;;;
  when (signalfd_ret e <? 0)
    (log (EvStderr "Failed to create signal fd") ;;; cleanReturn false) ;;;
  (* Init D-Bus *)
  match dbus_bus_get e with
  | DBusNull error_is_set =>
      when error_is_set (log (EvStderr "Failed to connect D-Bus")) ;;; cleanReturn false
  | DBusOk _ => modify (set_dbusConn true)
  end ;;;
  (* Inhibit screen saver *)
  when (negb (new_inhibit_msg e)) (log (EvStderr "Out of memory") ;;; cleanReturn false) ;;;
  modify (set_inhibitMsg true) ;;;
  when (negb (append_prog e)) (log (EvStderr "Out of memory") ;;; cleanReturn false) ;;;
  match allocSprintf (alloc e) (reason_text window) with
  | (None, t) => (fun d => (Stop (CleanReturn false), d, t))
  | (Some s, t) => (fun d => (Next tt, set_inhibitReason (Some s) d, t))
  end ;;;
  when (negb (append_reason e)) (log (EvStderr "Out of memory") ;;; cleanReturn false) ;;;
  log (EvDBusCall "Inhibit" None) ;;;
  match inhibit_reply e with
  | DBusNull error_is_set =>
      when error_is_set (log (EvStderr "Failed to call D-Bus method")) ;;; cleanReturn false
  | DBusOk args =>
      modify (set_inhibitReplyMsg true) ;;;
      match args with
      | ArgUInt32 cookie :: args' =>
          modify (set_cookie cookie) ;;;
          match args' with
          | [] => ret tt
          | _ :: _ => log (EvStderr "Unexpected D-Bus reply") ;;; cleanReturn false
          end
      | _ => log (EvStderr "Unexpected D-Bus reply") ;;; cleanReturn false
      end
  end ;;;
  (* Set custom X error handlers *)
  log (EvXSetHandlers true) ;;;
  (* Init X *)
  log EvXOpenDisplay ;;;
  when (negb (xopen_display e)) (log (EvStderr "Failed to open X display") ;;; cleanReturn false) ;;;
  modify (set_display true) ;;;
  (* Monitor X events for destruction of window (BadWindow error if window invalid) *)
  log EvXSync ;;;
  when (xsync_error e) (operationSuspendXErrorHandler e).

(** Lines 265-272: [while (XPending(d->display) > 0)]. *)
Fixpoint drain_events (e : env) (window : Z) (pending : list xitem) : M unit :=
  match pending with
  | [] => log (EvXPending false)
  | XEvent ev :: pending' =>
      log (EvXPending true) ;;;
      log EvXNextEvent ;;;
      match ev with
      | DestroyNotify event _ =>
          if event =? window
          then log (EvStderr "Window destroyed") ;;; cleanReturn true
          else drain_events e window pending'
      | OtherEvent _ => drain_events e window pending'
      end
  | XProtocolError :: _ => operationSuspendXErrorHandler e
  | XIOError :: _ => operationSuspendXErrorHandler e
  end.

(** Lines 263-288: [while (true)]. *)
Fixpoint wait_loop (e : env) (window : Z) (its : list iteration) : M Empty_set :=
  match its with
  | [] =>
      (* nothing is queued and nothing becomes ready any more *)
      log (EvXPending false) ;;; log EvSelect ;;; leave Blocked
  | it :: its' =>
      (* Flush X requests and handle pending events (required before select) *)
      drain_events e window (it_pending it) ;;;
      log EvSelect ;;;
      match it_select it with
      | SelectErr =>
          log (EvStderr "Failed to block on file descriptors") ;;; cleanReturn false
      | SelectReady signal_fd _ =>
          if signal_fd then
            log EvReadSignalFd ;;;
            match it_read it with
            | ReadErr => log (EvStderr "Failed to read signal fd") ;;; cleanReturn false
            | ReadSiginfo ssi_signo =>
                log (EvReceivedSignal ssi_signo) ;;;
                cleanReturn (ssi_signo =? SIGTERM)
            end
          else wait_loop e window its'
      end
  end.

Definition operationSuspend_body (e : env) (prog : list ascii) (window : Z)
  : M Empty_set :=
  operationSuspend_setup e prog window ;;;
  (* Fork into background *)
  log EvFork ;;;
  when (negb (fork_ret e =? 0))
    ((* Terminate immediately without cleanup *)
     log (EvExit EXIT_SUCCESS) ;;; leave ExitParent) ;;;
  wait_loop e window (iterations e).

(** How a call of [operationSuspend] ends: it returns, or the process
    exits inside it, or it waits for ever in [select]. *)
Inductive outcome :=
| Returned (value : bool)
| ExitAfterFork                (* line 261, no cleanup *)
| ExitInXErrorHandler          (* lines 157 and 165, after operationSuspendFinish *)
| Waits.

Definition exit_status (o : outcome) : option Z :=
  match o with
  | Returned _ => None
  | ExitAfterFork => Some EXIT_SUCCESS
  | ExitInXErrorHandler => Some EXIT_FAILURE
  | Waits => None
  end.

(** Whether [operationSuspendFinish] ran. *)
Definition cleanup_ran (o : outcome) : bool :=
  match o with
  | Returned _ => true
  | ExitInXErrorHandler => true
  | ExitAfterFork => false
  | Waits => false
  end.

Definition initial_data : data := set_signalFd (-1) zero_data.

Definition operationSuspend (e : env) (prog : list ascii) (window : Z)
  : outcome * data * trace :=
  match operationSuspend_body e prog window initial_data with
  | (Next a, _, _) => match a with end
  | (Stop (CleanReturn value), d, t) =>
      (* cleanReturn: *)
      let '(ok, d, t') := operationSuspendFinish e d in
      (Returned (if negb ok then false else value), d, t ++ t')
  | (Stop ExitParent, d, t) => (ExitAfterFork, d, t)
  | (Stop ExitXError, d, t) => (ExitInXErrorHandler, d, t)
  | (Stop Blocked, d, t) => (Waits, d, t)
  end.

(** *** The gated signals (line 34 and lines 175-179) *)

Definition EXIT_SIGNALS : list Z := [SIGHUP; SIGINT; SIGPIPE; SIGQUIT; SIGTERM; 0].

(** [for (int i = 0; EXIT_SIGNALS[i] != 0; i++) sigaddset(&exit_sigset, EXIT_SIGNALS[i]);] *)
Fixpoint sigaddset_loop (signals : list Z) (exit_sigset : list Z) : list Z :=
  match signals with
  | [] => exit_sigset
  | sig :: signals' =>
      if sig =? 0 then exit_sigset else sigaddset_loop signals' (exit_sigset ++ [sig])
  end.

Definition exit_sigset : list Z := sigaddset_loop EXIT_SIGNALS [].

(** *** Reading traces *)

(** The release call: [UnInhibit] sent with [send_with_reply_and_block]. *)
Definition is_release (ev : event) : bool :=
  match ev with
  | EvDBusCall member _ => String.eqb member "UnInhibit"
  | _ => false
  end.

Definition releases (t : trace) : nat := List.length (filter is_release t).

(** The events of [operationSuspendFinish]. *)
Definition is_cleanup (ev : event) : bool :=
  match ev with
  | EvDBusCall member _ => String.eqb member "UnInhibit"
  | EvDBusConnUnref | EvCloseFd _ | EvXCloseDisplay | EvXSetHandlers false => true
  | _ => false
  end.

(** The number of release calls that [operationSuspendFinish] sends on
    the record [d]. *)
Definition sends (e : env) (d : data) : nat :=
  if screenSaverInhibited d && new_uninhibit_msg e && append_cookie e
  then 1%nat else 0%nat.

Definition is_exit (ev : event) : bool :=
  match ev with EvExit _ => true | _ => false end.

Definition is_fork (ev : event) : bool :=
  match ev with EvFork => true | _ => false end.

(** Blocking in [select] and reading the signal fd. *)
Definition is_select_or_signal (ev : event) : bool :=
  match ev with
  | EvSelect | EvReadSignalFd | EvReceivedSignal _ => true
  | _ => false
  end.

(** Every [select] in the trace comes right after an [XPending] that
    found nothing queued; [drained] tells whether the event before the
    trace was such an [XPending]. *)
Fixpoint drained_before_select (drained : bool) (t : trace) : bool :=
  match t with
  | [] => true
  | EvSelect :: t' => drained && drained_before_select false t'
  | EvXPending queued :: t' => drained_before_select (negb queued) t'
  | _ :: t' => drained_before_select false t'
  end.

(** An X item that the drain passes over: an event that is not the
    destruction of [window]. *)
Definition passes_over (window : Z) (x : xitem) : bool :=
  match x with
  | XEvent (DestroyNotify event _) => negb (event =? window)
  | XEvent (OtherEvent _) => true
  | XProtocolError | XIOError => false
  end.

(** An iteration after which the loop goes round again. *)
Definition goes_round (window : Z) (it : iteration) : bool :=
  forallb (passes_over window) (it_pending it)
  && match it_select it with SelectReady false _ => true | _ => false end.

(** The events of the setup (lines 169-257) and of the wait loop. *)
Definition is_setup_event (ev : event) : bool :=
  match ev with
  | EvStderr _ | EvXSetHandlers true | EvXOpenDisplay | EvXSync => true
  | EvDBusCall member _ => String.eqb member "Inhibit"
  | _ => false
  end.

Definition is_loop_event (ev : event) : bool :=
  match ev with
  | EvStderr _ | EvXPending _ | EvXNextEvent | EvSelect | EvReadSignalFd
  | EvReceivedSignal _ => true
  | _ => false
  end.

(** The events of a drain over items it passes over, before the
    [XPending] that ends it, and the events of turns that go round. *)
Definition drained_prefix (pending : list xitem) : trace :=
  flat_map (fun _ => [EvXPending true; EvXNextEvent]) pending.

Definition rounds_trace (its : list iteration) : trace :=
  flat_map (fun it => drained_prefix (it_pending it) ++ [EvXPending false; EvSelect]) its.

End Suspend.

(** ** main (lines 463-494): the WindowID argument *)

Module Main.
Import LibC.

(** [window = strtoul(argv[2], &windowEnd, 0)] and the test that follows;
    [None] stands for "Invalid WindowId". *)
Definition parse_window (arg : list ascii) : option Z :=
  let '(window, windowEnd) := strtoul (cstr arg) in
  if is_nul (head_byte (cstr arg)) || negb (is_nul (head_byte windowEnd))
  then None else Some window.

End Main.


(** ** Concrete systems and runs, for the examples *)

Module Examples.
Import LibC Resume Suspend.

(** The bytes of [/proc/<pid>/cmdline] for an argument vector. *)
Definition blob (argv : list string) : list ascii :=
  flat_map (fun a => bytes a ++ [NUL]) argv.

Definition whole_file (data : list ascii) : file :=
  {| f_data := data; f_fail := fun _ => None |}.

Definition self_exe : list ascii := bytes "/usr/bin/xdg-screensaver".

(** A system on which [resume] runs from [self_exe], with one process of
    interest, 4242, whose [exe] link and [cmdline] file answer as given;
    every other pid is gone.  [entries] is the listing of [/proc]. *)
Definition system (exe : readlink_result) (cmdline : open_result)
    (entries : list string) : os :=
  {| os_alloc := fun _ => true;
     os_readlink := fun path =>
       if bytes_eqb path (bytes "/proc/self/exe") then ReadlinkOk self_exe
       else if bytes_eqb path (bytes "/proc/4242/exe") then exe
       else ReadlinkErr ENOENT;
     os_open := fun path =>
       if bytes_eqb path (bytes "/proc/4242/cmdline") then cmdline
       else OpenErr ENOENT;
     os_kill := fun _ _ => KillOk;
     os_opendir := fun path =>
       if bytes_eqb path (bytes "/proc") then Some (map bytes entries) else None |}.

(** The process 4242 has exited between the listing and the reads. *)
Definition system_gone : os :=
  system (ReadlinkErr ENOENT) (OpenErr ENOENT) ["1"; "4242"; "cpuinfo"]%string.

(** The [cmdline] file of 4242 opens and is empty. *)
Definition system_empty_cmdline : os :=
  system (ReadlinkOk self_exe) (OpenOk (whole_file [])) ["1"; "4242"]%string.

(** 4242 is a zombie: its [exe] link is gone, its [cmdline] file opens
    and is empty. *)
Definition system_zombie : os :=
  system (ReadlinkErr ENOENT) (OpenOk (whole_file [])) ["4242"]%string.

(** The [cmdline] file of a process that has exited since the file was
    opened: every [read] fails with [ESRCH]. *)
Definition exited_file : file := {| f_data := []; f_fail := fun _ => Some ESRCH |}.

(** 4242 exits between the [open] and the [read] of its [cmdline] file;
    the listing goes on with the pid 1, which is gone. *)
Definition system_exits_during_read : os :=
  system (ReadlinkOk self_exe) (OpenOk exited_file) ["4242"; "1"]%string.

(** 4242 has exited before its [cmdline] file is opened. *)
Definition system_exits_before_open : os :=
  system (ReadlinkOk self_exe) (OpenErr ENOENT) ["4242"; "1"]%string.

(** 4242 is [virsh suspend 6699], a program that has nothing to do with
    the screensaver; 6699 is 0x1a2b. *)
Definition system_virsh : os :=
  system (ReadlinkOk (bytes "/usr/bin/virsh"))
         (OpenOk (whole_file (blob ["virsh"; "suspend"; "6699"]%string))) ["4242"]%string.

(** A listing of [/proc] with the entry [self], which every Linux system
    has; no process is of interest. *)
Definition system_self_entry : os :=
  system (ReadlinkErr ENOENT) (OpenErr ENOENT) ["self"]%string.

(** A session in which every call of the setup succeeds and the inhibit
    service hands out the cookie 77; [fork] is what [fork] returns, [its]
    what happens in the wait loop, [new_msg] whether the release message
    can be allocated and [release] the reply to the release call. *)
Definition session (fork : Z) (its : list iteration) (new_msg : bool)
    (release : dbus_result (list dbus_arg)) : env :=
  {| sigprocmask_ret := 0;
     signalfd_ret := 3;
     dbus_bus_get := DBusOk tt;
     new_inhibit_msg := true;
     append_prog := true;
     alloc := fun _ => true;
     append_reason := true;
     inhibit_reply := DBusOk [ArgUInt32 77];
     xopen_display := true;
     xsync_error := false;
     fork_ret := fork;
     iterations := its;
     new_uninhibit_msg := new_msg;
     append_cookie := true;
     uninhibit_reply := release |}.

Definition prog : list ascii := bytes "xdg-screensaver".

(** The window 6699 is destroyed and SIGHUP is pending in the same turn:
    the [DestroyNotify] is queued when the turn starts. *)
Definition destroyed_and_signalled : iteration :=
  {| it_pending := [XEvent (OtherEvent 22); XEvent (DestroyNotify 6699 6699)];
     it_select := SelectReady true true;
     it_read := ReadSiginfo SIGHUP |}.

(** Nothing is queued when the turn starts; [select] then reports both
    the signal fd and the X connection readable. *)
Definition both_ready_in_select : iteration :=
  {| it_pending := [];
     it_select := SelectReady true true;
     it_read := ReadSiginfo SIGHUP |}.

(** What the X connection then holds: the [DestroyNotify] of 6699. *)
Definition destruction_queued : iteration :=
  {| it_pending := [XEvent (DestroyNotify 6699 6699)];
     it_select := SelectReady false false;
     it_read := ReadErr |}.

Definition x_traffic : iteration :=
  {| it_pending := [XEvent (OtherEvent 22)];
     it_select := SelectReady false true;
     it_read := ReadErr |}.

Definition sigterm_arrives : iteration :=
  {| it_pending := [];
     it_select := SelectReady true false;
     it_read := ReadSiginfo SIGTERM |}.

(** The window is destroyed; all goes well. *)
Definition session_destroyed : env :=
  session 0 [x_traffic; destroyed_and_signalled] true (DBusOk []).

(** The window is destroyed; the release call gets no reply. *)
Definition session_release_fails : env :=
  session 0 [destroyed_and_signalled] true (DBusNull true).



(** The destruction and SIGHUP become ready while [select] blocks. *)
Definition session_race_in_select : env :=
  session 0 [both_ready_in_select; destruction_queued] true (DBusOk []).

Definition session_sigterm : env :=
  session 0 [x_traffic; sigterm_arrives] true (DBusOk []).

(** [fork] fails. *)
Definition session_fork_fails : env :=
  session (-1) [] true (DBusOk []).

End Examples.

(** ** main (lines 463-494) and help (lines 456-461) *)

Module Cli.
Import LibC.

(** How the process ends: [main] returns a status, the process exits
    inside [operationSuspend], or it waits for ever. *)
Inductive ending := Returns (status : Z) | Exits (status : Z) | Hangs.

(** What a run of the program gives: its end, the lines written to
    standard output and the events. *)
Definition process_run : Type := ending * list (list ascii) * trace.

(** [printf] lines of [help]; the first format ends in two newlines. *)
Definition help (prog : list ascii) : list (list ascii) :=
  [cstr prog ++ bytes " - command line tool for controlling the screensaver";
   [];
   cstr prog ++ bytes " suspend WindowID";
   cstr prog ++ bytes " resume WindowID";
   cstr prog ++ bytes " { --help | --version }"].

Definition status_of (ok : bool) : Z := if ok then EXIT_SUCCESS else EXIT_FAILURE.

Definition invalidArguments : process_run :=
  (Returns EXIT_FAILURE, [], [EvStderr "Invalid command-line arguments (see --help)"]).

(** [return op(argv[0], window) ? EXIT_SUCCESS : EXIT_FAILURE;] with
    [op = operationSuspend]. *)
Definition run_suspend (e : Suspend.env) (prog : list ascii) (window : Z) : process_run :=
  match Suspend.operationSuspend e prog window with
  | (Suspend.Returned ok, _, t) => (Returns (status_of ok), [], t)
  | (Suspend.ExitAfterFork, _, t) => (Exits EXIT_SUCCESS, [], t)
  | (Suspend.ExitInXErrorHandler, _, t) => (Exits EXIT_FAILURE, [], t)
  | (Suspend.Waits, _, t) => (Hangs, [], t)
  end.

Definition run_resume (o : Resume.os) (prog : list ascii) (window : Z) : process_run :=
  let '(ok, t) := Resume.operationResume o prog window in
  (Returns (status_of ok), [], t).

(** [VERSION] comes from [project-config.h]; [e] and [o] are what the
    outside answers to [suspend] and to [resume]. *)
Definition main (VERSION : list ascii) (e : Suspend.env) (o : Resume.os)
    (argv : list (list ascii)) : process_run :=
  match argv with
  | [prog; arg1; arg2] =>
      (* argc == 3 *)
      let with_window (op : list ascii -> Z -> process_run) : process_run :=
        match Main.parse_window arg2 with
        | None => (Returns EXIT_FAILURE, [], [EvStderr "Invalid WindowId"])
        | Some window => op prog window
        end in
      if streq arg1 (bytes "suspend") then with_window (run_suspend e)
      else if streq arg1 (bytes "resume") then with_window (run_resume o)
      else invalidArguments
  | [prog; arg1] =>
      (* argc == 2 *)
      if streq arg1 (bytes "--help") then (Returns EXIT_SUCCESS, help prog, [])
      else if streq arg1 (bytes "--version")
      then (Returns EXIT_SUCCESS, [cstr prog ++ bytes " " ++ VERSION], [])
      else invalidArguments
  | _ => invalidArguments
  end.

(** The argument vectors on which [main] runs an operation. *)
Definition runs_operation (argv : list (list ascii)) : bool :=
  match argv with
  | [_; arg1; arg2] =>
      (streq arg1 (bytes "suspend") || streq arg1 (bytes "resume"))
      && match Main.parse_window arg2 with Some _ => true | None => false end
  | _ => false
  end.

(** The argument vectors that ask for the help or the version. *)
Definition asks_text (argv : list (list ascii)) : bool :=
  match argv with
  | [_; arg1] => streq arg1 (bytes "--help") || streq arg1 (bytes "--version")
  | _ => false
  end.

End Cli.

(** ** More ways to read the two operations *)

Module Reading.
Import LibC.

Definition no_nul (s : list ascii) : bool := forallb (fun c => negb (is_nul c)) s.

(** The bytes of [/proc/<pid>/cmdline] of a process started as
    [argv0 suspend token]. *)
Definition suspend_cmdline (argv0 token : list ascii) : list ascii :=
  argv0 ++ NUL :: bytes "suspend" ++ NUL :: token ++ [NUL].

(** Every allocation succeeds. *)
Definition enough_memory (o : Resume.os) : Prop := forall n, Resume.os_alloc o n = true.

(** Every [read] of the file succeeds. *)
Definition readable (f : Resume.file) : Prop := forall k, Resume.f_fail f k = None.

(** Whether the result of [kill] counts as success for the matcher:
    it went through, or it failed with EPERM or ESRCH. *)
Definition kill_tolerated (r : Resume.kill_result) : bool :=
  match r with
  | Resume.KillOk => true
  | Resume.KillErr errno => (errno =? EPERM) || (errno =? ESRCH)
  end.

Definition is_close_display (ev : event) : bool :=
  match ev with EvXCloseDisplay => true | _ => false end.

Definition closes (t : trace) : nat := List.length (filter is_close_display t).

(** Every [XCloseDisplay] in the trace comes right after the call that
    unsets the custom X error handlers; [unset] tells whether the event
    before the trace was that call. *)
Fixpoint unset_before_close (unset : bool) (t : trace) : bool :=
  match t with
  | [] => true
  | EvXCloseDisplay :: t' => unset && unset_before_close false t'
  | EvXSetHandlers custom :: t' => unset_before_close (negb custom) t'
  | _ :: t' => unset_before_close false t'
  end.

(** The setup of [operationSuspend] goes well up to the reply of the
    inhibit call. *)
Definition setup_reaches_reply (e : Suspend.env) (window : Z) : Prop :=
  (Suspend.sigprocmask_ret e <? 0) = false
  /\ (Suspend.signalfd_ret e <? 0) = false
  /\ Suspend.dbus_bus_get e = Suspend.DBusOk tt
  /\ Suspend.new_inhibit_msg e = true
  /\ Suspend.append_prog e = true
  /\ Suspend.alloc e (len (Suspend.reason_text window) + NULL_BYTE_LEN) = true
  /\ Suspend.append_reason e = true.

(** What holds of the record and the events when the setup has failed:
    a cookie in the record is the one the inhibit service replied, after
    the inhibit call; and the display was only asked for with a cookie
    from a reply of exactly one argument. *)
Definition failed_setup (e : Suspend.env) (d : Suspend.data) (t : trace) : Prop :=
  (Suspend.screenSaverInhibited d = true ->
   exists cookie rest,
     Suspend.inhibit_reply e = Suspend.DBusOk (Suspend.ArgUInt32 cookie :: rest)
     /\ Suspend.screenSaverInhibitCookie d = cookie
     /\ In (EvDBusCall "Inhibit" None) t)
  /\ (In EvXOpenDisplay t ->
      Suspend.screenSaverInhibited d = true
      /\ exists cookie,
           Suspend.inhibit_reply e = Suspend.DBusOk [Suspend.ArgUInt32 cookie]).

(** The events of a setup that reaches [XSync]. *)
Definition setup_trace : trace :=
  [EvDBusCall "Inhibit" None; EvXSetHandlers true; EvXOpenDisplay; EvXSync].

End Reading.

(** ** More concrete systems and runs *)

Module MoreExamples.
Import LibC Resume Suspend.

(** [/proc/self/exe] cannot be read. *)
Definition system_no_self : os :=
  {| os_alloc := fun _ => true;
     os_readlink := fun _ => ReadlinkErr ENOENT;
     os_open := fun _ => OpenErr ENOENT;
     os_kill := fun _ _ => KillOk;
     os_opendir := fun _ => Some [bytes "4242"] |}.

(** The link [/proc/self/exe] is 300 bytes long and [/proc] cannot be
    opened. *)
Definition system_no_proc : os :=
  {| os_alloc := fun _ => true;
     os_readlink := fun _ => ReadlinkOk (repeat "a"%char 300);
     os_open := fun _ => OpenErr ENOENT;
     os_kill := fun _ _ => KillOk;
     os_opendir := fun _ => None |}.

(** The inhibit service replies with a cookie and one more argument. *)
Definition session_long_reply : env :=
  {| sigprocmask_ret := 0;
     signalfd_ret := 3;
     dbus_bus_get := DBusOk tt;
     new_inhibit_msg := true;
     append_prog := true;
     alloc := fun _ => true;
     append_reason := true;
     inhibit_reply := DBusOk [ArgUInt32 77; ArgOther];
     xopen_display := true;
     xsync_error := false;
     fork_ret := 0;
     iterations := [];
     new_uninhibit_msg := true;
     append_cookie := true;
     uninhibit_reply := DBusOk [] |}.

(** The window does not exist: [XSync] meets BadWindow. *)
Definition session_bad_window : env :=
  {| sigprocmask_ret := 0;
     signalfd_ret := 3;
     dbus_bus_get := DBusOk tt;
     new_inhibit_msg := true;
     append_prog := true;
     alloc := fun _ => true;
     append_reason := true;
     inhibit_reply := DBusOk [ArgUInt32 77];
     xopen_display := true;
     xsync_error := true;
     fork_ret := 0;
     iterations := [];
     new_uninhibit_msg := true;
     append_cookie := true;
     uninhibit_reply := DBusOk [] |}.

End MoreExamples.

(** * Properties *)

Import LibC.

(** ** Lists *)

Lemma forallb_weaken {A} (f g : A -> bool) (l : list A) :
  (forall a, f a = true -> g a = true) -> forallb f l = true -> forallb g l = true.
Proof.
  intros Hfg H. rewrite forallb_forall in *. intros a Ha. apply Hfg, H, Ha.
Qed.

Lemma forallb_false_exists {A} (f : A -> bool) (l : list A) :
  forallb f l = false <-> exists a, In a l /\ f a = false.
Proof.
  split.
  - induction l as [| a l IH]; [discriminate |].
    cbn [forallb]. intros H. apply andb_false_iff in H as [Ha | Hl].
    + exists a. split; [now left | exact Ha].
    + destruct (IH Hl) as [b [Hin Hb]]. exists b. split; [now right | exact Hb].
  - intros [a [Hin Ha]].
    destruct (forallb f l) eqn:Hall; [| reflexivity].
    rewrite forallb_forall in Hall. rewrite (Hall a Hin) in Ha. discriminate.
Qed.

Lemma in_forallb_false {A} (P : A -> bool) (l : list A) (a : A) :
  forallb P l = true -> P a = false -> ~ In a l.
Proof.
  intros Hl Ha Hin. rewrite forallb_forall in Hl. rewrite (Hl a Hin) in Ha. discriminate.
Qed.

(** ** Numerals *)

Lemma digit_in_digit_char (d : Z) :
  0 <= d < 16 -> digit_in 16 (digit_char d) = Some d.
Proof.
  intros H.
  assert (Hd : d = 0 \/ d = 1 \/ d = 2 \/ d = 3 \/ d = 4 \/ d = 5 \/ d = 6 \/ d = 7
               \/ d = 8 \/ d = 9 \/ d = 10 \/ d = 11 \/ d = 12 \/ d = 13 \/ d = 14
               \/ d = 15) by lia.
  repeat destruct Hd as [Hd | Hd]; subst d; reflexivity.
Qed.

Lemma render_digits_zero (base : Z) (fuel : nat) (acc : list ascii) :
  render_digits base fuel 0 acc = acc.
Proof. destruct fuel; reflexivity. Qed.

(** Reading back the digits that were written gives the number. *)
Lemma scan_render_digits (fuel : nat) :
  forall n acc, 0 <= n < 16 ^ Z.of_nat fuel ->
  scan_digits 16 0 (render_digits 16 fuel n acc) = scan_digits 16 n acc.
Proof.
  induction fuel as [| fuel IH]; intros n acc Hn.
  - cbn in Hn. assert (n = 0) by lia. subst n. reflexivity.
  - cbn [render_digits].
    destruct (Z.eqb_spec n 0) as [-> | Hnz]; [reflexivity |].
    rewrite IH.
    + cbn [scan_digits].
      rewrite digit_in_digit_char by (apply Z.mod_pos_bound; lia).
      f_equal. pose proof (Z.div_mod n 16). lia.
    + rewrite Nat2Z.inj_succ, Z.pow_succ_r in Hn by lia.
      split; [apply Z.div_pos; lia | apply Z.div_lt_upper_bound; lia].
Qed.

Lemma render_digits_starts_with_digit (fuel : nat) :
  forall n acc, 0 < n ->
  starts_with_digit 16 (render_digits 16 (S fuel) n acc) = true.
Proof.
  induction fuel as [| fuel IH]; intros n acc Hn.
  - cbn [render_digits]. destruct (Z.eqb_spec n 0); [lia |].
    cbn [starts_with_digit].
    rewrite digit_in_digit_char by (apply Z.mod_pos_bound; lia). reflexivity.
  - change (render_digits 16 (S (S fuel)) n acc)
      with (if n =? 0 then acc
            else render_digits 16 (S fuel) (n / 16) (digit_char (n mod 16) :: acc)).
    destruct (Z.eqb_spec n 0); [lia |].
    destruct (Z.eqb_spec (n / 16) 0) as [Hq | Hq].
    + rewrite Hq, render_digits_zero. cbn [starts_with_digit].
      rewrite digit_in_digit_char by (apply Z.mod_pos_bound; lia). reflexivity.
    + apply IH. assert (0 <= n / 16) by (apply Z.div_pos; lia). lia.
Qed.

Lemma digit_in_nonneg (base : Z) (c : ascii) (d : Z) :
  digit_in base c = Some d -> 0 <= d.
Proof.
  unfold digit_in, digit_value.
  repeat match goal with
         | |- context [if ?b then _ else _] => destruct b eqn:?
         end; intros [= <-]; lia.
Qed.

Lemma scan_digits_nonneg (base : Z) (s : list ascii) :
  forall acc, 0 <= base -> 0 <= acc -> 0 <= fst (scan_digits base acc s).
Proof.
  induction s as [| c s IH]; intros acc Hb Ha; cbn [scan_digits fst]; [lia |].
  destruct (digit_in base c) as [d |] eqn:Hd; [| cbn; lia].
  apply IH; [lia |]. apply digit_in_nonneg in Hd. nia.
Qed.

(** [strtoul] returns an [unsigned long]. *)
Lemma strtoul_range (s : list ascii) : 0 <= fst (strtoul s) <= ULONG_MAX.
Proof.
  assert (Hfin : forall (neg : bool) base s2, 0 <= base ->
            0 <= fst (let '(v, rest) := scan_digits base 0 s2 in
                      (if ULONG_MAX <? v then ULONG_MAX
                       else if neg then (- v) mod 2 ^ 64 else v, rest)) <= ULONG_MAX).
  { intros neg base s2 Hb.
    pose proof (scan_digits_nonneg base s2 0 Hb (Z.le_refl 0)) as Hv.
    destruct (scan_digits base 0 s2) as [v rest]. cbn [fst] in *.
    destruct (Z.ltb_spec ULONG_MAX v); [unfold ULONG_MAX; lia |].
    destruct neg; [| lia].
    pose proof (Z.mod_pos_bound (- v) (2 ^ 64)). unfold ULONG_MAX in *. lia. }
  unfold strtoul. destruct (scan_sign (skip_space s)) as [neg s1].
  assert (H0 : 0 <= 0 <= ULONG_MAX) by (unfold ULONG_MAX; lia).
  destruct s1 as [| z [| x s2]];
    repeat match goal with
           | |- context [if ?b then _ else _] =>
               lazymatch b with
               | starts_with_digit _ _ => destruct b eqn:?
               | andb _ _ => destruct b eqn:?
               | Z.eqb _ _ => destruct b eqn:?
               end
           end;
    try (cbn [fst]; exact H0); apply Hfin; lia.
Qed.

Lemma strtoul_fmt_alt_lx (w : Z) :
  0 <= w <= ULONG_MAX -> strtoul (fmt_alt_lx w) = (w, []).
Proof.
  intros Hw. unfold fmt_alt_lx.
  destruct (Z.eqb_spec w 0) as [-> | Hnz]; [reflexivity |].
  pose proof (render_digits_starts_with_digit 15 w [] ltac:(lia)) as Hstart.
  pose proof (scan_render_digits 16 w [] ltac:(unfold ULONG_MAX in Hw; cbn; lia)) as Hscan.
  remember (render_digits 16 16 w []) as ds eqn:Hds.
  unfold strtoul. cbn [bytes list_ascii_of_string app skip_space].
  change (isspace "0") with false. cbv iota.
  change (scan_sign ("0"%char :: "x"%char :: ds))
    with (false, "0"%char :: "x"%char :: ds).
  change ((code "0" =? 48) && is_x "x") with true. cbv iota.
  rewrite Hstart, Hscan. cbn [scan_digits].
  destruct (Z.ltb_spec ULONG_MAX w); [lia | reflexivity].
Qed.

(** C8.  A window id that [main] accepted on the command line, written
    with [%#lx] as [operationSuspend] writes it into the inhibit reason
    and read again with [strtoul(.., 0)] as the matcher of [resume] reads
    [argv[2]], is the same integer: the whole token is consumed and the
    token is not empty. *)
Theorem window_id_round_trip (arg : list ascii) (window : Z) :
  Main.parse_window arg = Some window ->
  Suspend.reason_text window = bytes "waiting for X window " ++ fmt_alt_lx window
  /\ strtoul (fmt_alt_lx window) = (window, [])
  /\ is_nul (head_byte (fmt_alt_lx window)) = false.
Proof.
  unfold Main.parse_window. intros H.
  pose proof (strtoul_range (cstr arg)) as Hr.
  destruct (strtoul (cstr arg)) as [w windowEnd]. cbn [fst] in Hr.
  destruct (is_nul (head_byte (cstr arg)) || negb (is_nul (head_byte windowEnd)));
    [discriminate |].
  injection H as <-.
  split; [reflexivity |].
  split; [apply strtoul_fmt_alt_lx; exact Hr |].
  unfold fmt_alt_lx. destruct (w =? 0); reflexivity.
Qed.

Lemma window_id_round_trip_witness :
  Main.parse_window (bytes "6699") = Some 6699
  /\ strtoul (fmt_alt_lx 6699) = (6699, []).
Proof.
  split; [reflexivity |].
  destruct (window_id_round_trip (bytes "6699") 6699) as (_ & H & _);
    [reflexivity | exact H].
Defined.

(** ** The resume scan *)

Import Resume.

Lemma operationResume_scan_spec (o : os) (self : list ascii) (window : Z)
    (entries : list (list ascii)) :
  forall returnValue,
  operationResume_scan o self window entries returnValue =
  (returnValue
   && forallb (fun n => fst (checkAndResumeProcess o (atoi n) self window)) entries,
   flat_map (fun n =>
               snd (checkAndResumeProcess o (atoi n) self window)
               ++ (if fst (checkAndResumeProcess o (atoi n) self window)
                   then [] else [EvStderr "Continuing"]))
            entries).
Proof.
  induction entries as [| d_name entries IH]; intros rv; cbn [operationResume_scan].
  - cbn. now rewrite andb_true_r.
  - destruct (d_name_loop d_name).
    cbn [forallb flat_map].
    destruct (checkAndResumeProcess o (atoi d_name) self window) as [ok t].
    cbn [fst snd]. destruct ok; cbn [negb]; rewrite IH.
    + now rewrite app_nil_r.
    + cbn [andb]. rewrite andb_false_r. now rewrite <- app_assoc.
Qed.


Lemma operationResume_spec (o : os) (prog : list ascii) (window : Z)
    (self : list ascii) (t0 : trace) (entries : list (list ascii)) :
  allocReadlink o (bytes "/proc/self/exe") false = ((true, Some self), t0) ->
  os_opendir o (bytes "/proc") = Some entries ->
  operationResume o prog window =
  (fst (operationResume_scan o self window entries true),
   t0 ++ EvOpendir (bytes "/proc")
      :: snd (operationResume_scan o self window entries true)).
Proof.
  intros Hself Hdir. unfold operationResume.
  rewrite Hself, Hdir. cbn.
  destruct (operationResume_scan o self window entries true) as [r t].
  cbn. now rewrite !app_nil_r.
Qed.

(** The scan proper.  When [/proc/self/exe] was read and [/proc] was
    opened, the scan
    calls [checkAndResumeProcess] for every entry of the listing, in
    order, also after a call that failed (the events of the scan are the
    events of all the calls, with the line "Continuing" after each one
    that failed); [operationResume] returns [false] exactly when one of
    the calls returned [false], and so returns [true] when none did. *)
Theorem resume_scans_every_entry (o : os) (prog : list ascii) (window : Z)
    (self : list ascii) (t0 : trace) (entries : list (list ascii)) :
  allocReadlink o (bytes "/proc/self/exe") false = ((true, Some self), t0) ->
  os_opendir o (bytes "/proc") = Some entries ->
  let check := fun d_name => checkAndResumeProcess o (atoi d_name) self window in
  snd (operationResume o prog window)
  = t0 ++ EvOpendir (bytes "/proc")
       :: flat_map (fun n => snd (check n)
                             ++ (if fst (check n) then [] else [EvStderr "Continuing"]))
                   entries
  /\ (fst (operationResume o prog window) = false
      <-> exists n, In n entries /\ fst (check n) = false)
  /\ ((forall n, In n entries -> fst (check n) = true)
      -> fst (operationResume o prog window) = true).
Proof.
  intros Hself Hdir check.
  rewrite (operationResume_spec o prog window self t0 entries Hself Hdir).
  rewrite operationResume_scan_spec. cbn [fst snd andb].
  split; [reflexivity |].
  split; [apply (forallb_false_exists (fun n => fst (check n))) |].
  intros Hall. apply forallb_forall. exact Hall.
Qed.

(** ** The matcher on candidates that cannot be read *)

Lemma allocReadlink_loop_trace (o : os) (path : list ascii) (ignore : bool)
    (fuel : nat) :
  forall size link t,
  allocReadlink_loop fuel o path ignore size = ((true, link), t) ->
  forallb (fun ev => negb (is_kill ev || is_stderr ev)) t = true.
Proof.
  induction fuel as [| fuel IH]; intros size link t; cbn [allocReadlink_loop];
    destruct (negb (realloc_ok o size)); try discriminate;
    destruct (os_readlink o path) as [errno | target];
    try (destruct (ignore && ((errno =? EACCES) || (errno =? ENOENT)));
         intros [= <- <-]; reflexivity);
    destruct (Z.min (len target) size <? size);
    try (intros [= <- <-]; reflexivity); try discriminate.
  destruct (allocReadlink_loop fuel o path ignore (wrap_size_t (size * 2)))
    as [[ok l] t'] eqn:Hrec.
  intros [= -> -> <-]. cbn. eapply IH. exact Hrec.
Qed.

Lemma vanished_or_denied_test (errno : Z) :
  vanished_or_denied errno -> (errno =? EACCES) || (errno =? ENOENT) = true.
Proof. intros [-> | ->]; reflexivity. Qed.

Lemma unreadable_check (o : os) (pid : Z) (self : list ascii) (window : Z) :
  unreadable o pid ->
  fst (checkAndResumeProcess o pid self window) = true
  /\ forallb (fun ev => negb (is_kill ev || is_stderr ev))
             (snd (checkAndResumeProcess o pid self window)) = true.
Proof.
  intros [errno Hexe H256 Hlink Herr | errno exeLink t Hexe Hlink Hcmd Hopen Herr];
    apply vanished_or_denied_test in Herr;
    unfold checkAndResumeProcess, checkAndResumeProcess_body, allocSprintf;
    unfold sprintf_succeeds in *; rewrite Hexe; cbn [call fst snd bind or_cleanReturn ret].
  - unfold allocReadlink. cbn [allocReadlink_loop].
    unfold realloc_ok. rewrite H256, Hlink. cbn [Z.ltb Z.compare andb negb].
    rewrite Herr. cbn. split; reflexivity.
  - rewrite Hlink. cbn [call fst snd bind or_cleanReturn ret negb cleanReturn app].
    rewrite Hcmd. cbn [call fst snd bind or_cleanReturn ret negb cleanReturn app log].
    rewrite Hopen, Herr. cbn [run bind cleanReturn fst snd app].
    split; [reflexivity |].
    rewrite forallb_app.
    rewrite (allocReadlink_loop_trace _ _ _ _ _ _ _ Hlink). reflexivity.
Qed.

(** C5.  A candidate whose [exe] link cannot be read, or whose [cmdline]
    file cannot be opened, with "no such file" or "permission denied", is
    a non-match and not an error: [checkAndResumeProcess] returns [true],
    sends no signal and prints nothing, and the result of the scan is the
    result of the scan without that entry. *)
Theorem unreadable_is_not_a_match (o : os) (pid : Z) (self : list ascii) (window : Z) :
  unreadable o pid ->
  fst (checkAndResumeProcess o pid self window) = true
  /\ forallb (fun ev => negb (is_kill ev || is_stderr ev))
             (snd (checkAndResumeProcess o pid self window)) = true
  /\ forall before after d_name returnValue,
       atoi d_name = pid ->
       fst (operationResume_scan o self window (before ++ d_name :: after) returnValue)
       = fst (operationResume_scan o self window (before ++ after) returnValue).
Proof.
  intros H. destruct (unreadable_check o pid self window H) as [Hok Hquiet].
  split; [exact Hok |]. split; [exact Hquiet |].
  intros before after d_name rv <-.
  rewrite !operationResume_scan_spec. cbn [fst].
  rewrite !forallb_app. cbn [forallb]. rewrite Hok. reflexivity.
Qed.

Lemma read_cmdline_empty (o : os) (f : file) (fuel : nat) :
  os_alloc o 1024 = true -> f_fail f 0%nat = None ->
  read_cmdline (S fuel) o f 0 1024 [] [] = (Some [], []).
Proof.
  intros H1024 Hfail.
  change (read_cmdline (S fuel) o f 0 1024 [] [])
    with (if negb (realloc_ok o 1024) then (None, [EvStderr "Out of memory"])
          else match f_fail f 0%nat with
               | Some _ => (None, [EvStderr "Failed to read cmdline"])
               | None => (Some [], [])
               end : option (list ascii) * trace).
  unfold realloc_ok. rewrite H1024, Hfail. reflexivity.
Qed.

(** C10 (amended).  Take a candidate whose [cmdline] file opens and
    holds no byte.  When its [exe] link is read, it is taken for a
    malformed blob: [checkAndResumeProcess] prints "Invalid cmdline
    encountered" and returns [false], without a signal, and a scan that
    lists the candidate returns [false].  When its [exe] link cannot be
    read because of "no such file" or "permission denied", as for a
    zombie, it is a non-match: [checkAndResumeProcess] returns [true]
    after the one [readlink], the [cmdline] file is not opened, and the
    result of the scan is the result of the scan without that entry. *)
Theorem empty_cmdline_is_a_hard_error (o : os) (pid : Z) (self : list ascii)
    (window : Z) (f : file) :
  sprintf_succeeds o (proc_path pid "exe") ->
  sprintf_succeeds o (proc_path pid "cmdline") ->
  os_open o (proc_path pid "cmdline") = OpenOk f ->
  os_alloc o 1024 = true ->
  f_fail f 0%nat = None ->
  f_data f = [] ->
  (forall exeLink t,
     allocReadlink o (proc_path pid "exe") true = ((true, Some exeLink), t) ->
     checkAndResumeProcess o pid self window
     = (false, t ++ [EvOpen (proc_path pid "cmdline");
                     EvStderr "Invalid cmdline encountered"])
     /\ forall prog self_t entries d_name,
          allocReadlink o (bytes "/proc/self/exe") false = ((true, Some self), self_t) ->
          os_opendir o (bytes "/proc") = Some entries ->
          In d_name entries ->
          atoi d_name = pid ->
          fst (operationResume o prog window) = false)
  /\ (forall errno,
        os_alloc o 256 = true ->
        os_readlink o (proc_path pid "exe") = ReadlinkErr errno ->
        vanished_or_denied errno ->
        checkAndResumeProcess o pid self window
        = (true, [EvReadlink (proc_path pid "exe")])
        /\ forall before after d_name returnValue,
             atoi d_name = pid ->
             fst (operationResume_scan o self window (before ++ d_name :: after)
                    returnValue)
             = fst (operationResume_scan o self window (before ++ after) returnValue)).
Proof.
  intros Hexe Hcmd Hopen H1024 Hfail Hdata. split.
  - intros exeLink t Hlink.
    assert (Hcheck : checkAndResumeProcess o pid self window
                     = (false, t ++ [EvOpen (proc_path pid "cmdline");
                                     EvStderr "Invalid cmdline encountered"])).
    { unfold checkAndResumeProcess, checkAndResumeProcess_body, allocSprintf.
      unfold sprintf_succeeds in *. rewrite Hexe.
      cbn [call fst snd bind or_cleanReturn ret]. rewrite Hlink.
      cbn [call fst snd bind or_cleanReturn ret negb cleanReturn app]. rewrite Hcmd.
      cbn [call fst snd bind or_cleanReturn ret negb cleanReturn app log].
      rewrite Hopen, Hdata, (read_cmdline_empty o f 53 H1024 Hfail).
      cbn. reflexivity. }
    split; [exact Hcheck |].
    intros prog self_t entries d_name Hself Hdir Hin Hpid.
    rewrite (operationResume_spec o prog window self self_t entries Hself Hdir).
    rewrite operationResume_scan_spec. cbn [fst andb].
    apply forallb_false_exists. exists d_name. split; [exact Hin |].
    rewrite Hpid, Hcheck. reflexivity.
  - intros errno H256 Hlink Herr.
    apply vanished_or_denied_test in Herr.
    assert (Hcheck : checkAndResumeProcess o pid self window
                     = (true, [EvReadlink (proc_path pid "exe")])).
    { unfold checkAndResumeProcess, checkAndResumeProcess_body, allocSprintf.
      unfold sprintf_succeeds in *. rewrite Hexe.
      cbn [call fst snd bind or_cleanReturn ret].
      unfold allocReadlink. cbn [allocReadlink_loop].
      unfold realloc_ok. rewrite H256, Hlink. cbn [Z.ltb Z.compare andb negb].
      rewrite Herr. reflexivity. }
    split; [exact Hcheck |].
    intros before after d_name rv <-.
    rewrite !operationResume_scan_spec. cbn [fst].
    rewrite !forallb_app. cbn [forallb]. rewrite Hcheck. reflexivity.
Qed.

(** ** The buffer loops end by themselves

    The fuel of the two growing-buffer loops is never used up: the size
    is a [size_t] that doubles, so it is 0 after 56 (from 256) or 54
    (from 1024) doublings, and a [realloc] to 0 bytes ends the loop.  Any
    larger fuel gives the same result. *)

Lemma wrap_size_t_double (a : Z) :
  0 <= a -> wrap_size_t (wrap_size_t (2 ^ a) * 2) = wrap_size_t (2 ^ (a + 1)).
Proof.
  intros Ha. unfold wrap_size_t.
  rewrite Z.mul_mod_idemp_l by lia. f_equal.
  rewrite Z.pow_add_r by lia. reflexivity.
Qed.

Lemma allocReadlink_loop_size_0 (o : os) (path : list ascii) (ignore : bool)
    (fuel : nat) :
  allocReadlink_loop fuel o path ignore 0 = ((false, None), [EvStderr "Out of memory"]).
Proof. destruct fuel; reflexivity. Qed.

Lemma allocReadlink_loop_fuel (o : os) (path : list ascii) (ignore : bool) (n : nat) :
  forall k fuel1 fuel2,
  (k + n = 56)%nat -> (n <= fuel1)%nat -> (n <= fuel2)%nat ->
  allocReadlink_loop fuel1 o path ignore (wrap_size_t (2 ^ (8 + Z.of_nat k)))
  = allocReadlink_loop fuel2 o path ignore (wrap_size_t (2 ^ (8 + Z.of_nat k))).
Proof.
  induction n as [| n IH]; intros k fuel1 fuel2 Hk H1 H2.
  - replace k with 56%nat by lia.
    change (wrap_size_t (2 ^ (8 + Z.of_nat 56))) with 0.
    now rewrite !allocReadlink_loop_size_0.
  - destruct fuel1 as [| fuel1]; [lia |]. destruct fuel2 as [| fuel2]; [lia |].
    cbn [allocReadlink_loop].
    destruct (negb (realloc_ok o (wrap_size_t (2 ^ (8 + Z.of_nat k))))); [reflexivity |].
    destruct (os_readlink o path) as [errno | target]; [reflexivity |].
    destruct (Z.min (len target) (wrap_size_t (2 ^ (8 + Z.of_nat k)))
              <? wrap_size_t (2 ^ (8 + Z.of_nat k))); [reflexivity |].
    rewrite wrap_size_t_double by lia.
    replace (8 + Z.of_nat k + 1) with (8 + Z.of_nat (S k)) by lia.
    rewrite (IH (S k) fuel1 fuel2) by lia. reflexivity.
Qed.

Lemma allocReadlink_fuel (o : os) (path : list ascii) (ignore : bool) (fuel : nat) :
  (56 <= fuel)%nat ->
  allocReadlink_loop fuel o path ignore 256 = allocReadlink o path ignore.
Proof.
  intros H. unfold allocReadlink.
  change 256 with (wrap_size_t (2 ^ (8 + Z.of_nat 0))).
  apply (allocReadlink_loop_fuel o path ignore 56 0); lia.
Qed.

Lemma read_cmdline_size_0 (o : os) (f : file) (fuel k : nat)
    (cmdline rest : list ascii) :
  read_cmdline fuel o f k 0 cmdline rest = (None, [EvStderr "Out of memory"]).
Proof. destruct fuel; reflexivity. Qed.

Lemma read_cmdline_loop_fuel (o : os) (f : file) (n : nat) :
  forall j fuel1 fuel2 k cmdline rest,
  (j + n = 54)%nat -> (n <= fuel1)%nat -> (n <= fuel2)%nat ->
  read_cmdline fuel1 o f k (wrap_size_t (2 ^ (10 + Z.of_nat j))) cmdline rest
  = read_cmdline fuel2 o f k (wrap_size_t (2 ^ (10 + Z.of_nat j))) cmdline rest.
Proof.
  induction n as [| n IH]; intros j fuel1 fuel2 k cmdline rest Hj H1 H2.
  - replace j with 54%nat by lia.
    change (wrap_size_t (2 ^ (10 + Z.of_nat 54))) with 0.
    now rewrite !read_cmdline_size_0.
  - destruct fuel1 as [| fuel1]; [lia |]. destruct fuel2 as [| fuel2]; [lia |].
    cbn [read_cmdline].
    destruct (negb (realloc_ok o (wrap_size_t (2 ^ (10 + Z.of_nat j))))); [reflexivity |].
    destruct (f_fail f k); [reflexivity |].
    match goal with |- context [if ?c then _ else _] => destruct c end; [reflexivity |].
    rewrite wrap_size_t_double by lia.
    replace (10 + Z.of_nat j + 1) with (10 + Z.of_nat (S j)) by lia.
    apply IH; lia.
Qed.

Lemma read_cmdline_fuel (o : os) (f : file) (fuel : nat) :
  (54 <= fuel)%nat ->
  read_cmdline fuel o f 0 1024 [] (f_data f) = read_cmdline 54 o f 0 1024 [] (f_data f).
Proof.
  intros H. change 1024 with (wrap_size_t (2 ^ (10 + Z.of_nat 0))).
  apply (read_cmdline_loop_fuel o f 54 0); lia.
Qed.

(** ** What a candidate must look like to be terminated *)

Lemma is_nul_NUL (c : ascii) : is_nul c = true -> c = NUL.
Proof.
  unfold is_nul, code, NUL, chr. intros H. apply Z.eqb_eq in H.
  rewrite <- (ascii_N_embedding c).
  replace (N_of_ascii c) with 0%N by lia. reflexivity.
Qed.

Lemma cstr_no_nul (buf : list ascii) :
  forallb (fun c => negb (is_nul c)) (cstr buf) = true.
Proof.
  induction buf as [| c buf IH]; [reflexivity |].
  cbn [cstr]. destruct (is_nul c) eqn:Hc; [reflexivity |].
  cbn [forallb]. now rewrite Hc, IH.
Qed.

Lemma cstr_length (buf : list ascii) : (List.length (cstr buf) <= List.length buf)%nat.
Proof.
  induction buf as [| c buf IH]; [cbn; lia |].
  cbn [cstr]. destruct (is_nul c); cbn [List.length]; lia.
Qed.

(** A C string that ends inside the buffer is followed by its NUL. *)
Lemma cstr_split (buf : list ascii) :
  (List.length (cstr buf) < List.length buf)%nat ->
  exists rest, buf = cstr buf ++ NUL :: rest.
Proof.
  induction buf as [| c buf IH]; [cbn; lia |].
  cbn [cstr]. destruct (is_nul c) eqn:Hc.
  - intros _. exists buf. apply is_nul_NUL in Hc. now subst c.
  - cbn [List.length app]. intros H. destruct IH as [rest Hrest]; [lia |].
    exists rest. now rewrite <- Hrest.
Qed.

Lemma at_offset_past (a : list ascii) (c : ascii) (rest : list ascii) :
  at_offset (a ++ c :: rest) (Z.of_nat (List.length a) + 1) = rest.
Proof.
  unfold at_offset.
  replace (Z.to_nat (Z.of_nat (List.length a) + 1)) with (List.length a + 1)%nat by lia.
  rewrite skipn_app, skipn_all2 by lia.
  replace (List.length a + 1 - List.length a)%nat with 1%nat by lia. reflexivity.
Qed.

Lemma at_offset_add (buf : list ascii) (m n : Z) :
  0 <= m -> 0 <= n -> at_offset buf (m + n) = at_offset (at_offset buf m) n.
Proof.
  intros Hm Hn. unfold at_offset. rewrite skipn_skipn. f_equal. lia.
Qed.

Lemma scan_digits_suffix (base : Z) (s : list ascii) :
  forall acc, exists pre, s = pre ++ snd (scan_digits base acc s).
Proof.
  induction s as [| c s IH]; intros acc; cbn [scan_digits].
  - exists []. reflexivity.
  - destruct (digit_in base c).
    + destruct (IH (acc * base + z)) as [pre Hpre]. exists (c :: pre).
      cbn [app]. now rewrite <- Hpre.
    + exists []. reflexivity.
Qed.

Lemma skip_space_suffix (s : list ascii) : exists pre, s = pre ++ skip_space s.
Proof.
  induction s as [| c s [pre IH]]; [exists []; reflexivity |].
  cbn [skip_space]. destruct (isspace c).
  - exists (c :: pre). cbn [app]. now rewrite <- IH.
  - exists []. reflexivity.
Qed.

Lemma scan_sign_suffix (s : list ascii) : exists pre, s = pre ++ snd (scan_sign s).
Proof.
  destruct s as [| c s]; [exists []; reflexivity |].
  cbn [scan_sign]. destruct (code c =? 45); [exists [c]; reflexivity |].
  destruct (code c =? 43); [exists [c]; reflexivity | exists []; reflexivity].
Qed.

(** [endptr] points into the string that was parsed. *)
Lemma strtoul_suffix (s : list ascii) : exists pre, s = pre ++ snd (strtoul s).
Proof.
  assert (Hnil : exists pre, s = pre ++ s) by (exists []; reflexivity).
  unfold strtoul.
  destruct (skip_space_suffix s) as [p1 H1].
  destruct (scan_sign_suffix (skip_space s)) as [p2 H2].
  destruct (scan_sign (skip_space s)) as [neg s1]. cbn [snd] in H2.
  assert (Hfin : forall base s2 p3, s1 = p3 ++ s2 ->
            exists pre, s = pre ++ snd (let '(v, rest) := scan_digits base 0 s2 in
                                        (if ULONG_MAX <? v then ULONG_MAX
                                         else if neg then (- v) mod 2 ^ 64 else v, rest))).
  { intros base s2 p3 H3. destruct (scan_digits_suffix base s2 0) as [p4 H4].
    destruct (scan_digits base 0 s2) as [v rest]. cbn [snd] in *.
    exists (p1 ++ p2 ++ p3 ++ p4). rewrite H1 at 1. rewrite H2 at 1.
    rewrite H3 at 1. rewrite H4 at 1. now rewrite <- !app_assoc. }
  destruct s1 as [| z [| x s2]].
  - destruct (starts_with_digit 10 []); [apply (Hfin 10 [] []); reflexivity | exact Hnil].
  - destruct (starts_with_digit 10 [z]); [apply (Hfin 10 [z] []); reflexivity | exact Hnil].
  - destruct ((code z =? 48) && is_x x).
    + destruct (starts_with_digit 16 s2); [apply (Hfin 16 s2 [z; x]); reflexivity |].
      cbn [snd]. exists (p1 ++ p2 ++ [z]). rewrite H1 at 1. rewrite H2 at 1.
      now rewrite <- !app_assoc.
    + destruct (code z =? 48); [apply (Hfin 8 (z :: x :: s2) []); reflexivity |].
      destruct (starts_with_digit 10 (z :: x :: s2));
        [apply (Hfin 10 (z :: x :: s2) []); reflexivity | exact Hnil].
Qed.

Lemma no_nul_suffix (pre rest : list ascii) :
  forallb (fun c => negb (is_nul c)) (pre ++ rest) = true ->
  is_nul (head_byte rest) = true -> rest = [].
Proof.
  rewrite forallb_app. intros H Hh. apply andb_true_iff in H as [_ H].
  destruct rest as [| c rest]; [reflexivity |].
  cbn in H, Hh. rewrite Hh in H. discriminate.
Qed.

Lemma allocReadlink_loop_no_kill (o : os) (path : list ascii) (ignore : bool)
    (fuel : nat) :
  forall size,
  forallb (fun ev => negb (is_kill ev))
          (snd (allocReadlink_loop fuel o path ignore size)) = true.
Proof.
  induction fuel as [| fuel IH]; intros size; cbn [allocReadlink_loop];
    destruct (negb (realloc_ok o size)); try reflexivity;
    destruct (os_readlink o path) as [errno | target];
    try (destruct (ignore && ((errno =? EACCES) || (errno =? ENOENT))); reflexivity);
    destruct (Z.min (len target) size <? size); try reflexivity.
  specialize (IH (wrap_size_t (size * 2))).
  destruct (allocReadlink_loop fuel o path ignore (wrap_size_t (size * 2))) as [r t].
  exact IH.
Qed.

Lemma read_cmdline_no_kill (o : os) (f : file) (fuel : nat) :
  forall k size cmdline rest,
  forallb (fun ev => negb (is_kill ev))
          (snd (read_cmdline fuel o f k size cmdline rest)) = true.
Proof.
  induction fuel as [| fuel IH]; intros k size cmdline rest; cbn [read_cmdline];
    destruct (negb (realloc_ok o size)); try reflexivity;
    destruct (f_fail f k); try reflexivity;
    destruct (len (cmdline ++ firstn (Z.to_nat (size - len cmdline)) rest) <? size);
    try reflexivity.
  apply IH.
Qed.

Ltac split_in Hin :=
  cbn [In app] in Hin;
  lazymatch type of Hin with
  | In _ (_ ++ _) =>
      apply in_app_or in Hin; destruct Hin as [Hin | Hin]; split_in Hin
  | _ \/ _ => destruct Hin as [Hin | Hin]; split_in Hin
  | False => destruct Hin
  | _ = _ => try discriminate Hin
  | In _ _ =>
      try (exfalso; eapply in_forallb_false;
           [| | exact Hin]; [eassumption | reflexivity])
  end.

Ltac kill_absurd :=
  let Hin := fresh "Hin" in
  cbn [run bind call fst snd or_cleanReturn ret cleanReturn log negb orb app];
  solve [intros Hin; exfalso; split_in Hin].

(** Everything the matcher has verified when it sends the signal. *)
Lemma kill_conditions (o : os) (pid : Z) (self : list ascii) (window p s : Z) :
  In (EvKill p s) (snd (checkAndResumeProcess o pid self window)) ->
  p = pid /\ s = SIGTERM
  /\ exists f cmdline t,
       os_open o (proc_path pid "cmdline") = OpenOk f
       /\ read_cmdline 54 o f 0 1024 [] (f_data f) = (Some cmdline, t)
       /\ let a1 := strlen cmdline + NULL_BYTE_LEN in
          let a2 := a1 + strlen (at_offset cmdline a1) + NULL_BYTE_LEN in
          (len cmdline <? 1) = false
          /\ is_nul (byte_at cmdline (len cmdline - 1)) = true
          /\ (len cmdline <=? a1) = false
          /\ streq (at_offset cmdline a1) (bytes "suspend") = true
          /\ (len cmdline <=? a2) = false
          /\ is_nul (byte_at cmdline a2) = false
          /\ is_nul (head_byte (snd (strtoul (cstr (at_offset cmdline a2))))) = true
          /\ fst (strtoul (cstr (at_offset cmdline a2))) = window
          /\ a2 + strlen (at_offset cmdline a2) + NULL_BYTE_LEN = len cmdline.
Proof.
  unfold checkAndResumeProcess, checkAndResumeProcess_body, allocSprintf.
  remember (proc_path pid "exe") as epath eqn:He.
  remember (proc_path pid "cmdline") as cpath eqn:Hc.
  destruct (os_alloc o (len epath + NULL_BYTE_LEN)); [| kill_absurd].
  cbn [call fst snd bind or_cleanReturn ret].
  pose proof (allocReadlink_loop_no_kill o epath true 56 256) as Hk1.
  fold (allocReadlink o epath true) in Hk1.
  destruct (allocReadlink o epath true) as [[ok link] t1].
  cbn [fst snd] in *.
  destruct ok; [| kill_absurd].
  destruct link as [exeLink |]; [| kill_absurd].
  destruct (os_alloc o (len cpath + NULL_BYTE_LEN)); [| kill_absurd].
  cbn [call fst snd bind or_cleanReturn ret negb cleanReturn app log].
  destruct (os_open o cpath) as [errno | f] eqn:Hopen.
  { destruct ((errno =? EACCES) || (errno =? ENOENT)); kill_absurd. }
  pose proof (read_cmdline_no_kill o f 54 0 1024 [] (f_data f)) as Hk2.
  destruct (read_cmdline 54 o f 0 1024 [] (f_data f)) as [[cmdline |] t2] eqn:Hread;
    [| kill_absurd].
  cbn [call fst snd bind or_cleanReturn ret negb cleanReturn app log] in *.
  destruct (len cmdline <? 1) eqn:C1; [kill_absurd |].
  destruct (is_nul (byte_at cmdline (len cmdline - 1))) eqn:C2; [| kill_absurd].
  cbn [orb negb bind ret].
  destruct (len cmdline <=? strlen cmdline + NULL_BYTE_LEN) eqn:C3; [kill_absurd |].
  destruct (streq (at_offset cmdline (strlen cmdline + NULL_BYTE_LEN)) (bytes "suspend"))
    eqn:C4; [| kill_absurd].
  cbn [orb negb bind ret].
  match goal with
  | |- context [len cmdline <=? ?a2] =>
      lazymatch a2 with
      | strlen cmdline + NULL_BYTE_LEN => fail
      | _ => remember a2 as arg2 eqn:Ha2; destruct (len cmdline <=? arg2) eqn:C5
      end
  end; [kill_absurd |].
  cbn [bind ret].
  destruct (strtoul (cstr (at_offset cmdline arg2))) as [cmdlineWindow windowEnd] eqn:Hst.
  destruct (is_nul (byte_at cmdline arg2)) eqn:C6; [kill_absurd |].
  destruct (is_nul (head_byte windowEnd)) eqn:C7; [| kill_absurd].
  destruct (cmdlineWindow =? window) eqn:C8; [| kill_absurd].
  cbn [orb negb bind ret].
  destruct (arg2 + strlen (at_offset cmdline arg2) + NULL_BYTE_LEN =? len cmdline) eqn:C9;
    [| kill_absurd].
  cbn [orb negb bind ret log].
  intros Hin.
  assert (Hps : p = pid /\ s = SIGTERM).
  { destruct (os_kill o pid SIGTERM) as [errno |];
      [destruct ((errno =? EPERM) || (errno =? ESRCH)) |];
      cbn [run bind call fst snd or_cleanReturn ret cleanReturn log negb app] in Hin;
      split_in Hin; injection Hin as <- <-; split; reflexivity. }
  clear Hin. destruct Hps as [-> ->]. split; [reflexivity |]. split; [reflexivity |].
  exists f, cmdline, t2. split; [reflexivity |]. split; [exact Hread |].
  cbv zeta. rewrite <- Ha2. rewrite Hst. cbn [fst snd].
  apply Z.eqb_eq in C8, C9. repeat split; assumption.
Qed.

Lemma byte_at_head (buf : list ascii) (off : Z) :
  byte_at buf off = head_byte (at_offset buf off).
Proof.
  unfold byte_at, at_offset. generalize (Z.to_nat off) as n.
  induction buf as [| c buf IH]; intros [| n]; try reflexivity. cbn. apply IH.
Qed.

Lemma bytes_eqb_eq (a b : list ascii) : bytes_eqb a b = true -> a = b.
Proof. unfold bytes_eqb. destruct (list_eq_dec ascii_dec a b); [auto | discriminate]. Qed.

(** The matcher sends [SIGTERM] only to the candidate itself, and only
    when its command line is exactly three strings: any [argv[0]], then
    [suspend], then a token that [strtoul] reads to its end as the window
    id. *)
Lemma kill_only_on_suspend_argv (o : os) (pid : Z) (self : list ascii)
    (window p s : Z) :
  In (EvKill p s) (snd (checkAndResumeProcess o pid self window)) ->
  p = pid /\ s = SIGTERM
  /\ exists f cmdline t argv0 token,
       os_open o (proc_path pid "cmdline") = OpenOk f
       /\ read_cmdline 54 o f 0 1024 [] (f_data f) = (Some cmdline, t)
       /\ cmdline = argv0 ++ NUL :: bytes "suspend" ++ NUL :: token ++ [NUL]
       /\ forallb (fun c => negb (is_nul c)) argv0 = true
       /\ forallb (fun c => negb (is_nul c)) token = true
       /\ token <> []
       /\ strtoul token = (window, []).
Proof.
  intros Hin. destruct (kill_conditions o pid self window p s Hin)
    as (Hp & Hs & f & cmdline & t & Hopen & Hread & H).
  split; [exact Hp |]. split; [exact Hs |].
  exists f, cmdline, t. cbv zeta in H.
  destruct H as (C1 & C2 & C3 & C4 & C5 & C6 & C7 & C8 & C9).
  unfold NULL_BYTE_LEN, strlen, len in *.
  apply Z.leb_gt in C3, C5.
  destruct (cstr_split cmdline ltac:(lia)) as [r1 Hr1].
  pose proof (cstr_no_nul cmdline) as Hn0.
  set (a0 := cstr cmdline) in *.
  assert (Hoff1 : at_offset cmdline (Z.of_nat (List.length a0) + 1) = r1)
    by (rewrite Hr1 at 1; apply at_offset_past).
  rewrite Hoff1 in *.
  apply bytes_eqb_eq in C4. change (cstr (bytes "suspend")) with (bytes "suspend") in C4.
  assert (Hlen : List.length cmdline = (List.length a0 + S (List.length r1))%nat)
    by (rewrite Hr1 at 1; rewrite length_app; reflexivity).
  rewrite C4 in *. change (List.length (bytes "suspend")) with 7%nat in *.
  destruct (cstr_split r1 ltac:(rewrite C4; cbn [List.length bytes list_ascii_of_string]; lia))
    as [r2 Hr2].
  rewrite C4 in Hr2.
  assert (Hoff2 : at_offset cmdline (Z.of_nat (List.length a0) + 1 + Z.of_nat 7 + 1) = r2).
  { rewrite <- Z.add_assoc, at_offset_add by lia. rewrite Hoff1.
    rewrite Hr2 at 1. apply (at_offset_past (bytes "suspend") NUL r2). }
  rewrite Hoff2 in *.
  assert (Hlen2 : List.length r1 = (7 + S (List.length r2))%nat)
    by (rewrite Hr2 at 1; rewrite length_app; reflexivity).
  destruct (cstr_split r2 ltac:(lia)) as [r3 Hr3].
  assert (Hr3nil : r3 = []).
  { assert (List.length r2 = (List.length (cstr r2) + S (List.length r3))%nat)
      by (rewrite Hr3 at 1; rewrite length_app; reflexivity).
    destruct r3; [reflexivity | cbn [List.length] in *; lia]. }
  subst r3.
  pose proof (cstr_no_nul r2) as Hn2.
  exists a0, (cstr r2).
  split; [exact Hopen |]. split; [exact Hread |].
  split; [rewrite Hr1 at 1; rewrite Hr2 at 1; rewrite Hr3 at 1; reflexivity |].
  split; [exact Hn0 |]. split; [exact Hn2 |]. split.
  - rewrite byte_at_head, Hoff2 in C6.
    destruct r2 as [| c r2]; [discriminate C6 |].
    cbn [head_byte] in C6. cbn [cstr]. rewrite C6. discriminate.
  - destruct (strtoul_suffix (cstr r2)) as [pre Hpre].
    destruct (strtoul (cstr r2)) as [v rest]. cbn [fst snd] in *. subst v.
    f_equal. eapply no_nul_suffix; [rewrite <- Hpre; exact Hn2 | exact C7].
Qed.

(** ** Examples of the resume scan *)

Lemma resume_scans_every_entry_witness :
  let o := Examples.system_empty_cmdline in
  let self := Examples.self_exe in
  let check := fun d_name => checkAndResumeProcess o (atoi d_name) self 6699 in
  allocReadlink o (bytes "/proc/self/exe") false
  = ((true, Some self), [EvReadlink (bytes "/proc/self/exe")])
  /\ os_opendir o (bytes "/proc") = Some [bytes "1"; bytes "4242"]
  /\ (fst (operationResume o (bytes "xdg-screensaver") 6699) = false
      <-> exists n, In n [bytes "1"; bytes "4242"] /\ fst (check n) = false).
Proof.
  split; [reflexivity |]. split; [reflexivity |].
  apply (resume_scans_every_entry Examples.system_empty_cmdline
           (bytes "xdg-screensaver") 6699 Examples.self_exe
           [EvReadlink (bytes "/proc/self/exe")] [bytes "1"; bytes "4242"]);
    reflexivity.
Defined.

Lemma unreadable_is_not_a_match_witness :
  unreadable Examples.system_gone 4242
  /\ fst (checkAndResumeProcess Examples.system_gone 4242 Examples.self_exe 6699) = true.
Proof.
  assert (H : unreadable Examples.system_gone 4242).
  { apply (exe_unreadable Examples.system_gone 4242 ENOENT);
      [reflexivity | reflexivity | reflexivity | left; reflexivity]. }
  split; [exact H |].
  apply (unreadable_is_not_a_match Examples.system_gone 4242 Examples.self_exe 6699 H).
Defined.

Lemma empty_cmdline_is_a_hard_error_witness :
  let o := Examples.system_empty_cmdline in
  os_open o (proc_path 4242 "cmdline") = OpenOk (Examples.whole_file [])
  /\ allocReadlink o (proc_path 4242 "exe") true
     = ((true, Some Examples.self_exe), [EvReadlink (proc_path 4242 "exe")])
  /\ checkAndResumeProcess o 4242 Examples.self_exe 6699
     = (false, [EvReadlink (proc_path 4242 "exe")]
               ++ [EvOpen (proc_path 4242 "cmdline");
                   EvStderr "Invalid cmdline encountered"]).
Proof.
  split; [reflexivity |].
  assert (Hlink : allocReadlink Examples.system_empty_cmdline (proc_path 4242 "exe") true
                  = ((true, Some Examples.self_exe), [EvReadlink (proc_path 4242 "exe")]))
    by reflexivity.
  split; [exact Hlink |].
  destruct (empty_cmdline_is_a_hard_error Examples.system_empty_cmdline 4242
              Examples.self_exe 6699 (Examples.whole_file [])
              ltac:(reflexivity) ltac:(reflexivity) ltac:(reflexivity)
              ltac:(reflexivity) ltac:(reflexivity) ltac:(reflexivity))
    as [Hread _].
  destruct (Hread Examples.self_exe [EvReadlink (proc_path 4242 "exe")] Hlink)
    as [Hcheck _].
  exact Hcheck.
Defined.

(** C10 as stated fails on its own example.  The [cmdline] file of the
    zombie 4242 opens and reads as zero bytes, but its [exe] link is
    gone: the matcher returns [true] before it opens the file, nothing is
    printed, and [resume] returns success. *)
Lemma zombie_is_not_a_match :
  let o := Examples.system_zombie in
  os_open o (proc_path 4242 "cmdline") = OpenOk (Examples.whole_file [])
  /\ read_cmdline 54 o (Examples.whole_file []) 0 1024 [] [] = (Some [], [])
  /\ checkAndResumeProcess o 4242 Examples.self_exe 6699
     = (true, [EvReadlink (proc_path 4242 "exe")])
  /\ operationResume o (bytes "xdg-screensaver") 6699
     = (true, [EvReadlink (bytes "/proc/self/exe");
               EvOpendir (bytes "/proc");
               EvReadlink (bytes "/proc/4242/exe")]).
Proof.
  split; [reflexivity |].
  split; [apply read_cmdline_empty; reflexivity |].
  split; reflexivity.
Qed.

(** ** Where the matcher and the scan miss what they set out to do *)

(** [checkAndResumeProcess] receives the executable of the [resume]
    invocation and never looks at it. *)
Lemma checkAndResumeProcess_ignores_selfExeLink (o : os) (pid : Z)
    (self self' : list ascii) (window : Z) :
  checkAndResumeProcess o pid self window = checkAndResumeProcess o pid self' window.
Proof. reflexivity. Qed.

(** C1, at a failing input.  The candidate 4242 runs [/usr/bin/virsh],
    not the executable of the [resume] invocation, with the arguments
    [virsh suspend 6699]; [resume 0x1a2b], run from
    [/usr/bin/xdg-screensaver], sends it [SIGTERM]. *)
Theorem other_executable_is_terminated :
  os_readlink Examples.system_virsh (bytes "/proc/self/exe")
  = ReadlinkOk Examples.self_exe
  /\ os_readlink Examples.system_virsh (proc_path 4242 "exe")
     = ReadlinkOk (bytes "/usr/bin/virsh")
  /\ bytes_eqb (bytes "/usr/bin/virsh") Examples.self_exe = false
  /\ checkAndResumeProcess Examples.system_virsh 4242 Examples.self_exe 6699
     = (true, [EvReadlink (proc_path 4242 "exe");
               EvOpen (proc_path 4242 "cmdline");
               EvKill 4242 SIGTERM])
  /\ operationResume Examples.system_virsh (bytes "xdg-screensaver") 6699
     = (true, [EvReadlink (bytes "/proc/self/exe");
               EvOpendir (bytes "/proc");
               EvReadlink (bytes "/proc/4242/exe");
               EvOpen (bytes "/proc/4242/cmdline");
               EvKill 4242 SIGTERM]).
Proof. repeat split; reflexivity. Qed.

(** C4, at a failing input.  The candidate 4242 exits after its
    [cmdline] file was opened, so that [read] fails with [ESRCH]: a race,
    not an error of the candidate.  The matcher prints "Failed to read
    cmdline" and returns [false]; the scan goes on with the next entry,
    and [resume] returns failure.  When the same exit is met one call
    earlier, at [open], the matcher returns [true] and so does
    [resume]. *)
Theorem exit_during_read_fails_the_scan :
  os_open Examples.system_exits_during_read (proc_path 4242 "cmdline")
  = OpenOk Examples.exited_file
  /\ f_fail Examples.exited_file 0 = Some ESRCH
  /\ checkAndResumeProcess Examples.system_exits_during_read 4242 Examples.self_exe 6699
     = (false, [EvReadlink (proc_path 4242 "exe");
                EvOpen (proc_path 4242 "cmdline");
                EvStderr "Failed to read cmdline"])
  /\ operationResume Examples.system_exits_during_read (bytes "xdg-screensaver") 6699
     = (false, [EvReadlink (bytes "/proc/self/exe");
                EvOpendir (bytes "/proc");
                EvReadlink (bytes "/proc/4242/exe");
                EvOpen (bytes "/proc/4242/cmdline");
                EvStderr "Failed to read cmdline";
                EvStderr "Continuing";
                EvReadlink (bytes "/proc/1/exe")])
  /\ operationResume Examples.system_exits_before_open (bytes "xdg-screensaver") 6699
     = (true, [EvReadlink (bytes "/proc/self/exe");
               EvOpendir (bytes "/proc");
               EvReadlink (bytes "/proc/4242/exe");
               EvOpen (bytes "/proc/4242/cmdline");
               EvReadlink (bytes "/proc/1/exe")]).
Proof. repeat split; reflexivity. Qed.

(** C7, at a failing input.  The listing of [/proc] holds the entry
    [self], which is not numeric; the scan calls the matcher for it all
    the same, with the pid [atoi("self") = 0], as the [readlink] of
    [/proc/0/exe] shows. *)
Theorem non_numeric_entry_is_checked :
  forallb isdigit (bytes "self") = false
  /\ atoi (bytes "self") = 0
  /\ operationResume Examples.system_self_entry (bytes "xdg-screensaver") 6699
     = (true, [EvReadlink (bytes "/proc/self/exe");
               EvOpendir (bytes "/proc");
               EvReadlink (bytes "/proc/0/exe")]).
Proof. repeat split; reflexivity. Qed.

(** ** The cleanup of suspend *)

Import Suspend.

Lemma releases_app (t t' : trace) : releases (t ++ t') = (releases t + releases t')%nat.
Proof. unfold releases. now rewrite filter_app, length_app. Qed.


(** A trace without cleanup events holds no release. *)
Lemma no_cleanup_no_release (t : trace) :
  forallb (fun ev => negb (is_cleanup ev)) t = true -> releases t = 0%nat.
Proof.
  unfold releases. induction t as [| ev t IH]; [reflexivity |].
  cbn [forallb filter]. intros H. apply andb_true_iff in H as [Hev Ht].
  destruct ev; cbn in Hev |- *; try (apply IH; exact Ht).
  destruct (String.eqb member "UnInhibit"); [discriminate | apply IH; exact Ht].
Qed.

Lemma unInhibitScreenSaver_spec (e : env) (d : data) :
  let '(ok, d', t) := unInhibitScreenSaver e d in
  screenSaverInhibited d' = screenSaverInhibited d
  /\ screenSaverInhibitCookie d' = screenSaverInhibitCookie d
  /\ dbusConn d' = dbusConn d /\ signalFd d' = signalFd d /\ display d' = display d
  /\ releases t = sends e d
  /\ forallb (fun ev => is_release ev || is_stderr ev) t = true
  /\ (forall c, In (EvDBusCall "UnInhibit" c) t -> c = Some (screenSaverInhibitCookie d))
  /\ (ok = true -> screenSaverInhibited d = true -> releases t = 1%nat).
Proof.
  unfold unInhibitScreenSaver, sends.
  destruct (screenSaverInhibited d) eqn:Hi; cbn [negb andb].
  - destruct (new_uninhibit_msg e); cbn [negb andb].
    + destruct (append_cookie e); cbn [negb].
      * destruct (uninhibit_reply e) as [[|] | [| a args]]; cbn;
          repeat split; try reflexivity; try assumption; try discriminate;
          intros c [[= <-] | H]; try reflexivity;
          try (destruct H as [[=] | []]); try contradiction.
      * cbn. repeat split; try reflexivity; try assumption; try discriminate.
        intros c [[=] | []].
    + cbn. repeat split; try reflexivity; try assumption; try discriminate.
      intros c [[=] | []].
  - cbn. repeat split; try reflexivity; try assumption; try discriminate.
    intros c [].
Qed.

Lemma is_release_is_cleanup (ev : event) : is_release ev = true -> is_cleanup ev = true.
Proof. destruct ev; cbn; try discriminate. auto. Qed.

Lemma operationSuspendFinish_spec (e : env) (d : data) :
  let '(ok, d', t) := operationSuspendFinish e d in
  screenSaverInhibited d' = screenSaverInhibited d
  /\ screenSaverInhibitCookie d' = screenSaverInhibitCookie d
  /\ releases t = sends e d
  /\ forallb (fun ev => is_cleanup ev || is_stderr ev) t = true
  /\ (forall c, In (EvDBusCall "UnInhibit" c) t -> c = Some (screenSaverInhibitCookie d))
  /\ (ok = true -> screenSaverInhibited d = true -> releases t = 1%nat).
Proof.
  unfold operationSuspendFinish.
  pose proof (unInhibitScreenSaver_spec e d) as H.
  destruct (unInhibitScreenSaver e d) as [[ok d'] t].
  destruct H as (Hi & Hc & _ & _ & _ & Hr & Hev & Hck & Hok).
  assert (Htail : forall tl, forallb (fun ev => is_cleanup ev && negb (is_release ev)) tl = true ->
            releases (t ++ tl) = releases t
            /\ forallb (fun ev => is_cleanup ev || is_stderr ev) (t ++ tl) = true
            /\ (forall c, In (EvDBusCall "UnInhibit" c) (t ++ tl) ->
                c = Some (screenSaverInhibitCookie d))).
  { intros tl Htl. split; [| split].
    - rewrite releases_app.
      assert (releases tl = 0%nat); [| lia].
      unfold releases. induction tl as [| ev tl IH]; [reflexivity |].
      cbn [forallb filter] in *. apply andb_true_iff in Htl as [Hev' Htl].
      apply andb_true_iff in Hev' as [_ Hnr]. apply negb_true_iff in Hnr.
      rewrite Hnr. apply IH, Htl.
    - rewrite forallb_app. apply andb_true_iff. split.
      + eapply forallb_weaken; [| exact Hev]. intros ev Hx.
        apply orb_true_iff in Hx as [Hx | Hx];
          [rewrite (is_release_is_cleanup ev Hx) | rewrite Hx, orb_true_r]; reflexivity.
      + eapply forallb_weaken; [| exact Htl]. intros ev Hx.
        apply andb_true_iff in Hx as [-> _]. reflexivity.
    - intros c Hin. apply in_app_or in Hin as [Hin | Hin]; [apply Hck, Hin |].
      rewrite forallb_forall in Htl. specialize (Htl _ Hin). cbn in Htl.
      discriminate. }
  match goal with
  | |- context [t ++ ?tl] =>
      destruct (Htail tl) as (Hr' & Hev' & Hck');
      [destruct (dbusConn d'), (negb (signalFd d' =? -1)), (display d'); reflexivity |]
  end.
  repeat split; try assumption.
  - rewrite Hr'. exact Hr.
  - intros Hok1 Hi1. rewrite Hr'. apply Hok; assumption.
Qed.


Lemma operationSuspendXErrorHandler_eq {A} (e : env) (d : data) :
  @operationSuspendXErrorHandler A e d
  = (Stop ExitXError,
     snd (fst (operationSuspendFinish e (set_display false d))),
     snd (operationSuspendFinish e (set_display false d)) ++ [EvExit EXIT_FAILURE]).
Proof.
  unfold operationSuspendXErrorHandler.
  destruct (operationSuspendFinish e (set_display false d)) as [[ok d'] t]. reflexivity.
Qed.

Lemma setup_shape (e : env) (prog : list ascii) (window : Z) :
  match operationSuspend_setup e prog window initial_data with
  | (Next _, d, t) =>
      screenSaverInhibited d = true /\ forallb is_setup_event t = true
  | (Stop (CleanReturn v), d, t) => forallb is_setup_event t = true
  | (Stop ExitXError, d, t) =>
      exists d1 pre,
        screenSaverInhibited d1 = true
        /\ forallb is_setup_event pre = true
        /\ d = snd (fst (operationSuspendFinish e (set_display false d1)))
        /\ t = pre ++ snd (operationSuspendFinish e (set_display false d1))
                   ++ [EvExit EXIT_FAILURE]
  | (Stop _, _, _) => False
  end.
Proof.
  unfold operationSuspend_setup, allocSprintf.
  unfold bind at 1. unfold when at 1.
  destruct (sigprocmask_ret e <? 0); [reflexivity |].
  cbn [ret]. unfold bind at 1. cbn [modify]. unfold bind at 1. unfold when at 1.
  destruct (signalfd_ret e <? 0); [reflexivity |].
  cbn [ret]. unfold bind at 1.
  destruct (dbus_bus_get e) as [[|] | []]; [reflexivity | reflexivity |].
  cbn [modify]. unfold bind at 1. unfold when at 1.
  destruct (new_inhibit_msg e); [| reflexivity].
  cbn [negb ret]. unfold bind at 1. cbn [modify]. unfold bind at 1. unfold when at 1.
  destruct (append_prog e); [| reflexivity].
  cbn [negb ret]. unfold bind at 1.
  destruct (alloc e (len (reason_text window) + NULL_BYTE_LEN)); [| reflexivity].
  unfold bind at 1. unfold when at 1.
  destruct (append_reason e); [| reflexivity].
  cbn [negb ret]. unfold bind at 1. cbn [log]. unfold bind at 1.
  destruct (inhibit_reply e) as [[|] | [| [cookie |] [| a args]]];
    try reflexivity.
  cbn -[operationSuspendFinish reason_text].
  destruct (xopen_display e); [| reflexivity].
  cbn -[operationSuspendFinish reason_text].
  destruct (xsync_error e).
  - cbn -[operationSuspendFinish reason_text].
    rewrite operationSuspendXErrorHandler_eq.
    cbn -[operationSuspendFinish reason_text].
    eexists. eexists.
    split; [| split; [| split; [reflexivity |]]].
    2: { instantiate (1 := [EvDBusCall "Inhibit" None; EvXSetHandlers true;
                            EvXOpenDisplay; EvXSync]). reflexivity. }
    + reflexivity.
    + reflexivity.
  - cbn. split; reflexivity.
Qed.

(** ** The wait loop *)

Lemma drain_events_app (e : env) (window : Z) (pre rest : list xitem) (d : data) :
  forallb (passes_over window) pre = true ->
  drain_events e window (pre ++ rest) d
  = (let '(r, d', t) := drain_events e window rest d in (r, d', drained_prefix pre ++ t)).
Proof.
  induction pre as [| x pre IH]; intros Hpre.
  - cbn. destruct (drain_events e window rest d) as [[r d'] t]. reflexivity.
  - cbn [forallb] in Hpre. apply andb_true_iff in Hpre as [Hx Hpre].
    specialize (IH Hpre).
    destruct x as [[event w' | type] | |]; cbn in Hx; try discriminate.
    + apply negb_true_iff in Hx.
      cbn [app drain_events]. unfold bind at 1. cbn [log]. unfold bind at 1.
      cbn [log]. rewrite Hx, IH.
      destruct (drain_events e window rest d) as [[r d'] t]. reflexivity.
    + cbn [app drain_events]. unfold bind at 1. cbn [log]. unfold bind at 1.
      cbn [log]. rewrite IH.
      destruct (drain_events e window rest d) as [[r d'] t]. reflexivity.
Qed.

(** A drain that meets nothing but events to pass over ends when
    [XPending] returns 0. *)
Lemma drain_events_passes (e : env) (window : Z) (pending : list xitem) (d : data) :
  forallb (passes_over window) pending = true ->
  drain_events e window pending d
  = (Next tt, d, drained_prefix pending ++ [EvXPending false]).
Proof.
  intros H. rewrite <- (app_nil_r pending) at 1.
  rewrite drain_events_app by exact H. reflexivity.
Qed.

(** A drain that meets the destruction of the window leaves with
    [cleanReturn(true)]. *)
Lemma drain_events_destroy (e : env) (window : Z) (pre post : list xitem)
    (w' : Z) (d : data) :
  forallb (passes_over window) pre = true ->
  drain_events e window (pre ++ XEvent (DestroyNotify window w') :: post) d
  = (Stop (CleanReturn true), d,
     drained_prefix pre ++ [EvXPending true; EvXNextEvent; EvStderr "Window destroyed"]).
Proof.
  intros H. rewrite drain_events_app by exact H.
  cbn [drain_events]. unfold bind at 1. cbn [log]. unfold bind at 1. cbn [log].
  rewrite Z.eqb_refl. reflexivity.
Qed.

Lemma split_at_first_stop (window : Z) (pending : list xitem) :
  forallb (passes_over window) pending = true
  \/ exists pre x post,
       pending = pre ++ x :: post
       /\ forallb (passes_over window) pre = true
       /\ passes_over window x = false.
Proof.
  induction pending as [| x pending IH]; [left; reflexivity |].
  destruct (passes_over window x) eqn:Hx.
  - destruct IH as [IH | (pre & y & post & -> & Hpre & Hy)].
    + left. cbn. now rewrite Hx, IH.
    + right. exists (x :: pre), y, post. cbn. now rewrite Hx, Hpre.
  - right. exists [], x, pending. auto.
Qed.

(** The three ways a drain ends. *)
Lemma drain_events_cases (e : env) (window : Z) (pending : list xitem) (d : data) :
  (forallb (passes_over window) pending = true
   /\ drain_events e window pending d
      = (Next tt, d, drained_prefix pending ++ [EvXPending false]))
  \/ (exists pre,
        drain_events e window pending d
        = (Stop (CleanReturn true), d,
           drained_prefix pre
           ++ [EvXPending true; EvXNextEvent; EvStderr "Window destroyed"]))
  \/ (exists pre,
        drain_events e window pending d
        = (Stop ExitXError,
           snd (fst (operationSuspendFinish e (set_display false d))),
           drained_prefix pre
           ++ snd (operationSuspendFinish e (set_display false d))
           ++ [EvExit EXIT_FAILURE])).
Proof.
  destruct (split_at_first_stop window pending)
    as [H | (pre & x & post & -> & Hpre & Hx)].
  - left. split; [exact H | apply drain_events_passes, H].
  - right. destruct x as [[event w' | type] | |]; cbn in Hx; try discriminate.
    + left. exists pre. apply negb_false_iff, Z.eqb_eq in Hx. subst event.
      apply drain_events_destroy, Hpre.
    + right. exists pre. rewrite drain_events_app by exact Hpre.
      cbn [drain_events]. now rewrite operationSuspendXErrorHandler_eq.
    + right. exists pre. rewrite drain_events_app by exact Hpre.
      cbn [drain_events]. now rewrite operationSuspendXErrorHandler_eq.
Qed.

(** One turn of the loop, by what the drain did. *)
Lemma wait_loop_cons (e : env) (window : Z) (it : iteration) (its : list iteration)
    (d : data) :
  wait_loop e window (it :: its) d
  = match drain_events e window (it_pending it) d with
    | (Next _, d', t) =>
        match it_select it with
        | SelectErr =>
            (Stop (CleanReturn false), d',
             t ++ [EvSelect; EvStderr "Failed to block on file descriptors"])
        | SelectReady true _ =>
            match it_read it with
            | ReadErr =>
                (Stop (CleanReturn false), d',
                 t ++ [EvSelect; EvReadSignalFd; EvStderr "Failed to read signal fd"])
            | ReadSiginfo ssi_signo =>
                (Stop (CleanReturn (ssi_signo =? SIGTERM)), d',
                 t ++ [EvSelect; EvReadSignalFd; EvReceivedSignal ssi_signo])
            end
        | SelectReady false _ =>
            let '(r, d'', t') := wait_loop e window its d' in
            (r, d'', t ++ EvSelect :: t')
        end
    | (Stop s, d', t) => (Stop s, d', t)
    end.
Proof.
  cbn [wait_loop]. unfold bind at 1.
  destruct (drain_events e window (it_pending it) d) as [[[a | s] d'] t];
    [| reflexivity].
  unfold bind at 1. cbn [log].
  destruct (it_select it) as [| [|] x_fd].
  - reflexivity.
  - destruct (it_read it); reflexivity.
  - destruct (wait_loop e window its d') as [[r d''] t']. reflexivity.
Qed.

Lemma drained_prefix_events (P : event -> bool) (pending : list xitem) :
  P (EvXPending true) = true -> P EvXNextEvent = true ->
  forallb P (drained_prefix pending) = true.
Proof.
  intros H1 H2. unfold drained_prefix.
  induction pending as [| x pending IH]; [reflexivity |].
  cbn [flat_map app forallb]. rewrite H1, H2. exact IH.
Qed.

Lemma wait_loop_shape (e : env) (window : Z) (its : list iteration) :
  forall d,
  match wait_loop e window its d with
  | (Next _, _, _) => False
  | (Stop ExitParent, _, _) => False
  | (Stop ExitXError, d', t) =>
      exists pre,
        forallb is_loop_event pre = true
        /\ d' = snd (fst (operationSuspendFinish e (set_display false d)))
        /\ t = pre ++ snd (operationSuspendFinish e (set_display false d))
                   ++ [EvExit EXIT_FAILURE]
  | (Stop _, d', t) => d' = d /\ forallb is_loop_event t = true
  end.
Proof.
  induction its as [| it its IH]; intros d.
  - cbn. split; reflexivity.
  - rewrite wait_loop_cons.
    pose proof (drained_prefix_events is_loop_event) as Hpre.
    destruct (drain_events_cases e window (it_pending it) d)
      as [[Hpass ->] | [[pre ->] | [pre ->]]].
    + assert (Hd : forallb is_loop_event
                     (drained_prefix (it_pending it) ++ [EvXPending false]) = true).
      { rewrite forallb_app, Hpre; reflexivity. }
      destruct (it_select it) as [| [|] x_fd].
      * split; [reflexivity |]. rewrite forallb_app, Hd. reflexivity.
      * destruct (it_read it); (split; [reflexivity |]);
          rewrite forallb_app, Hd; reflexivity.
      * specialize (IH d).
        destruct (wait_loop e window its d) as [[[a | [v | | |]] d''] t'];
          try contradiction.
        -- destruct IH as [-> Ht']. split; [reflexivity |].
           rewrite forallb_app, Hd. cbn. exact Ht'.
        -- destruct IH as (pre & Hp & -> & ->).
           exists ((drained_prefix (it_pending it) ++ [EvXPending false])
                   ++ EvSelect :: pre).
           split; [| split; [reflexivity |]].
           ++ rewrite forallb_app, Hd. cbn. exact Hp.
           ++ rewrite <- !app_assoc. reflexivity.
        -- destruct IH as [-> Ht']. split; [reflexivity |].
           rewrite forallb_app, Hd. cbn. exact Ht'.
    + split; [reflexivity |]. rewrite forallb_app, Hpre; reflexivity.
    + exists (drained_prefix pre). split; [apply Hpre; reflexivity |].
      split; reflexivity.
Qed.





(** ** The whole of operationSuspend *)

Lemma operationSuspend_body_eq (e : env) (prog : list ascii) (window : Z) :
  operationSuspend_body e prog window initial_data
  = match operationSuspend_setup e prog window initial_data with
    | (Stop s, d, t) => (Stop s, d, t)
    | (Next _, d, ts) =>
        if negb (fork_ret e =? 0)
        then (Stop ExitParent, d, ts ++ [EvFork; EvExit EXIT_SUCCESS])
        else let '(s, d', tl) := wait_loop e window (iterations e) d in
             (s, d', ts ++ EvFork :: tl)
    end.
Proof.
  unfold operationSuspend_body. unfold bind at 1.
  destruct (operationSuspend_setup e prog window initial_data) as [[[a | s] d] ts];
    [| reflexivity].
  unfold bind at 1. cbn [log]. unfold bind at 1. unfold when.
  destruct (negb (fork_ret e =? 0)).
  - reflexivity.
  - cbn [ret]. destruct (wait_loop e window (iterations e) d) as [[s d'] tl].
    reflexivity.
Qed.

Lemma setup_event_calm (ev : event) :
  is_setup_event ev = true ->
  is_cleanup ev = false /\ is_fork ev = false /\ is_exit ev = false
  /\ is_select_or_signal ev = false.
Proof.
  destruct ev; cbn; try discriminate; auto.
  - destruct (String.eqb_spec member "Inhibit"); [subst; auto | discriminate].
  - destruct custom; [auto | discriminate].
Qed.

Lemma loop_event_calm (ev : event) :
  is_loop_event ev = true ->
  is_cleanup ev = false /\ is_fork ev = false /\ is_exit ev = false.
Proof. destruct ev; cbn; try discriminate; auto. Qed.

Lemma finish_event_calm (ev : event) :
  is_cleanup ev || is_stderr ev = true ->
  is_fork ev = false /\ is_exit ev = false /\ is_select_or_signal ev = false.
Proof. destruct ev; cbn; try discriminate; auto. Qed.

Lemma setup_events_no_cleanup (t : trace) :
  forallb is_setup_event t = true -> forallb (fun ev => negb (is_cleanup ev)) t = true.
Proof.
  apply forallb_weaken. intros ev H.
  destruct (setup_event_calm ev H) as [-> _]. reflexivity.
Qed.

Lemma loop_events_no_cleanup (t : trace) :
  forallb is_loop_event t = true -> forallb (fun ev => negb (is_cleanup ev)) t = true.
Proof.
  apply forallb_weaken. intros ev H.
  destruct (loop_event_calm ev H) as [-> _]. reflexivity.
Qed.

Lemma no_cleanup_not_in (t : trace) (c : option Z) :
  forallb (fun ev => negb (is_cleanup ev)) t = true ->
  ~ In (EvDBusCall "UnInhibit" c) t.
Proof. intros H. eapply in_forallb_false; [exact H | reflexivity]. Qed.


(** *** The record at the cleanup *)






(** C9.  When the [fork] of the detach point is reached and fails, the
    branch of the parent is taken: the process exits at once with
    [EXIT_SUCCESS], the cookie is held, and no event of the cleanup, the
    release call among them, occurs in the run. *)
Theorem failed_fork_exits_without_cleanup (e : env) (prog : list ascii) (window : Z) :
  fork_ret e < 0 ->
  In EvFork (snd (operationSuspend e prog window)) ->
  let '(out, d, t) := operationSuspend e prog window in
  out = ExitAfterFork
  /\ exit_status out = Some EXIT_SUCCESS
  /\ screenSaverInhibited d = true
  /\ forallb (fun ev => negb (is_cleanup ev)) t = true
  /\ releases t = 0%nat
  /\ exists pre, t = pre ++ [EvFork; EvExit EXIT_SUCCESS].
Proof.
  intros Hfork. unfold operationSuspend. rewrite operationSuspend_body_eq.
  pose proof (setup_shape e prog window) as Hs.
  assert (Hsetup : forall t, forallb is_setup_event t = true -> ~ In EvFork t).
  { intros t Ht. eapply in_forallb_false; [exact Ht | reflexivity]. }
  assert (Hfin : forall d, ~ In EvFork (snd (operationSuspendFinish e d))).
  { intros d. pose proof (operationSuspendFinish_spec e d) as H.
    destruct (operationSuspendFinish e d) as [[ok d'] t].
    destruct H as (_ & _ & _ & Hev & _). cbn [snd].
    eapply in_forallb_false; [exact Hev | reflexivity]. }
  destruct (operationSuspend_setup e prog window initial_data)
    as [[[[] | [v | | |]] d] ts]; try contradiction.
  - destruct Hs as [Hi Hts].
    destruct (Z.eqb_spec (fork_ret e) 0) as [H0 | _]; [lia |]. cbn [negb].
    intros _. repeat split; try reflexivity; try exact Hi.
    + rewrite forallb_app, (setup_events_no_cleanup ts Hts). reflexivity.
    + apply no_cleanup_no_release.
      rewrite forallb_app, (setup_events_no_cleanup ts Hts). reflexivity.
    + exists ts. reflexivity.
  - pose proof (Hfin d) as Hf.
    destruct (operationSuspendFinish e d) as [[ok d'] tf]. cbn [snd] in *.
    intros Hin. exfalso. apply in_app_or in Hin as [Hin | Hin];
      [exact (Hsetup ts Hs Hin) | exact (Hf Hin)].
  - destruct Hs as (d1 & pre & Hi & Hpre & -> & ->). cbn [snd].
    intros Hin. exfalso. apply in_app_or in Hin as [Hin | Hin];
      [exact (Hsetup pre Hpre Hin) |].
    apply in_app_or in Hin as [Hin | [[=] | []]]. exact (Hfin _ Hin).
Qed.

(** ** Draining before blocking *)

Lemma drained_before_select_prefix (pending : list xitem) :
  forall b queued t,
  drained_before_select b (drained_prefix pending ++ EvXPending queued :: t)
  = drained_before_select (negb queued) t.
Proof.
  induction pending as [| x pending IH]; intros b queued t; [reflexivity |].
  cbn. apply IH.
Qed.

Lemma drained_before_select_quiet (t : trace) :
  forallb (fun ev => negb (is_select_or_signal ev)) t = true ->
  forall b, drained_before_select b t = true.
Proof.
  induction t as [| ev t IH]; intros H b; [reflexivity |].
  cbn [forallb] in H. apply andb_true_iff in H as [Hev Ht].
  destruct ev; cbn in Hev |- *; try discriminate; apply IH, Ht.
Qed.

Lemma drained_before_select_app_quiet (t1 t2 : trace) :
  forallb (fun ev => negb (is_select_or_signal ev)) t1 = true ->
  (forall b, drained_before_select b t2 = true) ->
  forall b, drained_before_select b (t1 ++ t2) = true.
Proof.
  intros H1 H2. induction t1 as [| ev t1 IH]; intros b; [apply H2 |].
  cbn [forallb] in H1. apply andb_true_iff in H1 as [Hev Ht].
  destruct ev; cbn in Hev |- *; try discriminate; apply IH, Ht.
Qed.

Lemma drained_before_select_app_tail (t1 t2 : trace) :
  forallb (fun ev => negb (is_select_or_signal ev)) t2 = true ->
  forall b, drained_before_select b t1 = true ->
  drained_before_select b (t1 ++ t2) = true.
Proof.
  intros H2. induction t1 as [| ev t1 IH]; intros b H1.
  - apply drained_before_select_quiet, H2.
  - destruct ev; cbn in H1 |- *; try (apply IH; exact H1).
    apply andb_true_iff in H1 as [-> H1]. cbn. apply IH, H1.
Qed.

Lemma finish_quiet (e : env) (d : data) :
  forallb (fun ev => negb (is_select_or_signal ev))
          (snd (operationSuspendFinish e d)) = true.
Proof.
  pose proof (operationSuspendFinish_spec e d) as H.
  destruct (operationSuspendFinish e d) as [[ok d'] t].
  destruct H as (_ & _ & _ & Hev & _). cbn [snd].
  eapply forallb_weaken; [| exact Hev].
  intros ev Hx. destruct (finish_event_calm ev Hx) as (_ & _ & ->). reflexivity.
Qed.

Lemma setup_events_quiet (t : trace) :
  forallb is_setup_event t = true ->
  forallb (fun ev => negb (is_select_or_signal ev)) t = true.
Proof.
  apply forallb_weaken. intros ev H.
  destruct (setup_event_calm ev H) as (_ & _ & _ & ->). reflexivity.
Qed.

(** In a run of the wait loop every [select] comes right after an
    [XPending] that returned 0. *)
Lemma wait_loop_drains_first (e : env) (window : Z) (its : list iteration) :
  forall d b, drained_before_select b (snd (wait_loop e window its d)) = true.
Proof.
  induction its as [| it its IH]; intros d b; [reflexivity |].
  rewrite wait_loop_cons.
  destruct (drain_events_cases e window (it_pending it) d)
    as [[Hpass ->] | [[pre ->] | [pre ->]]].
  - destruct (it_select it) as [| [|] x_fd].
    + cbn [snd]. rewrite <- app_assoc. cbn [app].
      rewrite drained_before_select_prefix. reflexivity.
    + destruct (it_read it); cbn [snd]; rewrite <- app_assoc; cbn [app];
        rewrite drained_before_select_prefix; reflexivity.
    + specialize (IH d false).
      destruct (wait_loop e window its d) as [[r d''] t']. cbn [snd] in *.
      rewrite <- app_assoc. cbn [app].
      rewrite drained_before_select_prefix. cbn. exact IH.
  - cbn [snd]. rewrite drained_before_select_prefix. reflexivity.
  - cbn [snd]. apply drained_before_select_quiet.
    rewrite !forallb_app, finish_quiet.
    rewrite (drained_prefix_events (fun ev => negb (is_select_or_signal ev)));
      reflexivity.
Qed.

Lemma operationSuspend_drains_first (e : env) (prog : list ascii) (window : Z) :
  drained_before_select false (snd (operationSuspend e prog window)) = true.
Proof.
  unfold operationSuspend. rewrite operationSuspend_body_eq.
  pose proof (setup_shape e prog window) as Hs.
  destruct (operationSuspend_setup e prog window initial_data)
    as [[[[] | [v | | |]] d] ts]; try contradiction.
  - destruct Hs as [_ Hts]. apply setup_events_quiet in Hts.
    destruct (negb (fork_ret e =? 0)).
    + cbn [snd]. apply drained_before_select_quiet.
      rewrite forallb_app, Hts. reflexivity.
    + pose proof (wait_loop_drains_first e window (iterations e) d false) as Hl.
      destruct (wait_loop e window (iterations e) d) as [[[[] | [v | | |]] d'] tl];
        cbn [snd] in Hl.
      * pose proof (finish_quiet e d') as Hf.
        destruct (operationSuspendFinish e d') as [[ok d''] tf]. cbn [snd] in *.
        rewrite <- app_assoc. apply drained_before_select_app_quiet; [exact Hts |].
        intros b. cbn [app drained_before_select].
        apply drained_before_select_app_tail; assumption.
      * cbn [snd]. apply drained_before_select_app_quiet; [exact Hts |].
        intros b. exact Hl.
      * cbn [snd]. apply drained_before_select_app_quiet; [exact Hts |].
        intros b. exact Hl.
      * cbn [snd]. apply drained_before_select_app_quiet; [exact Hts |].
        intros b. exact Hl.
  - apply setup_events_quiet in Hs.
    pose proof (finish_quiet e d) as Hf.
    destruct (operationSuspendFinish e d) as [[ok d''] tf]. cbn [snd] in *.
    apply drained_before_select_quiet. rewrite forallb_app, Hs, Hf. reflexivity.
  - destruct Hs as (d1 & pre & _ & Hpre & -> & ->). cbn [snd].
    apply setup_events_quiet in Hpre.
    apply drained_before_select_quiet.
    rewrite !forallb_app, Hpre, finish_quiet. reflexivity.
Qed.

(** Turns that go round leave the record alone and only add their
    events. *)
Lemma wait_loop_rounds (e : env) (window : Z) (before rest : list iteration)
    (d : data) :
  forallb (goes_round window) before = true ->
  wait_loop e window (before ++ rest) d
  = (let '(r, d', t) := wait_loop e window rest d in
     (r, d', rounds_trace before ++ t)).
Proof.
  induction before as [| it before IH]; intros H.
  - cbn. destruct (wait_loop e window rest d) as [[r d'] t]. reflexivity.
  - cbn [forallb] in H. apply andb_true_iff in H as [Hit Hbefore].
    unfold goes_round in Hit. apply andb_true_iff in Hit as [Hpass Hsel].
    cbn [app]. rewrite wait_loop_cons, (drain_events_passes _ _ _ _ Hpass).
    destruct (it_select it) as [| [|] x_fd]; try discriminate.
    rewrite (IH Hbefore).
    destruct (wait_loop e window rest d) as [[r d'] t].
    cbn [rounds_trace flat_map]. rewrite <- !app_assoc. reflexivity.
Qed.

Lemma rounds_trace_events (P : event -> bool) (its : list iteration) :
  P (EvXPending true) = true -> P EvXNextEvent = true ->
  P (EvXPending false) = true -> P EvSelect = true ->
  forallb P (rounds_trace its) = true.
Proof.
  intros H1 H2 H3 H4. unfold rounds_trace.
  induction its as [| it its IH]; [reflexivity |].
  cbn [flat_map]. rewrite !forallb_app, (drained_prefix_events P _ H1 H2), IH.
  cbn [forallb]. rewrite H3, H4. reflexivity.
Qed.

(** A turn in which nothing queued stops the drain and [select] reports
    the signal fd readable: the signal is read and decides, whatever
    [select] said of the X connection and whatever the later turns
    hold. *)
Lemma wait_loop_signal (e : env) (window : Z) (before : list iteration)
    (it : iteration) (after : list iteration) (d : data) (x_fd : bool) (s : Z) :
  forallb (goes_round window) before = true ->
  forallb (passes_over window) (it_pending it) = true ->
  it_select it = SelectReady true x_fd ->
  it_read it = ReadSiginfo s ->
  wait_loop e window (before ++ it :: after) d
  = (Stop (CleanReturn (s =? SIGTERM)), d,
     rounds_trace before
     ++ drained_prefix (it_pending it)
     ++ [EvXPending false; EvSelect; EvReadSignalFd; EvReceivedSignal s]).
Proof.
  intros Hbefore Hpass Hsel Hread.
  rewrite (wait_loop_rounds _ _ _ _ _ Hbefore), wait_loop_cons.
  rewrite (drain_events_passes _ _ _ _ Hpass), Hsel, Hread.
  rewrite <- app_assoc. reflexivity.
Qed.

(** C3 (amended).  Every [select] of a run comes right after an
    [XPending] that found the queue empty.  Take a run in which the setup
    succeeded, the process is the child, and the wait loop has reached
    some turn after turns that went round.  When in that turn the
    destruction of the window is queued behind events the drain passes
    over, then whatever [select] and the signal fd would have answered in
    that turn, the loop leaves with [cleanReturn(true)] before it blocks
    or reads a signal, and [operationSuspend] returns what
    [operationSuspendFinish] returns: success when the cleanup succeeds.
    When in that turn nothing queued stops the drain and [select] then
    reports the signal fd readable, then whatever it reports of the X
    connection and whatever the X connection holds for the later turns,
    the signal is read at once and the loop leaves with
    [cleanReturn(signal == SIGTERM)]: no X event is looked at after the
    [select], "Window destroyed" is not printed, and [operationSuspend]
    returns success exactly when the signal is SIGTERM and the cleanup
    succeeds. *)
Theorem queued_destruction_comes_first (e : env) (prog : list ascii) (window : Z)
    (d : data) (ts : trace) (before : list iteration) (it : iteration)
    (after : list iteration) :
  operationSuspend_setup e prog window initial_data = (Next tt, d, ts) ->
  fork_ret e = 0 ->
  iterations e = before ++ it :: after ->
  forallb (goes_round window) before = true ->
  (forall (pre : list xitem) (w' : Z) (post : list xitem),
     it_pending it = pre ++ XEvent (DestroyNotify window w') :: post ->
     forallb (passes_over window) pre = true ->
     let last_turn :=
       drained_prefix pre
       ++ [EvXPending true; EvXNextEvent; EvStderr "Window destroyed"] in
     wait_loop e window (iterations e) d
     = (Stop (CleanReturn true), d, rounds_trace before ++ last_turn)
     /\ forallb (fun ev => negb (is_select_or_signal ev)) last_turn = true
     /\ operationSuspend e prog window
        = (Returned (fst (fst (operationSuspendFinish e d))),
           snd (fst (operationSuspendFinish e d)),
           (ts ++ EvFork :: rounds_trace before ++ last_turn)
           ++ snd (operationSuspendFinish e d)))
  /\ (forall (x_fd : bool) (s : Z),
        forallb (passes_over window) (it_pending it) = true ->
        it_select it = SelectReady true x_fd ->
        it_read it = ReadSiginfo s ->
        let last_turn :=
          drained_prefix (it_pending it)
          ++ [EvXPending false; EvSelect; EvReadSignalFd; EvReceivedSignal s] in
        wait_loop e window (iterations e) d
        = (Stop (CleanReturn (s =? SIGTERM)), d, rounds_trace before ++ last_turn)
        /\ ~ In (EvStderr "Window destroyed") (rounds_trace before ++ last_turn)
        /\ operationSuspend e prog window
           = (Returned (fst (fst (operationSuspendFinish e d)) && (s =? SIGTERM)),
              snd (fst (operationSuspendFinish e d)),
              (ts ++ EvFork :: rounds_trace before ++ last_turn)
              ++ snd (operationSuspendFinish e d)))
  /\ (forall e' prog' window',
        drained_before_select false (snd (operationSuspend e' prog' window')) = true).
Proof.
  intros Hsetup Hfork Hits Hbefore.
  split; [| split; [| intros; apply operationSuspend_drains_first]].
  - intros pre w' post Hpending Hpre last_turn.
    assert (Hloop : wait_loop e window (iterations e) d
                    = (Stop (CleanReturn true), d, rounds_trace before ++ last_turn)).
    { rewrite Hits, (wait_loop_rounds _ _ _ _ _ Hbefore), wait_loop_cons, Hpending.
      rewrite (drain_events_destroy _ _ _ _ _ _ Hpre). reflexivity. }
    split; [exact Hloop |]. split.
    + unfold last_turn. rewrite forallb_app.
      rewrite (drained_prefix_events (fun ev => negb (is_select_or_signal ev)));
        reflexivity.
    + unfold operationSuspend.
      rewrite operationSuspend_body_eq, Hsetup, Hfork, Hloop. cbn [Z.eqb negb].
      destruct (operationSuspendFinish e d) as [[ok d'] tf]. cbn [fst snd].
      destruct ok; reflexivity.
  - intros x_fd s Hpass Hsel Hread last_turn.
    assert (Hloop : wait_loop e window (iterations e) d
                    = (Stop (CleanReturn (s =? SIGTERM)), d,
                       rounds_trace before ++ last_turn)).
    { rewrite Hits. apply (wait_loop_signal e window before it after d x_fd s);
        assumption. }
    split; [exact Hloop |]. split.
    + apply (in_forallb_false (fun ev => negb (is_stderr ev))); [| reflexivity].
      unfold last_turn. rewrite !forallb_app.
      rewrite (rounds_trace_events (fun ev => negb (is_stderr ev)));
        try reflexivity.
      rewrite (drained_prefix_events (fun ev => negb (is_stderr ev)));
        reflexivity.
    + unfold operationSuspend.
      rewrite operationSuspend_body_eq, Hsetup, Hfork, Hloop. cbn [Z.eqb negb].
      destruct (operationSuspendFinish e d) as [[ok d'] tf]. cbn [fst snd].
      destruct ok; reflexivity.
Qed.

(** ** Examples of suspend runs *)

Lemma queued_destruction_comes_first_witness :
  (let e := Examples.session_destroyed in
   let setup := operationSuspend_setup e Examples.prog 6699 initial_data in
   let d := snd (fst setup) in
   setup = (Next tt, d, snd setup)
   /\ operationSuspend e Examples.prog 6699
      = (Returned (fst (fst (operationSuspendFinish e d))),
         snd (fst (operationSuspendFinish e d)),
         (snd setup
          ++ EvFork
             :: rounds_trace [Examples.x_traffic]
             ++ drained_prefix [XEvent (OtherEvent 22)]
             ++ [EvXPending true; EvXNextEvent; EvStderr "Window destroyed"])
         ++ snd (operationSuspendFinish e d)))
  /\ (let e := Examples.session_race_in_select in
      let setup := operationSuspend_setup e Examples.prog 6699 initial_data in
      let d := snd (fst setup) in
      setup = (Next tt, d, snd setup)
      /\ iterations e = [] ++ Examples.both_ready_in_select :: [Examples.destruction_queued]
      /\ wait_loop e 6699 (iterations e) d
         = (Stop (CleanReturn (SIGHUP =? SIGTERM)), d,
            rounds_trace []
            ++ drained_prefix []
            ++ [EvXPending false; EvSelect; EvReadSignalFd; EvReceivedSignal SIGHUP])).
Proof.
  split.
  - split; [reflexivity |].
    destruct (queued_destruction_comes_first Examples.session_destroyed Examples.prog 6699
                (snd (fst (operationSuspend_setup Examples.session_destroyed
                             Examples.prog 6699 initial_data)))
                (snd (operationSuspend_setup Examples.session_destroyed
                        Examples.prog 6699 initial_data))
                [Examples.x_traffic] Examples.destroyed_and_signalled []
                ltac:(reflexivity) ltac:(reflexivity) ltac:(reflexivity)
                ltac:(reflexivity)) as (Hqueued & _ & _).
    destruct (Hqueued [XEvent (OtherEvent 22)] 6699 [] ltac:(reflexivity)
                ltac:(reflexivity)) as (_ & _ & Hrun).
    exact Hrun.
  - split; [reflexivity |]. split; [reflexivity |].
    destruct (queued_destruction_comes_first Examples.session_race_in_select
                Examples.prog 6699
                (snd (fst (operationSuspend_setup Examples.session_race_in_select
                             Examples.prog 6699 initial_data)))
                (snd (operationSuspend_setup Examples.session_race_in_select
                        Examples.prog 6699 initial_data))
                [] Examples.both_ready_in_select [Examples.destruction_queued]
                ltac:(reflexivity) ltac:(reflexivity) ltac:(reflexivity)
                ltac:(reflexivity)) as (_ & Hrace & _).
    destruct (Hrace true SIGHUP ltac:(reflexivity) ltac:(reflexivity)
                ltac:(reflexivity)) as (Hloop & _ & _).
    exact Hloop.
Defined.

(** C3 as stated fails in two ways.  With the destruction queued and
    SIGHUP pending in the same turn, the destruction is seen first but
    the operation reports failure because the release call gets no
    reply.  With both becoming ready while [select] blocks, the signal is
    consumed first, the destruction is never seen and the operation
    reports failure. *)
Lemma destruction_does_not_imply_success :
  (fst (fst (operationSuspend Examples.session_release_fails Examples.prog 6699))
   = Returned false
   /\ In (EvStderr "Window destroyed")
         (snd (operationSuspend Examples.session_release_fails Examples.prog 6699))
   /\ ~ In EvReadSignalFd
         (snd (operationSuspend Examples.session_release_fails Examples.prog 6699)))
  /\ (fst (fst (operationSuspend Examples.session_race_in_select Examples.prog 6699))
      = Returned false
      /\ In (EvReceivedSignal SIGHUP)
            (snd (operationSuspend Examples.session_race_in_select Examples.prog 6699))
      /\ ~ In (EvStderr "Window destroyed")
            (snd (operationSuspend Examples.session_race_in_select Examples.prog 6699))).
Proof.
  split; (split; [reflexivity |]; split;
          [cbn; tauto | cbn; intros H; repeat destruct H as [H | H]; try discriminate H; exact H]).
Qed.




Lemma failed_fork_exits_without_cleanup_witness :
  fork_ret Examples.session_fork_fails < 0
  /\ fst (fst (operationSuspend Examples.session_fork_fails Examples.prog 6699))
     = ExitAfterFork
  /\ releases (snd (operationSuspend Examples.session_fork_fails Examples.prog 6699))
     = 0%nat.
Proof.
  split; [reflexivity |].
  assert (H := failed_fork_exits_without_cleanup Examples.session_fork_fails
                 Examples.prog 6699 ltac:(reflexivity) ltac:(cbn; tauto)).
  destruct (operationSuspend Examples.session_fork_fails Examples.prog 6699)
    as [[out d] t].
  destruct H as (H1 & _ & _ & _ & H2 & _). split; assumption.
Defined.

(** * More properties of the code *)

Import Reading.

(** ** The buffers *)

Lemma pow2_lt_64 (a : Z) : 0 <= a < 64 -> 0 < 2 ^ a < 2 ^ 64.
Proof.
  intros H. split; [apply Z.pow_pos_nonneg; lia |].
  apply Z.pow_lt_mono_r; lia.
Qed.

Lemma wrap_size_t_pow2 (a : Z) : 0 <= a < 64 -> wrap_size_t (2 ^ a) = 2 ^ a.
Proof. intros H. unfold wrap_size_t. apply Z.mod_small. pose proof (pow2_lt_64 a H). lia. Qed.

Lemma wrap_size_t_next (a : Z) :
  0 <= a -> a + 1 < 64 -> wrap_size_t (2 ^ a * 2) = 2 ^ (a + 1).
Proof.
  intros H0 H1. rewrite <- (wrap_size_t_pow2 (a + 1)) by lia.
  rewrite Z.pow_add_r by lia. reflexivity.
Qed.

Lemma read_cmdline_invariant (o : os) (f : file) (fuel : nat) :
  forall (j k : nat) (cmdline rest : list ascii),
  enough_memory o -> readable f ->
  (j + fuel = 54)%nat -> (1 <= fuel)%nat ->
  len (cmdline ++ rest) < 2 ^ 63 ->
  len cmdline <= 2 ^ (10 + Z.of_nat j) ->
  read_cmdline fuel o f k (2 ^ (10 + Z.of_nat j)) cmdline rest
  = (Some (cmdline ++ rest), []).
Proof.
  induction fuel as [| fuel IH]; intros j k cmdline rest Hmem Hread Hj Hfuel Hlen Hc;
    [lia |].
  assert (Hpos : 0 < 2 ^ (10 + Z.of_nat j) < 2 ^ 64) by (apply pow2_lt_64; lia).
  cbn [read_cmdline]. unfold realloc_ok. rewrite Hmem, Hread.
  destruct (Z.ltb_spec 0 (2 ^ (10 + Z.of_nat j))) as [_ | ?]; [| lia].
  cbn [andb negb].
  set (size := 2 ^ (10 + Z.of_nat j)) in *.
  set (count := Z.to_nat (size - len cmdline)).
  unfold len in *. rewrite length_app in Hlen.
  destruct (Z.ltb_spec (Z.of_nat (List.length (cmdline ++ firstn count rest))) size)
    as [Hshort | Hfull].
  - f_equal. f_equal. f_equal.
    rewrite length_app, length_firstn in Hshort.
    apply firstn_all2. lia.
  - rewrite length_app, length_firstn in Hfull.
    assert (Hcount : (count <= List.length rest)%nat) by lia.
    assert (Hj53 : (j < 53)%nat).
    { destruct (Nat.lt_ge_cases j 53) as [H | H]; [exact H |]. exfalso.
      assert (2 ^ 63 <= size).
      { unfold size. apply Z.pow_le_mono_r; lia. }
      lia. }
    destruct fuel as [| fuel]; [lia |].
    change (wrap_size_t (size * 2)) with (wrap_size_t (2 ^ (10 + Z.of_nat j) * 2)).
    rewrite wrap_size_t_next by lia.
    replace (10 + Z.of_nat j + 1) with (10 + Z.of_nat (S j)) by lia.
    rewrite (IH (S j)); try assumption; try lia.
    + rewrite <- app_assoc, firstn_skipn. reflexivity.
    + rewrite <- app_assoc, firstn_skipn, length_app. lia.
    + rewrite length_app, length_firstn.
      replace (10 + Z.of_nat (S j)) with (10 + Z.of_nat j + 1) by lia.
      rewrite Z.pow_add_r by lia. fold size. lia.
Qed.



Lemma allocReadlink_loop_invariant (o : os) (path : list ascii) (ignore : bool)
    (target : list ascii) (fuel : nat) :
  forall j : nat,
  enough_memory o -> os_readlink o path = ReadlinkOk target ->
  (j + fuel = 56)%nat -> (1 <= fuel)%nat ->
  len target < 2 ^ 63 ->
  exists n,
    allocReadlink_loop fuel o path ignore (2 ^ (8 + Z.of_nat j))
    = ((true, Some (cut_deleted target)), repeat (EvReadlink path) (S n)).
Proof.
  induction fuel as [| fuel IH]; intros j Hmem Hlink Hj Hfuel Hlen; [lia |].
  assert (Hpos : 0 < 2 ^ (8 + Z.of_nat j) < 2 ^ 64) by (apply pow2_lt_64; lia).
  cbn [allocReadlink_loop]. unfold realloc_ok. rewrite Hmem, Hlink.
  destruct (Z.ltb_spec 0 (2 ^ (8 + Z.of_nat j))) as [_ | ?]; [| lia].
  cbn [andb negb].
  destruct (Z.ltb_spec (Z.min (len target) (2 ^ (8 + Z.of_nat j))) (2 ^ (8 + Z.of_nat j)))
    as [Hshort | Hfull].
  - exists 0%nat. reflexivity.
  - assert (Hj55 : (j < 55)%nat).
    { destruct (Nat.lt_ge_cases j 55) as [H | H]; [exact H |]. exfalso.
      assert (2 ^ 63 <= 2 ^ (8 + Z.of_nat j)) by (apply Z.pow_le_mono_r; lia).
      lia. }
    destruct fuel as [| fuel]; [lia |].
    rewrite wrap_size_t_next by lia.
    replace (8 + Z.of_nat j + 1) with (8 + Z.of_nat (S j)) by lia.
    destruct (IH (S j)) as [n Hn]; try assumption; try lia.
    rewrite Hn. exists (S n). reflexivity.
Qed.

Lemma cstr_no_nul_id (s : list ascii) : no_nul s = true -> cstr s = s.
Proof.
  unfold no_nul. induction s as [| c s IH]; [reflexivity |].
  cbn [forallb cstr]. intros H. apply andb_true_iff in H as [Hc Hs].
  apply negb_true_iff in Hc. rewrite Hc, IH by exact Hs. reflexivity.
Qed.

Lemma no_nul_app (a b : list ascii) : no_nul (a ++ b) = no_nul a && no_nul b.
Proof. apply forallb_app. Qed.

Lemma no_nul_skipn (n : nat) (s : list ascii) : no_nul s = true -> no_nul (skipn n s) = true.
Proof.
  intros H. rewrite <- (firstn_skipn n s), no_nul_app in H.
  apply andb_true_iff in H as [_ H]. exact H.
Qed.

Lemma bytes_eqb_refl (a : list ascii) : bytes_eqb a a = true.
Proof. unfold bytes_eqb. destruct (list_eq_dec ascii_dec a a); [reflexivity | contradiction]. Qed.

(** What cutting " (deleted)" does to a link without NUL: when the link
    ends in the suffix, exactly one copy of it goes; otherwise the link
    is left alone. *)
Lemma cut_deleted_spec (link : list ascii) :
  no_nul link = true ->
  link = cut_deleted link ++ suffix_deleted
  \/ (cut_deleted link = link /\ forall p, link <> p ++ suffix_deleted).
Proof.
  intros Hn. unfold cut_deleted, streq, at_offset, len.
  set (m := List.length suffix_deleted).
  set (n := List.length link).
  change (cstr suffix_deleted) with suffix_deleted.
  rewrite (cstr_no_nul_id _ (no_nul_skipn _ _ Hn)).
  destruct (Z.leb_spec (Z.of_nat m) (Z.of_nat n)) as [Hle | Hgt]; cbn [andb].
  - destruct (bytes_eqb (skipn (Z.to_nat (Z.of_nat n - Z.of_nat m)) link) suffix_deleted)
      eqn:Heq.
    + left. apply bytes_eqb_eq in Heq. rewrite <- Heq.
      symmetry. apply firstn_skipn.
    + right. split; [reflexivity |]. intros p Hp.
      assert (Hlen : n = (List.length p + m)%nat)
        by (unfold n, m; rewrite Hp, length_app; reflexivity).
      replace (Z.to_nat (Z.of_nat n - Z.of_nat m)) with (List.length p) in Heq by lia.
      rewrite Hp, skipn_app, skipn_all, Nat.sub_diag in Heq. cbn [skipn app] in Heq.
      rewrite bytes_eqb_refl in Heq. discriminate.
  - right. split; [reflexivity |]. intros p Hp.
    assert (n = (List.length p + m)%nat)
      by (unfold n, m; rewrite Hp, length_app; reflexivity).
    lia.
Qed.

(** X3.  With memory for the buffer, [allocReadlink] on a readable link
    (shorter than [2^63] bytes) succeeds whatever [ignoreAccesError] is,
    after one [readlink] call per buffer size tried, and returns the
    target of the link with one trailing " (deleted)" removed, or the
    target itself when it does not end that way. *)
Theorem allocReadlink_reads_link (o : os) (path : list ascii) (ignore : bool)
    (target : list ascii) :
  enough_memory o ->
  os_readlink o path = ReadlinkOk target ->
  no_nul target = true ->
  len target < 2 ^ 63 ->
  exists link n,
    allocReadlink o path ignore = ((true, Some link), repeat (EvReadlink path) (S n))
    /\ (target = link ++ suffix_deleted
        \/ (link = target /\ forall p, target <> p ++ suffix_deleted)).
Proof.
  intros Hmem Hlink Hn Hlen.
  destruct (allocReadlink_loop_invariant o path ignore target 56 0 Hmem Hlink)
    as [n Hloop]; try lia.
  exists (cut_deleted target), n. split; [exact Hloop |].
  apply cut_deleted_spec, Hn.
Qed.

Lemma allocReadlink_reads_link_witness :
  let o := Examples.system (ReadlinkOk (bytes "/usr/bin/vlc (deleted)"))
                           (OpenErr ENOENT) [] in
  enough_memory o
  /\ exists link n,
       allocReadlink o (bytes "/proc/4242/exe") true
       = ((true, Some link), repeat (EvReadlink (bytes "/proc/4242/exe")) (S n))
       /\ (bytes "/usr/bin/vlc (deleted)" = link ++ suffix_deleted
           \/ (link = bytes "/usr/bin/vlc (deleted)"
               /\ forall p, bytes "/usr/bin/vlc (deleted)" <> p ++ suffix_deleted)).
Proof.
  assert (Hmem : enough_memory
                   (Examples.system (ReadlinkOk (bytes "/usr/bin/vlc (deleted)"))
                                    (OpenErr ENOENT) []))
    by (intros n; reflexivity).
  split; [exact Hmem |].
  apply (allocReadlink_reads_link _ (bytes "/proc/4242/exe") true
           (bytes "/usr/bin/vlc (deleted)") Hmem); reflexivity.
Defined.

(** ** The matcher on the command line of a suspend process *)

Lemma cstr_app_nul (a rest : list ascii) : no_nul a = true -> cstr (a ++ NUL :: rest) = a.
Proof.
  unfold no_nul. induction a as [| c a IH]; [reflexivity |].
  cbn [forallb app cstr]. intros H. apply andb_true_iff in H as [Hc Ha].
  apply negb_true_iff in Hc. rewrite Hc, IH by exact Ha. reflexivity.
Qed.

Lemma byte_at_last (a : list ascii) (c : ascii) :
  byte_at (a ++ [c]) (len (a ++ [c]) - 1) = c.
Proof.
  unfold byte_at, len. rewrite length_app. cbn [List.length].
  replace (Z.to_nat (Z.of_nat (List.length a + 1) - 1)) with (List.length a) by lia.
  rewrite app_nth2 by lia. now rewrite Nat.sub_diag.
Qed.

Lemma parse_window_token (tok : list ascii) (w : Z) :
  no_nul tok = true -> Main.parse_window tok = Some w ->
  exists c tok', tok = c :: tok' /\ is_nul c = false
                 /\ exists windowEnd, strtoul tok = (w, windowEnd)
                                      /\ is_nul (head_byte windowEnd) = true.
Proof.
  intros Hn. unfold Main.parse_window. rewrite (cstr_no_nul_id tok Hn).
  destruct (strtoul tok) as [v windowEnd].
  destruct (is_nul (head_byte tok)) eqn:Hh; [discriminate |].
  destruct (is_nul (head_byte windowEnd)) eqn:He; [| discriminate].
  cbn. intros [= <-].
  destruct tok as [| c tok']; [discriminate Hh |].
  exists c, tok'. split; [reflexivity |]. split; [exact Hh |].
  exists windowEnd. split; [reflexivity | exact He].
Qed.

Lemma check_suspend_cmdline (o : os) (pid : Z) (self : list ascii) (window : Z)
    (exeLink : list ascii) (t1 : trace) (f : file) (argv0 tok : list ascii) (w : Z) :
  sprintf_succeeds o (proc_path pid "exe") ->
  allocReadlink o (proc_path pid "exe") true = ((true, Some exeLink), t1) ->
  sprintf_succeeds o (proc_path pid "cmdline") ->
  os_open o (proc_path pid "cmdline") = OpenOk f ->
  read_cmdline 54 o f 0 1024 [] (f_data f) = (Some (suspend_cmdline argv0 tok), []) ->
  no_nul argv0 = true ->
  no_nul tok = true ->
  Main.parse_window tok = Some w ->
  checkAndResumeProcess o pid self window
  = if w =? window then
      match os_kill o pid SIGTERM with
      | KillOk =>
          (true, t1 ++ [EvOpen (proc_path pid "cmdline"); EvKill pid SIGTERM])
      | KillErr errno =>
          if (errno =? EPERM) || (errno =? ESRCH)
          then (true, t1 ++ [EvOpen (proc_path pid "cmdline"); EvKill pid SIGTERM])
          else (false, t1 ++ [EvOpen (proc_path pid "cmdline"); EvKill pid SIGTERM;
                              EvStderr "Failed to kill process"])
      end
    else (true, t1 ++ [EvOpen (proc_path pid "cmdline")]).
Proof.
  intros Hexe Hlink Hcmd Hopen Hread Hn0 Hntok Hparse.
  destruct (parse_window_token tok w Hntok Hparse)
    as (c & tok' & Htok & Hc & windowEnd & Hst & Hend).
  unfold checkAndResumeProcess, checkAndResumeProcess_body, allocSprintf.
  unfold sprintf_succeeds in *. rewrite Hexe.
  cbn [Resume.call fst snd Resume.bind Resume.or_cleanReturn Resume.ret]. rewrite Hlink.
  cbn [Resume.call fst snd Resume.bind Resume.or_cleanReturn Resume.ret negb
       Resume.cleanReturn app]. rewrite Hcmd.
  cbn [Resume.call fst snd Resume.bind Resume.or_cleanReturn Resume.ret negb
       Resume.cleanReturn app Resume.log].
  rewrite Hopen, Hread.
  cbn [Resume.call fst snd Resume.bind Resume.or_cleanReturn Resume.ret].
  remember (proc_path pid "cmdline") as cpath eqn:Hcpath.
  set (r2 := tok ++ [NUL]).
  set (r1 := bytes "suspend" ++ NUL :: r2).
  assert (Hcl : suspend_cmdline argv0 tok = argv0 ++ NUL :: r1) by reflexivity.
  assert (Hlen : len (suspend_cmdline argv0 tok) = len argv0 + 1 + 7 + 1 + len tok + 1).
  { unfold suspend_cmdline, len.
    repeat (rewrite length_app; cbn [List.length]).
    change (List.length (bytes "suspend")) with 7%nat. lia. }
  assert (Hargv0 : 0 <= len argv0) by (unfold len; lia).
  assert (Htoklen : 0 <= len tok) by (unfold len; lia).
  assert (Hstrlen : strlen (suspend_cmdline argv0 tok) = len argv0).
  { unfold strlen. rewrite Hcl, (cstr_app_nul _ _ Hn0). reflexivity. }
  assert (Hoff1 : at_offset (suspend_cmdline argv0 tok) (len argv0 + NULL_BYTE_LEN) = r1).
  { rewrite Hcl. apply at_offset_past. }
  assert (Hc1 : cstr r1 = bytes "suspend") by (apply (cstr_app_nul (bytes "suspend")); reflexivity).
  assert (Hstrlen1 : strlen r1 = 7) by (unfold strlen; rewrite Hc1; reflexivity).
  assert (Hoff2 : at_offset (suspend_cmdline argv0 tok)
                    (len argv0 + NULL_BYTE_LEN + 7 + NULL_BYTE_LEN) = r2).
  { unfold NULL_BYTE_LEN.
    replace (len argv0 + 1 + 7 + 1) with ((len argv0 + 1) + (7 + 1)) by lia.
    rewrite at_offset_add by lia.
    change (len argv0 + 1) with (len argv0 + NULL_BYTE_LEN). rewrite Hoff1.
    apply (at_offset_past (bytes "suspend") NUL r2). }
  assert (Hc2 : cstr r2 = tok) by (apply cstr_app_nul, Hntok).
  assert (Hstrlen2 : strlen r2 = len tok) by (unfold strlen; rewrite Hc2; reflexivity).
  assert (Hlast : byte_at (suspend_cmdline argv0 tok) (len (suspend_cmdline argv0 tok) - 1)
                  = NUL).
  { unfold suspend_cmdline.
    change (argv0 ++ NUL :: bytes "suspend" ++ NUL :: tok ++ [NUL])
      with (argv0 ++ (NUL :: bytes "suspend" ++ NUL :: tok) ++ [NUL]).
    rewrite app_assoc. apply byte_at_last. }
  rewrite Hlast, Hstrlen, Hoff1, Hstrlen1, Hoff2, Hstrlen2, Hc2, Hst, Hlen.
  rewrite (byte_at_head (suspend_cmdline argv0 tok)), Hoff2.
  unfold streq. rewrite Hc1. change (cstr (bytes "suspend")) with (bytes "suspend").
  rewrite bytes_eqb_refl.
  assert (Hhead : is_nul (head_byte r2) = false) by (unfold r2; rewrite Htok; exact Hc).
  rewrite Hhead, Hend. unfold NULL_BYTE_LEN.
  destruct (Z.ltb_spec (len argv0 + 1 + 7 + 1 + len tok + 1) 1) as [? | _]; [lia |].
  destruct (Z.leb_spec (len argv0 + 1 + 7 + 1 + len tok + 1) (len argv0 + 1)) as [? | _];
    [lia |].
  destruct (Z.leb_spec (len argv0 + 1 + 7 + 1 + len tok + 1) (len argv0 + 1 + 7 + 1))
    as [? | _]; [lia |].
  rewrite Z.eqb_refl.
  change (is_nul NUL) with true.
  cbn [negb orb Resume.bind Resume.ret Resume.cleanReturn Resume.log app].
  destruct (w =? window).
  - cbn [negb Resume.bind Resume.ret Resume.cleanReturn Resume.log app].
    destruct (os_kill o pid SIGTERM) as [errno |].
    + destruct ((errno =? EPERM) || (errno =? ESRCH));
        cbn [Resume.run Resume.bind Resume.ret Resume.cleanReturn Resume.log app];
        rewrite ?app_nil_r; reflexivity.
    + cbn [Resume.run Resume.bind Resume.ret Resume.cleanReturn Resume.log app].
      rewrite ?app_nil_r. reflexivity.
  - cbn [negb Resume.run Resume.bind Resume.ret Resume.cleanReturn Resume.log app].
    rewrite ?app_nil_r. reflexivity.
Qed.

Lemma filter_none {A} (P : A -> bool) (l : list A) :
  forallb (fun a => negb (P a)) l = true -> filter P l = [].
Proof.
  induction l as [| a l IH]; [reflexivity |].
  cbn [forallb filter]. intros H. apply andb_true_iff in H as [Ha Hl].
  apply negb_true_iff in Ha. rewrite Ha. apply IH, Hl.
Qed.

Lemma allocReadlink_no_kill (o : os) (path : list ascii) (ignore : bool) :
  filter is_kill (snd (allocReadlink o path ignore)) = [].
Proof. apply filter_none, allocReadlink_loop_no_kill. Qed.

(** The matcher on a readable candidate with the command line of a
    suspend process, from what the kernel answers. *)
Lemma check_started_suspend (o : os) (pid : Z) (self : list ascii)
    (window : Z) (target : list ascii) (f : file) (argv0 tok : list ascii) (w : Z) :
  enough_memory o ->
  os_readlink o (proc_path pid "exe") = ReadlinkOk target ->
  len target < 2 ^ 63 ->
  os_open o (proc_path pid "cmdline") = OpenOk f ->
  readable f ->
  f_data f = suspend_cmdline argv0 tok ->
  len (f_data f) < 2 ^ 63 ->
  no_nul argv0 = true ->
  no_nul tok = true ->
  Main.parse_window tok = Some w ->
  exists t1,
    filter is_kill t1 = []
    /\ checkAndResumeProcess o pid self window
       = if w =? window then
           match os_kill o pid SIGTERM with
           | KillOk =>
               (true, t1 ++ [EvOpen (proc_path pid "cmdline"); EvKill pid SIGTERM])
           | KillErr errno =>
               if (errno =? EPERM) || (errno =? ESRCH)
               then (true, t1 ++ [EvOpen (proc_path pid "cmdline"); EvKill pid SIGTERM])
               else (false, t1 ++ [EvOpen (proc_path pid "cmdline"); EvKill pid SIGTERM;
                                   EvStderr "Failed to kill process"])
           end
         else (true, t1 ++ [EvOpen (proc_path pid "cmdline")]).
Proof.
  intros Hmem Hlink Htlen Hopen Hreadable Hdata Hlen Hn0 Hntok Hparse.
  destruct (allocReadlink_loop_invariant o (proc_path pid "exe") true target 56 0
              Hmem Hlink) as [n Hrl]; try lia.
  change (allocReadlink_loop 56 o (proc_path pid "exe") true (2 ^ (8 + Z.of_nat 0)))
    with (allocReadlink o (proc_path pid "exe") true) in Hrl.
  pose proof (read_cmdline_invariant o f 54 0 0 [] (f_data f) Hmem Hreadable) as Hrd.
  cbn [app] in Hrd. rewrite Hdata in Hrd at 3.
  specialize (Hrd ltac:(lia) ltac:(lia) Hlen ltac:(cbn; lia)).
  change (2 ^ (10 + Z.of_nat 0)) with 1024 in Hrd.
  exists (repeat (EvReadlink (proc_path pid "exe")) (S n)). split.
  - pose proof (allocReadlink_no_kill o (proc_path pid "exe") true) as H.
    rewrite Hrl in H. exact H.
  - exact (check_suspend_cmdline o pid self window (cut_deleted target) _ f argv0 tok w
             (Hmem _) Hrl (Hmem _) Hopen Hrd Hn0 Hntok Hparse).
Qed.

(** X4.  A candidate whose [exe] link is readable and whose command line
    is [argv0 suspend token], with a token that [main] accepts as the
    window id [w], is sent [SIGTERM] exactly once when [w] is the window
    of the [resume] call, and then the matcher reports success unless
    [kill] fails with something else than EPERM or ESRCH; when [w] is
    another window, nothing is sent and the matcher reports success. *)
Theorem suspend_process_is_signalled (o : os) (pid : Z) (self : list ascii)
    (window : Z) (target : list ascii) (f : file) (argv0 tok : list ascii) (w : Z) :
  enough_memory o ->
  os_readlink o (proc_path pid "exe") = ReadlinkOk target ->
  len target < 2 ^ 63 ->
  os_open o (proc_path pid "cmdline") = OpenOk f ->
  readable f ->
  f_data f = suspend_cmdline argv0 tok ->
  len (f_data f) < 2 ^ 63 ->
  no_nul argv0 = true ->
  no_nul tok = true ->
  Main.parse_window tok = Some w ->
  let r := checkAndResumeProcess o pid self window in
  (w = window ->
   filter is_kill (snd r) = [EvKill pid SIGTERM]
   /\ fst r = kill_tolerated (os_kill o pid SIGTERM))
  /\ (w <> window -> filter is_kill (snd r) = [] /\ fst r = true).
Proof.
  intros Hmem Hlink Htlen Hopen Hreadable Hdata Hlen Hn0 Hntok Hparse r.
  destruct (check_started_suspend o pid self window target f argv0 tok w)
    as (t1 & Hk & Hcheck); try assumption.
  subst r. rewrite Hcheck. split.
  - intros ->. rewrite Z.eqb_refl.
    destruct (os_kill o pid SIGTERM) as [errno |]; cbn [kill_tolerated];
      [destruct ((errno =? EPERM) || (errno =? ESRCH)) |];
      cbn [fst snd]; rewrite filter_app, Hk; split; reflexivity.
  - intros Hne. apply Z.eqb_neq in Hne. rewrite Hne. cbn [fst snd].
    rewrite filter_app, Hk. split; reflexivity.
Qed.

Lemma suspend_process_is_signalled_witness :
  let o := Examples.system_virsh in
  let r := checkAndResumeProcess o 4242 Examples.self_exe 6699 in
  enough_memory o
  /\ Main.parse_window (bytes "6699") = Some 6699
  /\ filter is_kill (snd r) = [EvKill 4242 SIGTERM]
  /\ fst r = kill_tolerated (os_kill o 4242 SIGTERM).
Proof.
  assert (Hmem : enough_memory Examples.system_virsh) by (intros n; reflexivity).
  split; [exact Hmem |]. split; [reflexivity |].
  apply (suspend_process_is_signalled Examples.system_virsh 4242 Examples.self_exe 6699
           (bytes "/usr/bin/virsh")
           (Examples.whole_file (Examples.blob ["virsh"; "suspend"; "6699"]%string))
           (bytes "virsh") (bytes "6699") 6699 Hmem);
    try reflexivity.
  intros k. reflexivity.
Defined.

(** ** The resume operation as a whole *)

(** X5.  What [suspend] starts, [resume] finds: when a process started
    as [argv0 suspend token] is listed in [/proc] and readable, the
    program run as [prog resume token'], with [token] and [token'] two
    spellings that [main] reads as the same window id, sends that process
    [SIGTERM]. *)
Theorem resume_terminates_started_suspend (VERSION : list ascii) (e : Suspend.env)
    (o : os) (prog rtok : list ascii) (pid : Z) (d_name : list ascii)
    (entries : list (list ascii)) (selfTarget target : list ascii) (f : file)
    (argv0 tok : list ascii) (w : Z) :
  enough_memory o ->
  os_readlink o (bytes "/proc/self/exe") = ReadlinkOk selfTarget ->
  len selfTarget < 2 ^ 63 ->
  os_opendir o (bytes "/proc") = Some entries ->
  In d_name entries ->
  atoi d_name = pid ->
  os_readlink o (proc_path pid "exe") = ReadlinkOk target ->
  len target < 2 ^ 63 ->
  os_open o (proc_path pid "cmdline") = OpenOk f ->
  readable f ->
  f_data f = suspend_cmdline argv0 tok ->
  len (f_data f) < 2 ^ 63 ->
  no_nul argv0 = true ->
  no_nul tok = true ->
  Main.parse_window tok = Some w ->
  Main.parse_window rtok = Some w ->
  In (EvKill pid SIGTERM) (snd (Cli.main VERSION e o [prog; bytes "resume"; rtok])).
Proof.
  intros Hmem Hself Hslen Hdir Hin Hpid Hlink Htlen Hopen Hreadable Hdata Hlen
         Hn0 Hntok Hparse Hrparse.
  unfold Cli.main.
  change (streq (bytes "resume") (bytes "suspend")) with false.
  change (streq (bytes "resume") (bytes "resume")) with true.
  cbv iota. rewrite Hrparse. unfold Cli.run_resume.
  destruct (allocReadlink_loop_invariant o (bytes "/proc/self/exe") false selfTarget 56 0
              Hmem Hself) as [n Hrl]; try lia.
  change (allocReadlink_loop 56 o (bytes "/proc/self/exe") false (2 ^ (8 + Z.of_nat 0)))
    with (allocReadlink o (bytes "/proc/self/exe") false) in Hrl.
  rewrite (operationResume_spec o prog w (cut_deleted selfTarget) _ entries Hrl Hdir).
  rewrite operationResume_scan_spec. cbn [fst snd].
  apply in_or_app. right. right.
  apply in_flat_map. exists d_name. split; [exact Hin |].
  apply in_or_app. left. rewrite Hpid.
  destruct (check_started_suspend o pid (cut_deleted selfTarget) w target f argv0 tok w)
    as (t1 & _ & Hcheck); try assumption.
  rewrite Hcheck, Z.eqb_refl.
  destruct (os_kill o pid SIGTERM) as [errno |];
    [destruct ((errno =? EPERM) || (errno =? ESRCH)) |];
    cbn [snd]; apply in_or_app; right; cbn; tauto.
Qed.

Lemma resume_terminates_started_suspend_witness :
  Main.parse_window (bytes "6699") = Some 6699
  /\ Main.parse_window (bytes "0x1a2b") = Some 6699
  /\ In (EvKill 4242 SIGTERM)
        (snd (Cli.main (bytes "1.0") Examples.session_destroyed Examples.system_virsh
                [bytes "xdg-screensaver"; bytes "resume"; bytes "0x1a2b"])).
Proof.
  split; [reflexivity |]. split; [reflexivity |].
  apply (resume_terminates_started_suspend (bytes "1.0") Examples.session_destroyed
           Examples.system_virsh (bytes "xdg-screensaver") (bytes "0x1a2b") 4242
           (bytes "4242") [bytes "4242"] Examples.self_exe (bytes "/usr/bin/virsh")
           (Examples.whole_file (Examples.blob ["virsh"; "suspend"; "6699"]%string))
           (bytes "virsh") (bytes "6699") 6699);
    try reflexivity; try (intros k; reflexivity).
  left. reflexivity.
Defined.

(** X1.  The matcher sends a signal only to the candidate it was called
    for, only [SIGTERM], and only after it has read a command line of
    exactly three strings: any [argv[0]], then [suspend], then a token
    that is not empty and that [strtoul] reads to its end as the window
    id of the [resume] call. *)
Theorem matcher_signals_only_suspend_argv (o : os) (pid : Z) (self : list ascii)
    (window p s : Z) :
  In (EvKill p s) (snd (checkAndResumeProcess o pid self window)) ->
  p = pid /\ s = SIGTERM
  /\ exists f cmdline t argv0 token,
       os_open o (proc_path pid "cmdline") = OpenOk f
       /\ read_cmdline 54 o f 0 1024 [] (f_data f) = (Some cmdline, t)
       /\ cmdline = suspend_cmdline argv0 token
       /\ no_nul argv0 = true
       /\ no_nul token = true
       /\ token <> []
       /\ strtoul token = (window, []).
Proof. exact (kill_only_on_suspend_argv o pid self window p s). Qed.

Lemma matcher_signals_only_suspend_argv_witness :
  In (EvKill 4242 SIGTERM)
     (snd (checkAndResumeProcess Examples.system_virsh 4242 Examples.self_exe 6699))
  /\ exists f cmdline t argv0 token,
       os_open Examples.system_virsh (proc_path 4242 "cmdline") = OpenOk f
       /\ read_cmdline 54 Examples.system_virsh f 0 1024 [] (f_data f) = (Some cmdline, t)
       /\ cmdline = suspend_cmdline argv0 token
       /\ no_nul argv0 = true
       /\ no_nul token = true
       /\ token <> []
       /\ strtoul token = (6699, []).
Proof.
  assert (H : In (EvKill 4242 SIGTERM)
                 (snd (checkAndResumeProcess Examples.system_virsh 4242
                         Examples.self_exe 6699)))
    by (vm_compute; tauto).
  split; [exact H |].
  destruct (matcher_signals_only_suspend_argv Examples.system_virsh 4242
              Examples.self_exe 6699 4242 SIGTERM H) as (_ & _ & Hex).
  exact Hex.
Defined.

Lemma no_kill_not_in (t : trace) (p s : Z) :
  forallb (fun ev => negb (is_kill ev)) t = true -> ~ In (EvKill p s) t.
Proof. intros H. eapply in_forallb_false; [exact H | reflexivity]. Qed.

(** X6.  Whatever [/proc] holds, [resume] sends no signal but [SIGTERM],
    and sends it only to a pid that is [atoi] of an entry of the listing
    and whose command line was read as [argv0 suspend token] with a token
    that [strtoul] reads to its end as the window id. *)
Theorem resume_signals_only_listed_suspend (o : os) (prog : list ascii)
    (window p s : Z) :
  In (EvKill p s) (snd (operationResume o prog window)) ->
  s = SIGTERM
  /\ exists entries d_name,
       os_opendir o (bytes "/proc") = Some entries
       /\ In d_name entries
       /\ p = atoi d_name
       /\ exists f cmdline t argv0 token,
            os_open o (proc_path p "cmdline") = OpenOk f
            /\ read_cmdline 54 o f 0 1024 [] (f_data f) = (Some cmdline, t)
            /\ cmdline = suspend_cmdline argv0 token
            /\ no_nul token = true /\ token <> []
            /\ strtoul token = (window, []).
Proof.
  unfold operationResume.
  pose proof (allocReadlink_loop_no_kill o (bytes "/proc/self/exe") false 56 256) as Hk.
  fold (allocReadlink o (bytes "/proc/self/exe") false) in Hk.
  destruct (allocReadlink o (bytes "/proc/self/exe") false) as [[ok link] t0].
  cbn [fst snd] in Hk.
  cbn [Resume.call Resume.bind Resume.ret Resume.cleanReturn Resume.log fst snd].
  destruct ok; cbn [negb Resume.bind Resume.ret Resume.cleanReturn app Resume.run snd].
  2: { intros Hin. exfalso. rewrite app_nil_r in Hin.
       exact (no_kill_not_in _ _ _ Hk Hin). }
  destruct (os_opendir o (bytes "/proc")) as [entries |] eqn:Hdir;
    cbn [Resume.call Resume.bind Resume.ret Resume.cleanReturn Resume.log app
         Resume.run fst snd].
  2: { intros Hin. exfalso. apply in_app_or in Hin as [Hin | Hin];
         [exact (no_kill_not_in _ _ _ Hk Hin) |].
       cbn in Hin. intuition discriminate. }
  rewrite operationResume_scan_spec. cbn [fst snd]. rewrite !app_nil_r.
  intros Hin. apply in_app_or in Hin as [Hin | Hin];
    [exfalso; exact (no_kill_not_in _ _ _ Hk Hin) |].
  destruct Hin as [Hin | Hin]; [discriminate Hin |].
  apply in_flat_map in Hin as (d_name & Hd & Hin).
  apply in_app_or in Hin as [Hin | Hin].
  - destruct (kill_only_on_suspend_argv _ _ _ _ _ _ Hin)
      as (-> & -> & f & cmdline & t & argv0 & token & H1 & H2 & H3 & _ & H5 & H6 & H7).
    split; [reflexivity |].
    exists entries, d_name. repeat split; try assumption.
    exists f, cmdline, t, argv0, token. repeat split; assumption.
  - exfalso. destruct (fst (checkAndResumeProcess o (atoi d_name) _ window));
      cbn in Hin; intuition discriminate.
Qed.

Lemma resume_signals_only_listed_suspend_witness :
  In (EvKill 4242 SIGTERM)
     (snd (operationResume Examples.system_virsh Examples.prog 6699))
  /\ SIGTERM = SIGTERM.
Proof.
  assert (H : In (EvKill 4242 SIGTERM)
                 (snd (operationResume Examples.system_virsh Examples.prog 6699)))
    by (vm_compute; tauto).
  split; [exact H |].
  destruct (resume_signals_only_listed_suspend Examples.system_virsh Examples.prog
              6699 4242 SIGTERM H) as [Hs _].
  exact Hs.
Defined.

(** The events of [allocReadlink]: [readlink] calls, and one
    diagnostic after them exactly when it fails. *)
Lemma allocReadlink_loop_events (o : os) (path : list ascii) (ignore : bool)
    (fuel : nat) :
  forall size,
  exists n,
    (fst (fst (allocReadlink_loop fuel o path ignore size)) = true
     /\ snd (allocReadlink_loop fuel o path ignore size) = repeat (EvReadlink path) n)
    \/ (fst (fst (allocReadlink_loop fuel o path ignore size)) = false
        /\ exists msg,
             snd (allocReadlink_loop fuel o path ignore size)
             = repeat (EvReadlink path) n ++ [EvStderr msg]).
Proof.
  induction fuel as [| fuel IH]; intros size; cbn [allocReadlink_loop];
    (destruct (negb (realloc_ok o size));
     [exists 0%nat; right; split; [reflexivity | eexists; reflexivity] |]);
    (destruct (os_readlink o path) as [errno | target];
     [destruct (ignore && ((errno =? EACCES) || (errno =? ENOENT)));
      [exists 1%nat; left; split; reflexivity
      | exists 1%nat; right; split; [reflexivity | eexists; reflexivity]] |]);
    (destruct (Z.min (len target) size <? size);
     [exists 1%nat; left; split; reflexivity |]).
  - exists 1%nat. right. split; [reflexivity | eexists; reflexivity].
  - destruct (IH (wrap_size_t (size * 2))) as [n H].
    destruct (allocReadlink_loop fuel o path ignore (wrap_size_t (size * 2)))
      as [[ok link] t']. cbn [fst snd] in *.
    exists (S n). destruct H as [[-> ->] | [-> [msg ->]]].
    + left. split; reflexivity.
    + right. split; [reflexivity |]. exists msg. reflexivity.
Qed.

(** X7.  [resume] scans nothing when it cannot read its own executable
    link, whatever the error ("no such file" and "permission denied" are
    not forgiven here as they are for a candidate), or cannot open
    [/proc], however long its own link is: it returns failure, and
    its events are [readlink] calls on [/proc/self/exe], then at most the
    [opendir] of [/proc], then one diagnostic, without a single call of
    the matcher.  When the first buffer is allocated and [readlink]
    fails, they are the one [readlink] and "Failed to read link". *)
Theorem resume_fails_before_scanning (o : os) (prog : list ascii) (window : Z) :
  (exists errno, os_readlink o (bytes "/proc/self/exe") = ReadlinkErr errno)
  \/ os_opendir o (bytes "/proc") = None ->
  fst (operationResume o prog window) = false
  /\ (exists n msg,
        snd (operationResume o prog window)
        = repeat (EvReadlink (bytes "/proc/self/exe")) n ++ [EvStderr msg]
        \/ snd (operationResume o prog window)
           = repeat (EvReadlink (bytes "/proc/self/exe")) n
             ++ [EvOpendir (bytes "/proc"); EvStderr "Failed to open /proc"])
  /\ (forall errno,
        os_alloc o 256 = true ->
        os_readlink o (bytes "/proc/self/exe") = ReadlinkErr errno ->
        snd (operationResume o prog window)
        = [EvReadlink (bytes "/proc/self/exe"); EvStderr "Failed to read link"]).
Proof.
  intros H.
  assert (Hfirst : forall errno,
            os_alloc o 256 = true ->
            os_readlink o (bytes "/proc/self/exe") = ReadlinkErr errno ->
            operationResume o prog window
            = (false, [EvReadlink (bytes "/proc/self/exe");
                       EvStderr "Failed to read link"])).
  { intros errno H256 Hself. unfold operationResume, allocReadlink.
    cbn [allocReadlink_loop]. unfold realloc_ok. rewrite H256, Hself. reflexivity. }
  assert (Hgen : fst (operationResume o prog window) = false
                 /\ exists n msg,
                      snd (operationResume o prog window)
                      = repeat (EvReadlink (bytes "/proc/self/exe")) n ++ [EvStderr msg]
                      \/ snd (operationResume o prog window)
                         = repeat (EvReadlink (bytes "/proc/self/exe")) n
                           ++ [EvOpendir (bytes "/proc");
                               EvStderr "Failed to open /proc"]).
  { destruct (allocReadlink_loop_events o (bytes "/proc/self/exe") false 56 256)
      as [n Hev].
    fold (allocReadlink o (bytes "/proc/self/exe") false) in Hev.
    assert (Hok : os_opendir o (bytes "/proc") = None
                  \/ fst (fst (allocReadlink o (bytes "/proc/self/exe") false)) = false).
    { destruct H as [[errno Hself] | Hdir]; [right | left; exact Hdir].
      unfold allocReadlink. cbn [allocReadlink_loop]. rewrite Hself.
      destruct (negb (realloc_ok o 256)); reflexivity. }
    unfold operationResume.
    destruct (allocReadlink o (bytes "/proc/self/exe") false) as [[ok link] t0].
    cbn [fst snd] in *.
    destruct Hev as [[-> ->] | [-> [msg ->]]].
    - destruct Hok as [Hdir | [=]]. rewrite Hdir. cbn.
      split; [reflexivity |]. exists n, "Failed to open /proc"%string. right.
      reflexivity.
    - cbn. split; [reflexivity |]. exists n, msg. left. now rewrite app_nil_r. }
  destruct Hgen as [Hfail Hshape].
  split; [exact Hfail |]. split; [exact Hshape |].
  intros errno H256 Hself. rewrite (Hfirst errno H256 Hself). reflexivity.
Qed.

Lemma resume_fails_before_scanning_witness :
  (let o := MoreExamples.system_no_self in
   os_readlink o (bytes "/proc/self/exe") = ReadlinkErr ENOENT
   /\ fst (operationResume o Examples.prog 6699) = false
   /\ snd (operationResume o Examples.prog 6699)
      = [EvReadlink (bytes "/proc/self/exe"); EvStderr "Failed to read link"])
  /\ (let o := MoreExamples.system_no_proc in
      os_readlink o (bytes "/proc/self/exe") = ReadlinkOk (repeat "a"%char 300)
      /\ os_opendir o (bytes "/proc") = None
      /\ fst (operationResume o Examples.prog 6699) = false
      /\ snd (operationResume o Examples.prog 6699)
         = repeat (EvReadlink (bytes "/proc/self/exe")) 2
           ++ [EvOpendir (bytes "/proc"); EvStderr "Failed to open /proc"]).
Proof.
  split.
  - split; [reflexivity |].
    destruct (resume_fails_before_scanning MoreExamples.system_no_self Examples.prog 6699
                (or_introl (ex_intro _ ENOENT eq_refl))) as (Hfail & _ & Hfirst).
    split; [exact Hfail |]. apply (Hfirst ENOENT); reflexivity.
  - split; [reflexivity |]. split; [reflexivity |].
    destruct (resume_fails_before_scanning MoreExamples.system_no_proc Examples.prog 6699
                (or_intror eq_refl)) as (Hfail & _ & _).
    split; [exact Hfail | reflexivity].
Defined.

(** ** The command line *)

(** X14.  When the arguments are not [suspend] or [resume] with a
    WindowID that parses, [main] runs no operation: it returns at once,
    with [EXIT_SUCCESS] and some text on standard output exactly when the
    arguments are [--help] or [--version] alone, and otherwise with
    [EXIT_FAILURE], nothing on standard output and one diagnostic. *)
Theorem main_without_operation (VERSION : list ascii) (e : Suspend.env) (o : os)
    (argv : list (list ascii)) :
  Cli.runs_operation argv = false ->
  exists status out diagnostics,
    Cli.main VERSION e o argv = (Cli.Returns status, out, diagnostics)
    /\ (Cli.asks_text argv = true ->
        status = EXIT_SUCCESS /\ out <> [] /\ diagnostics = [])
    /\ (Cli.asks_text argv = false ->
        status = EXIT_FAILURE /\ out = []
        /\ exists msg, diagnostics = [EvStderr msg]).
Proof.
  unfold Cli.runs_operation, Cli.asks_text, Cli.main, Cli.invalidArguments.
  destruct argv as [| prog [| arg1 [| arg2 [| arg3 argv]]]]; intros Hrun;
    try (eexists _, _, _; split; [reflexivity |]; split;
         [discriminate | intros _; repeat split; eexists; reflexivity]).
  - destruct (streq arg1 (bytes "--help")) eqn:Hh; cbn [orb].
    + eexists _, _, _. split; [reflexivity |]. split; [| discriminate].
      intros _. repeat split. discriminate.
    + destruct (streq arg1 (bytes "--version")) eqn:Hv.
      * eexists _, _, _. split; [reflexivity |]. split; [| discriminate].
        intros _. repeat split. discriminate.
      * eexists _, _, _. split; [reflexivity |]. split; [discriminate |].
        intros _. repeat split. eexists. reflexivity.
  - destruct (streq arg1 (bytes "suspend")); cbn [orb andb] in Hrun |- *.
    + destruct (Main.parse_window arg2); [discriminate |].
      eexists _, _, _. split; [reflexivity |]. split; [discriminate |].
      intros _. repeat split. eexists. reflexivity.
    + destruct (streq arg1 (bytes "resume")); cbn [andb] in Hrun |- *.
      * destruct (Main.parse_window arg2); [discriminate |].
        eexists _, _, _. split; [reflexivity |]. split; [discriminate |].
        intros _. repeat split. eexists. reflexivity.
      * eexists _, _, _. split; [reflexivity |]. split; [discriminate |].
        intros _. repeat split. eexists. reflexivity.
Qed.

Lemma main_without_operation_witness :
  Cli.runs_operation [bytes "xdg-screensaver"; bytes "suspend"; bytes "12abc"] = false
  /\ exists status out diagnostics,
       Cli.main (bytes "1.0") Examples.session_destroyed Examples.system_virsh
         [bytes "xdg-screensaver"; bytes "suspend"; bytes "12abc"]
       = (Cli.Returns status, out, diagnostics)
       /\ (Cli.asks_text [bytes "xdg-screensaver"; bytes "suspend"; bytes "12abc"] = true ->
           status = EXIT_SUCCESS /\ out <> [] /\ diagnostics = [])
       /\ (Cli.asks_text [bytes "xdg-screensaver"; bytes "suspend"; bytes "12abc"] = false ->
           status = EXIT_FAILURE /\ out = []
           /\ exists msg, diagnostics = [EvStderr msg]).
Proof.
  split; [reflexivity |].
  apply (main_without_operation (bytes "1.0") Examples.session_destroyed
           Examples.system_virsh
           [bytes "xdg-screensaver"; bytes "suspend"; bytes "12abc"]).
  reflexivity.
Defined.

(** ** More on the suspend operation *)

(** The three ways the setup ends: it fails and goes to the cleanup, it
    reaches the [fork], or [XSync] meets an error and the handler runs. *)
Lemma setup_cases (e : env) (prog : list ascii) (window : Z) :
  (exists d t,
     operationSuspend_setup e prog window initial_data = (Stop (CleanReturn false), d, t)
     /\ display d = false /\ failed_setup e d t
     /\ forallb is_setup_event t = true)
  \/ (exists d cookie,
        operationSuspend_setup e prog window initial_data = (Next tt, d, setup_trace)
        /\ display d = true /\ screenSaverInhibited d = true
        /\ inhibit_reply e = DBusOk [ArgUInt32 cookie]
        /\ screenSaverInhibitCookie d = cookie)
  \/ (exists d1 cookie,
        operationSuspend_setup e prog window initial_data
        = (Stop ExitXError,
           snd (fst (operationSuspendFinish e (set_display false d1))),
           setup_trace ++ snd (operationSuspendFinish e (set_display false d1))
                       ++ [EvExit EXIT_FAILURE])
        /\ screenSaverInhibited d1 = true
        /\ inhibit_reply e = DBusOk [ArgUInt32 cookie]
        /\ screenSaverInhibitCookie d1 = cookie).
Proof.
  assert (Hno : forall d t, screenSaverInhibited d = false ->
                            ~ In EvXOpenDisplay t -> failed_setup e d t).
  { intros d t Hd Ht. split; [intros Hi; rewrite Hd in Hi; discriminate |].
    intros Hin. contradiction. }
  assert (Hearly : forall d t, screenSaverInhibited d = false ->
            display d = false -> forallb is_setup_event t = true ->
            forallb (fun ev => match ev with EvXOpenDisplay => false | _ => true end) t
            = true ->
            exists d' t',
              (@Stop unit (CleanReturn false), d, t) = (Stop (CleanReturn false), d', t')
              /\ display d' = false /\ failed_setup e d' t'
              /\ forallb is_setup_event t' = true).
  { intros d t Hd Hdisp Hev Hx. exists d, t.
    split; [reflexivity |]. split; [exact Hdisp |]. split; [| exact Hev].
    apply Hno; [exact Hd |]. intros Hin.
    apply (in_forallb_false
             (fun ev => match ev with EvXOpenDisplay => false | _ => true end)
             t EvXOpenDisplay Hx); [reflexivity | exact Hin]. }
  unfold operationSuspend_setup, allocSprintf.
  unfold bind at 1. unfold when at 1.
  destruct (sigprocmask_ret e <? 0); [left; apply Hearly; reflexivity |].
  cbn [ret]. unfold bind at 1. cbn [modify]. unfold bind at 1. unfold when at 1.
  destruct (signalfd_ret e <? 0); [left; apply Hearly; reflexivity |].
  cbn [ret]. unfold bind at 1.
  destruct (dbus_bus_get e) as [[|] | []];
    [left; apply Hearly; reflexivity | left; apply Hearly; reflexivity |].
  cbn [modify]. unfold bind at 1. unfold when at 1.
  destruct (new_inhibit_msg e); [| left; apply Hearly; reflexivity].
  cbn [negb ret]. unfold bind at 1. cbn [modify]. unfold bind at 1. unfold when at 1.
  destruct (append_prog e); [| left; apply Hearly; reflexivity].
  cbn [negb ret]. unfold bind at 1.
  destruct (alloc e (len (reason_text window) + NULL_BYTE_LEN));
    [| left; apply Hearly; reflexivity].
  unfold bind at 1. unfold when at 1.
  destruct (append_reason e); [| left; apply Hearly; reflexivity].
  cbn [negb ret]. unfold bind at 1. cbn [log]. unfold bind at 1.
  destruct (inhibit_reply e) as [[|] | [| [cookie |] [| a args]]] eqn:Hreply;
    try (left; apply Hearly; reflexivity).
  - cbn -[operationSuspendFinish reason_text].
    destruct (xopen_display e).
    + cbn -[operationSuspendFinish reason_text].
      destruct (xsync_error e).
      * right. right.
        cbn -[operationSuspendFinish reason_text].
        rewrite operationSuspendXErrorHandler_eq.
        cbn -[operationSuspendFinish reason_text].
        eexists _, cookie. split; [reflexivity |]. repeat split; reflexivity.
      * right. left. cbn. eexists _, cookie. repeat split; reflexivity.
    + left. cbn. eexists _, _. split; [reflexivity |]. split; [reflexivity |].
      split; [| reflexivity]. split.
      * intros _. exists cookie, []. repeat split; [exact Hreply | cbn; tauto].
      * intros _. split; [reflexivity |]. exists cookie. exact Hreply.
  - left. cbn. eexists _, _. split; [reflexivity |]. split; [reflexivity |].
    split; [| reflexivity]. split.
    + intros _. exists cookie, (a :: args). repeat split; [exact Hreply | cbn; tauto].
    + intros Hin. cbn in Hin. exfalso. intuition discriminate.
Qed.

Lemma cleanup_event_of_close (ev : event) :
  is_close_display ev = true -> is_cleanup ev = true.
Proof. destruct ev; cbn; try discriminate; reflexivity. Qed.

Lemma no_cleanup_no_close (t : trace) :
  forallb (fun ev => negb (is_cleanup ev)) t = true ->
  forallb (fun ev => negb (is_close_display ev)) t = true.
Proof.
  apply forallb_weaken. intros ev H. apply negb_true_iff in H.
  destruct (is_close_display ev) eqn:Hc; [| reflexivity].
  rewrite (cleanup_event_of_close ev Hc) in H. discriminate.
Qed.

Lemma closes_app (t t' : trace) : closes (t ++ t') = (closes t + closes t')%nat.
Proof. unfold closes. now rewrite filter_app, length_app. Qed.

Lemma no_close_closes (t : trace) :
  forallb (fun ev => negb (is_close_display ev)) t = true -> closes t = 0%nat.
Proof. intros H. unfold closes. now rewrite (filter_none _ _ H). Qed.

(** The events of the cleanup: first those of the release and of the
    D-Bus connection and the signal fd, none of them about the display,
    then, when the display is open, the unsetting of the handlers and the
    closing. *)
Lemma operationSuspendFinish_shape (e : env) (d : data) :
  exists u,
    snd (operationSuspendFinish e d)
    = u ++ (if display d then [EvXSetHandlers false; EvXCloseDisplay] else [])
    /\ forallb (fun ev => negb (is_close_display ev)) u = true
    /\ display (snd (fst (operationSuspendFinish e d))) = display d
    /\ (fst (fst (operationSuspendFinish e d)) = true ->
        screenSaverInhibited d = true ->
        new_uninhibit_msg e = true /\ append_cookie e = true
        /\ uninhibit_reply e = DBusOk []).
Proof.
  unfold operationSuspendFinish.
  pose proof (unInhibitScreenSaver_spec e d) as H.
  assert (Hok : fst (fst (unInhibitScreenSaver e d)) = true ->
                screenSaverInhibited d = true ->
                new_uninhibit_msg e = true /\ append_cookie e = true
                /\ uninhibit_reply e = DBusOk []).
  { unfold unInhibitScreenSaver. intros Hr Hi. rewrite Hi in Hr. cbn [negb] in Hr.
    destruct (new_uninhibit_msg e); [| discriminate Hr].
    destruct (append_cookie e); [| discriminate Hr]. cbn [negb] in Hr.
    destruct (uninhibit_reply e) as [err | [| a args]]; try discriminate Hr.
    repeat split. }
  destruct (unInhibitScreenSaver e d) as [[ok d'] t].
  destruct H as (_ & _ & Hconn & Hfd & Hdisp & _ & Hev & _).
  cbn [fst snd] in *.
  exists (t ++ (if dbusConn d' then [EvDBusConnUnref] else [])
            ++ (if negb (signalFd d' =? -1) then [EvCloseFd (signalFd d')] else [])).
  rewrite Hdisp. split; [now rewrite <- !app_assoc |]. split; [| split; [reflexivity | exact Hok]].
  rewrite !forallb_app. apply andb_true_iff. split.
  - eapply forallb_weaken; [| exact Hev]. intros ev Hx. destruct ev; try reflexivity.
    discriminate Hx.
  - destruct (dbusConn d'), (negb (signalFd d' =? -1)); reflexivity.
Qed.

(** A wait loop that leaves with success has seen the destruction of the
    window or has consumed SIGTERM. *)
Lemma wait_loop_success (e : env) (window : Z) (its : list iteration) :
  forall d,
  fst (fst (wait_loop e window its d)) = Stop (CleanReturn true) ->
  In (EvStderr "Window destroyed") (snd (wait_loop e window its d))
  \/ In (EvReceivedSignal SIGTERM) (snd (wait_loop e window its d)).
Proof.
  induction its as [| it its IH]; intros d; [discriminate |].
  rewrite wait_loop_cons.
  destruct (drain_events_cases e window (it_pending it) d)
    as [[Hpass ->] | [[pre ->] | [pre ->]]].
  - destruct (it_select it) as [| [|] x_fd]; [discriminate | |].
    + destruct (it_read it) as [| signo]; [discriminate |].
      cbn [fst snd]. intros [= Hs]. apply Z.eqb_eq in Hs. subst signo.
      right. apply in_or_app. right. cbn. tauto.
    + specialize (IH d). destruct (wait_loop e window its d) as [[r d''] t'].
      cbn [fst snd] in *. intros Hr.
      destruct (IH Hr) as [H | H]; [left | right];
        apply in_or_app; right; right; exact H.
  - intros _. left. cbn [snd]. apply in_or_app. right. cbn. tauto.
  - discriminate.
Qed.

Lemma setup_trace_has_inhibit : In (EvDBusCall "Inhibit" None) setup_trace.
Proof. cbn. tauto. Qed.

Lemma setup_trace_events : forallb is_setup_event setup_trace = true.
Proof. reflexivity. Qed.

(** The five ways a run of [operationSuspend] goes. *)
Lemma operationSuspend_cases (e : env) (prog : list ascii) (window : Z) :
  (exists d t,
     operationSuspend e prog window
     = (Returned false, snd (fst (operationSuspendFinish e d)),
        t ++ snd (operationSuspendFinish e d))
     /\ display d = false /\ failed_setup e d t /\ forallb is_setup_event t = true)
  \/ (exists d cookie,
        operationSuspend e prog window
        = (ExitAfterFork, d, setup_trace ++ [EvFork; EvExit EXIT_SUCCESS])
        /\ fork_ret e <> 0
        /\ screenSaverInhibited d = true
        /\ inhibit_reply e = DBusOk [ArgUInt32 cookie]
        /\ screenSaverInhibitCookie d = cookie)
  \/ (exists d cookie v tl,
        operationSuspend e prog window
        = (Returned (if negb (fst (fst (operationSuspendFinish e d))) then false else v),
           snd (fst (operationSuspendFinish e d)),
           (setup_trace ++ EvFork :: tl) ++ snd (operationSuspendFinish e d))
        /\ wait_loop e window (iterations e) d = (Stop (CleanReturn v), d, tl)
        /\ forallb is_loop_event tl = true
        /\ fork_ret e = 0
        /\ display d = true /\ screenSaverInhibited d = true
        /\ inhibit_reply e = DBusOk [ArgUInt32 cookie]
        /\ screenSaverInhibitCookie d = cookie)
  \/ (exists d1 cookie pre,
        operationSuspend e prog window
        = (ExitInXErrorHandler,
           snd (fst (operationSuspendFinish e (set_display false d1))),
           (setup_trace ++ pre) ++ snd (operationSuspendFinish e (set_display false d1))
           ++ [EvExit EXIT_FAILURE])
        /\ (pre = [] \/ exists tl, pre = EvFork :: tl /\ forallb is_loop_event tl = true
                                   /\ fork_ret e = 0)
        /\ screenSaverInhibited d1 = true
        /\ inhibit_reply e = DBusOk [ArgUInt32 cookie]
        /\ screenSaverInhibitCookie d1 = cookie)
  \/ (exists d cookie tl,
        operationSuspend e prog window = (Waits, d, setup_trace ++ EvFork :: tl)
        /\ forallb is_loop_event tl = true
        /\ fork_ret e = 0
        /\ screenSaverInhibited d = true
        /\ inhibit_reply e = DBusOk [ArgUInt32 cookie]
        /\ screenSaverInhibitCookie d = cookie).
Proof.
  unfold operationSuspend. rewrite operationSuspend_body_eq.
  destruct (setup_cases e prog window)
    as [(d & t & -> & Hdisp & Hfail & Hev)
       | [(d & cookie & -> & Hdisp & Hi & Hreply & Hcookie)
         | (d1 & cookie & -> & Hi & Hreply & Hcookie)]].
  - left. exists d, t.
    destruct (operationSuspendFinish e d) as [[ok d'] tf]. cbn [fst snd].
    destruct ok;
      (split; [reflexivity |]; split; [exact Hdisp |]; split; [exact Hfail | exact Hev]).
  - destruct (Z.eqb_spec (fork_ret e) 0) as [Hfork | Hfork]; cbn [negb].
    + pose proof (wait_loop_shape e window (iterations e) d) as Hl.
      destruct (wait_loop e window (iterations e) d) as [[[[] | [v | | |]] d'] tl] eqn:Hloop;
        try contradiction.
      * destruct Hl as [-> Htl]. right. right. left. exists d, cookie, v, tl.
        destruct (operationSuspendFinish e d) as [[ok d''] tf]. cbn [fst snd].
        repeat split; first [reflexivity | assumption].
      * destruct Hl as (pre & Hpre & -> & ->). right. right. right. left.
        exists d, cookie, (EvFork :: pre). split.
        { cbn [app]. now rewrite <- !app_assoc. }
        split; [right; exists pre; repeat split; assumption |].
        repeat split; assumption.
      * destruct Hl as [-> Htl]. right. right. right. right. exists d, cookie, tl.
        repeat split; first [reflexivity | assumption].
    + right. left. exists d, cookie. repeat split; first [reflexivity | assumption].
  - right. right. right. left. exists d1, cookie, []. rewrite app_nil_r.
    split; [reflexivity |]. split; [left; reflexivity |].
    repeat split; assumption.
Qed.

Lemma in_release_counts (t : trace) (c : option Z) :
  In (EvDBusCall "UnInhibit" c) t -> (1 <= releases t)%nat.
Proof.
  unfold releases. induction t as [| ev t IH]; [contradiction |].
  intros [-> | Hin]; cbn [filter].
  - change (is_release (EvDBusCall "UnInhibit" c)) with true. cbn [List.length]. lia.
  - specialize (IH Hin). destruct (is_release ev); cbn [List.length]; lia.
Qed.

(** A release found in a run made of quiet events around one cleanup is
    in the cleanup. *)
Lemma release_in_run (e : env) (d0 : data) (pre tail : trace) (c : option Z) :
  forallb (fun ev => negb (is_cleanup ev)) pre = true ->
  forallb (fun ev => negb (is_cleanup ev)) tail = true ->
  In (EvDBusCall "UnInhibit" c) (pre ++ snd (operationSuspendFinish e d0) ++ tail) ->
  screenSaverInhibited d0 = true
  /\ c = Some (screenSaverInhibitCookie d0)
  /\ exists f1 f2,
       pre ++ snd (operationSuspendFinish e d0) ++ tail
       = (pre ++ f1) ++ EvDBusCall "UnInhibit" c :: f2.
Proof.
  intros Hpre Htail Hin.
  apply in_app_or in Hin as [Hin | Hin];
    [exfalso; exact (no_cleanup_not_in _ _ Hpre Hin) |].
  apply in_app_or in Hin as [Hin | Hin];
    [| exfalso; exact (no_cleanup_not_in _ _ Htail Hin)].
  pose proof (operationSuspendFinish_spec e d0) as HF.
  destruct (operationSuspendFinish e d0) as [[ok d'] tf]. cbn [snd] in *.
  destruct HF as (_ & _ & Hr & _ & Hck & _).
  split; [| split; [apply Hck, Hin |]].
  - pose proof (in_release_counts _ _ Hin) as Hc. rewrite Hr in Hc. unfold sends in Hc.
    destruct (screenSaverInhibited d0); [reflexivity | cbn in Hc; lia].
  - apply in_split in Hin as (f1 & f2 & ->). exists f1, (f2 ++ tail).
    now rewrite <- !app_assoc.
Qed.

(** X8.  A release call is sent only after the inhibit call, only when
    the inhibit service has replied with a cookie first in its reply, and
    it carries that cookie. *)
Theorem release_carries_reply_cookie (e : env) (prog : list ascii) (window : Z)
    (c : option Z) :
  In (EvDBusCall "UnInhibit" c) (snd (operationSuspend e prog window)) ->
  exists cookie rest t1 t2,
    inhibit_reply e = DBusOk (ArgUInt32 cookie :: rest)
    /\ c = Some cookie
    /\ snd (operationSuspend e prog window) = t1 ++ EvDBusCall "UnInhibit" c :: t2
    /\ In (EvDBusCall "Inhibit" None) t1.
Proof.
  destruct (operationSuspend_cases e prog window)
    as [(d & t & -> & Hdisp & [Hfail _] & Hev)
       | [(d & cookie & -> & _)
         | [(d & cookie & v & tl & -> & _ & Htl & _ & _ & Hi & Hreply & Hcookie)
           | [(d1 & cookie & pre & -> & Hpre & Hi & Hreply & Hcookie)
             | (d & cookie & tl & -> & Htl & _)]]]]; cbn [snd].
  - intros Hin. rewrite <- (app_nil_r (snd (operationSuspendFinish e d))) in Hin |- *.
    destruct (release_in_run e d t [] c (setup_events_no_cleanup t Hev) eq_refl Hin)
      as (Hi & -> & f1 & f2 & Heq).
    destruct (Hfail Hi) as (cookie & rest & Hreply & Hcookie & Hinh).
    exists cookie, rest, (t ++ f1), f2. repeat split; try assumption.
    + now rewrite Hcookie.
    + apply in_or_app. left. exact Hinh.
  - intros Hin. exfalso. eapply no_cleanup_not_in; [| exact Hin].
    rewrite forallb_app, (setup_events_no_cleanup _ setup_trace_events). reflexivity.
  - assert (Hq : forallb (fun ev => negb (is_cleanup ev)) (setup_trace ++ EvFork :: tl) = true).
    { rewrite forallb_app, (setup_events_no_cleanup _ setup_trace_events). cbn.
      apply loop_events_no_cleanup, Htl. }
    intros Hin.
    rewrite <- (app_nil_r (snd (operationSuspendFinish e d))) in Hin |- *.
    destruct (release_in_run e d _ [] c Hq eq_refl Hin) as (_ & -> & f1 & f2 & Heq).
    exists cookie, [], ((setup_trace ++ EvFork :: tl) ++ f1), f2.
    repeat split; try assumption.
    + now rewrite Hcookie.
    + apply in_or_app. left. apply in_or_app. left. exact setup_trace_has_inhibit.
  - assert (Hq : forallb (fun ev => negb (is_cleanup ev)) (setup_trace ++ pre) = true).
    { rewrite forallb_app, (setup_events_no_cleanup _ setup_trace_events).
      destruct Hpre as [-> | (tl & -> & Htl & _)]; [reflexivity |]. cbn.
      apply loop_events_no_cleanup, Htl. }
    intros Hin.
    destruct (release_in_run e (set_display false d1) _ [EvExit EXIT_FAILURE] c Hq eq_refl Hin)
      as (_ & -> & f1 & f2 & Heq).
    exists cookie, [], ((setup_trace ++ pre) ++ f1), f2.
    repeat split; try assumption.
    + cbn. now rewrite Hcookie.
    + apply in_or_app. left. apply in_or_app. left. exact setup_trace_has_inhibit.
  - intros Hin. exfalso. eapply no_cleanup_not_in; [| exact Hin].
    rewrite forallb_app, (setup_events_no_cleanup _ setup_trace_events). cbn.
    apply loop_events_no_cleanup, Htl.
Qed.

Lemma release_carries_reply_cookie_witness :
  let e := Examples.session_destroyed in
  In (EvDBusCall "UnInhibit" (Some 77)) (snd (operationSuspend e Examples.prog 6699))
  /\ exists cookie rest t1 t2,
       inhibit_reply e = DBusOk (ArgUInt32 cookie :: rest)
       /\ Some 77 = Some cookie
       /\ snd (operationSuspend e Examples.prog 6699)
          = t1 ++ EvDBusCall "UnInhibit" (Some 77) :: t2
       /\ In (EvDBusCall "Inhibit" None) t1.
Proof.
  assert (Hin : In (EvDBusCall "UnInhibit" (Some 77))
                   (snd (operationSuspend Examples.session_destroyed Examples.prog 6699))).
  { vm_compute. repeat (first [left; reflexivity | right]). }
  split; [exact Hin |].
  exact (release_carries_reply_cookie Examples.session_destroyed Examples.prog 6699
           (Some 77) Hin).
Defined.

Lemma release_in_trace (t : trace) :
  (1 <= releases t)%nat -> exists c, In (EvDBusCall "UnInhibit" c) t.
Proof.
  unfold releases. induction t as [| ev t IH]; cbn [filter List.length]; [lia |].
  destruct (is_release ev) eqn:Hev.
  - intros _. destruct ev; try discriminate Hev. cbn in Hev.
    apply String.eqb_eq in Hev. subst. eexists. left. reflexivity.
  - intros H. destruct (IH H) as [c Hc]. exists c. right. exact Hc.
Qed.

(** ** The display connection *)

Lemma unset_before_close_quiet (t : trace) :
  forallb (fun ev => negb (is_close_display ev)) t = true ->
  forall unset, unset_before_close unset t = true.
Proof.
  induction t as [| ev t IH]; intros H unset; [reflexivity |].
  cbn [forallb] in H. apply andb_true_iff in H as [Hev Ht].
  destruct ev; try discriminate Hev; cbn [unset_before_close]; apply IH, Ht.
Qed.

Lemma unset_before_close_skip (u rest : trace) (custom : bool) :
  forallb (fun ev => negb (is_close_display ev)) u = true ->
  forall unset,
  unset_before_close unset (u ++ EvXSetHandlers custom :: rest)
  = unset_before_close (negb custom) rest.
Proof.
  induction u as [| ev u IH]; intros H unset; [reflexivity |].
  cbn [forallb] in H. apply andb_true_iff in H as [Hev Hu].
  destruct ev; try discriminate Hev; cbn [unset_before_close app]; apply IH, Hu.
Qed.

(** The display in a run made of events that do not close it around one
    cleanup. *)
Lemma display_in_run (e : env) (d0 : data) (pre tail : trace) :
  forallb (fun ev => negb (is_close_display ev)) pre = true ->
  forallb (fun ev => negb (is_close_display ev)) tail = true ->
  closes (pre ++ snd (operationSuspendFinish e d0) ++ tail)
  = (if display d0 then 1 else 0)%nat
  /\ unset_before_close false (pre ++ snd (operationSuspendFinish e d0) ++ tail) = true
  /\ display (snd (fst (operationSuspendFinish e d0))) = display d0.
Proof.
  intros Hpre Htail.
  destruct (operationSuspendFinish_shape e d0) as (u & -> & Hu & Hd & _).
  split; [| split; [| exact Hd]].
  - rewrite !closes_app, (no_close_closes _ Hpre), (no_close_closes _ Hu),
      (no_close_closes _ Htail).
    destruct (display d0); reflexivity.
  - destruct (display d0).
    + replace (pre ++ (u ++ [EvXSetHandlers false; EvXCloseDisplay]) ++ tail)
        with ((pre ++ u) ++ EvXSetHandlers false :: EvXCloseDisplay :: tail)
        by (rewrite <- !app_assoc; reflexivity).
      rewrite unset_before_close_skip by (rewrite forallb_app, Hpre, Hu; reflexivity).
      cbn [unset_before_close negb andb]. apply unset_before_close_quiet, Htail.
    + apply unset_before_close_quiet.
      rewrite !forallb_app, Hpre, Hu, Htail. reflexivity.
Qed.

Lemma setup_trace_no_close (tl : trace) :
  forallb is_loop_event tl = true ->
  forallb (fun ev => negb (is_close_display ev)) (setup_trace ++ EvFork :: tl) = true.
Proof.
  intros Htl. apply no_cleanup_no_close.
  rewrite forallb_app, (setup_events_no_cleanup _ setup_trace_events). cbn.
  apply loop_events_no_cleanup, Htl.
Qed.

(** X9.  [XCloseDisplay] is called once when the cleanup runs with the
    display open and never otherwise, always right after the custom X
    error handlers are unset, and never when the X error handler ends the
    process. *)
Theorem display_closed_once_after_unsetting_handlers
    (e : env) (prog : list ascii) (window : Z) :
  let '(out, d, t) := operationSuspend e prog window in
  closes t = (if cleanup_ran out && display d then 1 else 0)%nat
  /\ unset_before_close false t = true
  /\ (out = ExitInXErrorHandler -> closes t = 0%nat).
Proof.
  destruct (operationSuspend_cases e prog window)
    as [(d & t & -> & Hdisp & _ & Hev)
       | [(d & cookie & -> & _)
         | [(d & cookie & v & tl & -> & _ & Htl & _ & Hdisp & _)
           | [(d1 & cookie & pre & -> & Hpre & _)
             | (d & cookie & tl & -> & Htl & _)]]]].
  - pose proof (display_in_run e d t []
                  (no_cleanup_no_close _ (setup_events_no_cleanup t Hev)) eq_refl)
      as (Hc & Hu & Hd).
    rewrite app_nil_r in Hc, Hu. rewrite Hc, Hu, Hd. cbn [cleanup_ran andb].
    repeat split; try discriminate.
  - repeat split; try discriminate.
  - pose proof (display_in_run e d _ [] (setup_trace_no_close tl Htl) eq_refl)
      as (Hc & Hu & Hd).
    rewrite app_nil_r in Hc, Hu. rewrite Hc, Hu, Hd. cbn [cleanup_ran andb].
    repeat split; try discriminate.
  - assert (Hq : forallb (fun ev => negb (is_close_display ev)) (setup_trace ++ pre) = true).
    { destruct Hpre as [-> | (tl & -> & Htl & _)];
        [reflexivity | apply setup_trace_no_close, Htl]. }
    pose proof (display_in_run e (set_display false d1) _ [EvExit EXIT_FAILURE] Hq eq_refl)
      as (Hc & Hu & Hd).
    rewrite Hc, Hu, Hd. cbn. repeat split.
  - cbn [cleanup_ran andb].
    rewrite (no_close_closes _ (setup_trace_no_close tl Htl)).
    rewrite (unset_before_close_quiet _ (setup_trace_no_close tl Htl)).
    repeat split; try discriminate.
Qed.

Lemma display_closed_once_after_unsetting_handlers_witness :
  let r := operationSuspend MoreExamples.session_bad_window Examples.prog 6699 in
  fst (fst r) = ExitInXErrorHandler /\ closes (snd r) = 0%nat.
Proof.
  split; [reflexivity |].
  generalize (display_closed_once_after_unsetting_handlers
                MoreExamples.session_bad_window Examples.prog 6699).
  destruct (operationSuspend MoreExamples.session_bad_window Examples.prog 6699)
    as [[out d] t] eqn:Hrun.
  assert (Hout : out = ExitInXErrorHandler).
  { apply (f_equal (fun r => fst (fst r))) in Hrun. cbn [fst] in Hrun.
    rewrite <- Hrun. reflexivity. }
  intros (_ & _ & H). exact (H Hout).
Defined.

(** ** What a successful run has done *)

(** X10.  [operationSuspend] returns [true] only in the child process,
    after the destruction of the window or SIGTERM was reported, and
    after a release call carrying the cookie of the reply was sent and
    answered without error; the display is then closed once. *)
Theorem success_needs_destruction_or_sigterm
    (e : env) (prog : list ascii) (window : Z) :
  fst (fst (operationSuspend e prog window)) = Returned true ->
  let t := snd (operationSuspend e prog window) in
  (In (EvStderr "Window destroyed") t \/ In (EvReceivedSignal SIGTERM) t)
  /\ fork_ret e = 0
  /\ (exists cookie,
        inhibit_reply e = DBusOk [ArgUInt32 cookie]
        /\ In (EvDBusCall "UnInhibit" (Some cookie)) t)
  /\ releases t = 1%nat
  /\ uninhibit_reply e = DBusOk []
  /\ closes t = 1%nat.
Proof.
  destruct (operationSuspend_cases e prog window)
    as [(d & t & -> & _)
       | [(d & cookie & -> & _)
         | [(d & cookie & v & tl & -> & Hloop & Htl & Hfork & Hdisp & Hi & Hreply & Hcookie)
           | [(d1 & cookie & pre & -> & _)
             | (d & cookie & tl & -> & _)]]]]; cbn [fst snd]; try discriminate.
  intros Hout.
  destruct (fst (fst (operationSuspendFinish e d))) eqn:Hok; [| discriminate].
  cbn [negb] in Hout. assert (v = true) as -> by congruence.
  pose proof (wait_loop_success e window (iterations e) d) as Hsucc.
  rewrite Hloop in Hsucc. specialize (Hsucc eq_refl). cbn [snd] in Hsucc.
  destruct (operationSuspendFinish_shape e d) as (_ & _ & _ & _ & Hrep).
  destruct (Hrep Hok Hi) as (_ & _ & Hu).
  pose proof (operationSuspendFinish_spec e d) as HF.
  pose proof (display_in_run e d _ [] (setup_trace_no_close tl Htl) eq_refl) as (Hc & _ & _).
  rewrite app_nil_r, Hdisp in Hc.
  destruct (operationSuspendFinish e d) as [[ok d'] tf]. cbn [fst snd] in *. subst ok.
  destruct HF as (_ & _ & _ & _ & Hck & Hone). specialize (Hone eq_refl Hi).
  assert (Hpre : releases (setup_trace ++ EvFork :: tl) = 0%nat).
  { unfold releases. rewrite (filter_none is_release); [reflexivity |].
    assert (Hq : forallb (fun ev => negb (is_cleanup ev)) (setup_trace ++ EvFork :: tl) = true).
    { rewrite forallb_app, (setup_events_no_cleanup _ setup_trace_events). cbn.
      apply loop_events_no_cleanup, Htl. }
    revert Hq. apply forallb_weaken. intros ev H. apply negb_true_iff in H.
    destruct (is_release ev) eqn:Hr; [| reflexivity].
    rewrite (is_release_is_cleanup ev Hr) in H. discriminate. }
  split; [| split; [exact Hfork | split; [| split; [| split; [exact Hu | exact Hc]]]]].
  - destruct Hsucc as [H | H]; [left | right];
      apply in_or_app; left; apply in_or_app; right; right; exact H.
  - exists cookie. split; [exact Hreply |].
    destruct (release_in_trace tf) as [c Hc']; [lia |].
    pose proof (Hck c Hc') as ->. rewrite <- Hcookie. apply in_or_app. right. exact Hc'.
  - rewrite releases_app, Hpre, Hone. reflexivity.
Qed.

Lemma success_needs_destruction_or_sigterm_witness :
  let e := Examples.session_sigterm in
  let t := snd (operationSuspend e Examples.prog 6699) in
  fst (fst (operationSuspend e Examples.prog 6699)) = Returned true
  /\ (In (EvStderr "Window destroyed") t \/ In (EvReceivedSignal SIGTERM) t)
  /\ releases t = 1%nat
  /\ closes t = 1%nat.
Proof.
  assert (Hok : fst (fst (operationSuspend Examples.session_sigterm Examples.prog 6699))
                = Returned true) by reflexivity.
  split; [exact Hok |].
  destruct (success_needs_destruction_or_sigterm Examples.session_sigterm Examples.prog
              6699 Hok) as (Hwhy & _ & _ & Hrel & _ & Hclose).
  split; [exact Hwhy |]. split; [exact Hrel | exact Hclose].
Defined.

(** ** Two runs that end in the setup *)

Lemma signal_fd_is_open (e : env) :
  (signalfd_ret e <? 0) = false -> negb (signalfd_ret e =? -1) = true.
Proof. intros H. apply Z.ltb_ge in H. apply negb_true_iff, Z.eqb_neq. lia. Qed.

(** The events of a release on a record that holds a cookie, when the
    release message can be built: the call, then at most one message. *)
Lemma release_events (e : env) (d : data) :
  screenSaverInhibited d = true ->
  new_uninhibit_msg e = true -> append_cookie e = true ->
  exists msgs,
    snd (unInhibitScreenSaver e d)
    = EvDBusCall "UnInhibit" (Some (screenSaverInhibitCookie d)) :: msgs
    /\ forallb is_stderr msgs = true.
Proof.
  intros Hi Hn Ha. unfold unInhibitScreenSaver. rewrite Hi, Hn, Ha. cbn [negb].
  destruct (uninhibit_reply e) as [[|] | [| a args]]; cbn [snd];
    eexists; (split; [reflexivity | reflexivity]).
Qed.

(** X11.  When the reply to the inhibit call holds a cookie followed by
    anything else, the operation fails without touching the display and
    without forking, and the cookie is released all the same. *)
Theorem longer_reply_fails_and_is_released
    (e : env) (prog : list ascii) (window cookie : Z) (extra : dbus_arg)
    (rest : list dbus_arg) :
  setup_reaches_reply e window ->
  inhibit_reply e = DBusOk (ArgUInt32 cookie :: extra :: rest) ->
  new_uninhibit_msg e = true -> append_cookie e = true ->
  exists msgs,
    fst (fst (operationSuspend e prog window)) = Returned false
    /\ snd (operationSuspend e prog window)
       = [EvDBusCall "Inhibit" None; EvStderr "Unexpected D-Bus reply";
          EvDBusCall "UnInhibit" (Some cookie)]
         ++ msgs ++ [EvDBusConnUnref; EvCloseFd (signalfd_ret e)]
    /\ forallb is_stderr msgs = true.
Proof.
  intros (H1 & H2 & H3 & H4 & H5 & H6 & H7) Hreply Hn Ha.
  unfold operationSuspend. rewrite operationSuspend_body_eq.
  unfold operationSuspend_setup, allocSprintf.
  rewrite H1, H2, H3, H4, H5, H6, H7, Hreply.
  cbn -[reason_text operationSuspendFinish].
  unfold operationSuspendFinish.
  match goal with
  | |- context [unInhibitScreenSaver e ?d] =>
      destruct (release_events e d eq_refl Hn Ha) as (msgs & Hrel & Hmsgs);
      destruct (unInhibitScreenSaver e d) as [[ok d'] t] eqn:Hun
  end.
  cbn [snd] in Hrel. subst t.
  assert (Hd' : dbusConn d' = true /\ signalFd d' = signalfd_ret e /\ display d' = false).
  { revert Hun. unfold unInhibitScreenSaver. rewrite Hn, Ha. cbn [negb].
    cbn -[reason_text]. 
    destruct (uninhibit_reply e) as [[|] | [| a args]];
      intros [= <- <- _]; cbn; repeat split. }
  destruct Hd' as (-> & -> & ->). rewrite (signal_fd_is_open e H2).
  exists msgs. cbn [fst snd]. split; [destruct ok; reflexivity |].
  split; [| exact Hmsgs]. cbn. reflexivity.
Qed.

Lemma longer_reply_fails_and_is_released_witness :
  let e := MoreExamples.session_long_reply in
  setup_reaches_reply e 6699
  /\ exists msgs,
       fst (fst (operationSuspend e Examples.prog 6699)) = Returned false
       /\ snd (operationSuspend e Examples.prog 6699)
          = [EvDBusCall "Inhibit" None; EvStderr "Unexpected D-Bus reply";
             EvDBusCall "UnInhibit" (Some 77)]
            ++ msgs ++ [EvDBusConnUnref; EvCloseFd 3]
       /\ forallb is_stderr msgs = true.
Proof.
  assert (Hsetup : setup_reaches_reply MoreExamples.session_long_reply 6699)
    by (repeat split; reflexivity).
  split; [exact Hsetup |].
  exact (longer_reply_fails_and_is_released MoreExamples.session_long_reply Examples.prog
           6699 77 ArgOther [] Hsetup eq_refl eq_refl eq_refl).
Defined.

(** X12.  When the X server reports an error at the [XSync] of the setup
    (an invalid window), the error handler releases the cookie, frees the
    D-Bus connection and the signal fd, and ends the process with status
    [EXIT_FAILURE]: nothing is forked, the handlers stay set and the
    display is not closed. *)
Theorem invalid_window_exits_in_handler
    (e : env) (prog : list ascii) (window cookie : Z) :
  setup_reaches_reply e window ->
  inhibit_reply e = DBusOk [ArgUInt32 cookie] ->
  xopen_display e = true ->
  xsync_error e = true ->
  new_uninhibit_msg e = true -> append_cookie e = true ->
  exists msgs,
    fst (fst (operationSuspend e prog window)) = ExitInXErrorHandler
    /\ snd (operationSuspend e prog window)
       = setup_trace
         ++ [EvDBusCall "UnInhibit" (Some cookie)]
         ++ msgs ++ [EvDBusConnUnref; EvCloseFd (signalfd_ret e); EvExit EXIT_FAILURE]
    /\ forallb is_stderr msgs = true.
Proof.
  intros (H1 & H2 & H3 & H4 & H5 & H6 & H7) Hreply Hopen Hsync Hn Ha.
  unfold operationSuspend. rewrite operationSuspend_body_eq.
  unfold operationSuspend_setup, allocSprintf.
  rewrite H1, H2, H3, H4, H5, H6, H7, Hreply, Hopen, Hsync.
  cbn -[reason_text operationSuspendFinish].
  unfold operationSuspendXErrorHandler, operationSuspendFinish.
  match goal with
  | |- context [unInhibitScreenSaver e ?d] =>
      destruct (release_events e d eq_refl Hn Ha) as (msgs & Hrel & Hmsgs);
      destruct (unInhibitScreenSaver e d) as [[ok d'] t] eqn:Hun
  end.
  cbn [snd] in Hrel. subst t.
  assert (Hd' : dbusConn d' = true /\ signalFd d' = signalfd_ret e /\ display d' = false).
  { revert Hun. unfold unInhibitScreenSaver. rewrite Hn, Ha. cbn [negb].
    cbn -[reason_text].
    destruct (uninhibit_reply e) as [[|] | [| a args]];
      intros [= <- <- _]; cbn; repeat split. }
  destruct Hd' as (-> & -> & ->). rewrite (signal_fd_is_open e H2).
  exists msgs. cbn. split; [reflexivity |].
  split; [| exact Hmsgs]. rewrite <- !app_assoc. reflexivity.
Qed.

Lemma invalid_window_exits_in_handler_witness :
  let e := MoreExamples.session_bad_window in
  setup_reaches_reply e 6699
  /\ exists msgs,
       fst (fst (operationSuspend e Examples.prog 6699)) = ExitInXErrorHandler
       /\ snd (operationSuspend e Examples.prog 6699)
          = setup_trace
            ++ [EvDBusCall "UnInhibit" (Some 77)]
            ++ msgs ++ [EvDBusConnUnref; EvCloseFd 3; EvExit EXIT_FAILURE]
       /\ forallb is_stderr msgs = true.
Proof.
  assert (Hsetup : setup_reaches_reply MoreExamples.session_bad_window 6699)
    by (repeat split; reflexivity).
  split; [exact Hsetup |].
  exact (invalid_window_exits_in_handler MoreExamples.session_bad_window Examples.prog
           6699 77 Hsetup eq_refl eq_refl eq_refl eq_refl eq_refl).
Defined.

(** ** The display and the fork need the cookie *)

Lemma finish_events_plain (e : env) (d : data) (ev : event) :
  In ev (snd (operationSuspendFinish e d)) -> is_cleanup ev || is_stderr ev = true.
Proof.
  pose proof (operationSuspendFinish_spec e d) as HF.
  destruct (operationSuspendFinish e d) as [[ok d'] tf]. cbn [snd].
  destruct HF as (_ & _ & _ & Hev & _). rewrite forallb_forall in Hev. apply Hev.
Qed.

(** X13.  The display is opened and the process forks only after the
    inhibit service has replied with exactly one UINT32 argument, the
    cookie, which the record then holds to the end. *)
Theorem display_and_fork_need_cookie (e : env) (prog : list ascii) (window : Z) :
  let '(out, d, t) := operationSuspend e prog window in
  In EvXOpenDisplay t \/ In EvFork t ->
  exists cookie,
    inhibit_reply e = DBusOk [ArgUInt32 cookie]
    /\ screenSaverInhibited d = true
    /\ screenSaverInhibitCookie d = cookie.
Proof.
  destruct (operationSuspend_cases e prog window)
    as [(d & t & -> & Hdisp & [Hfail Hopen] & Hev)
       | [(d & cookie & -> & _ & Hi & Hreply & Hcookie)
         | [(d & cookie & v & tl & -> & _ & _ & _ & _ & Hi & Hreply & Hcookie)
           | [(d1 & cookie & pre & -> & _ & Hi & Hreply & Hcookie)
             | (d & cookie & tl & -> & _ & _ & Hi & Hreply & Hcookie)]]]].
  - intros Hin.
    assert (Hin' : In EvXOpenDisplay t).
    { destruct Hin as [Hin | Hin]; apply in_app_or in Hin as [Hin | Hin].
      - exact Hin.
      - apply finish_events_plain in Hin. discriminate.
      - rewrite forallb_forall in Hev. apply Hev in Hin. discriminate.
      - apply finish_events_plain in Hin. discriminate. }
    destruct (Hopen Hin') as (Hi & cookie & Hreply).
    destruct (Hfail Hi) as (cookie' & rest & Hreply' & Hcookie & _).
    pose proof (operationSuspendFinish_spec e d) as HF.
    destruct (operationSuspendFinish e d) as [[ok d'] tf]. cbn [fst snd].
    destruct HF as (Hi' & Hc' & _).
    exists cookie. split; [exact Hreply |]. rewrite Hi', Hc', Hcookie.
    split; [exact Hi |]. congruence.
  - intros _. exists cookie. repeat split; assumption.
  - intros _. pose proof (operationSuspendFinish_spec e d) as HF.
    destruct (operationSuspendFinish e d) as [[ok d'] tf]. cbn [fst snd].
    destruct HF as (Hi' & Hc' & _).
    exists cookie. rewrite Hi', Hc'. repeat split; assumption.
  - intros _. pose proof (operationSuspendFinish_spec e (set_display false d1)) as HF.
    destruct (operationSuspendFinish e (set_display false d1)) as [[ok d'] tf]. cbn [fst snd].
    destruct HF as (Hi' & Hc' & _).
    exists cookie. rewrite Hi', Hc'. repeat split; assumption.
  - intros _. exists cookie. repeat split; assumption.
Qed.

Lemma display_and_fork_need_cookie_witness :
  let e := Examples.session_fork_fails in
  In EvFork (snd (operationSuspend e Examples.prog 6699))
  /\ exists cookie, inhibit_reply e = DBusOk [ArgUInt32 cookie].
Proof.
  assert (Hin : In EvFork
                   (snd (operationSuspend Examples.session_fork_fails Examples.prog 6699))).
  { vm_compute. repeat (first [left; reflexivity | right]). }
  split; [exact Hin |].
  generalize (display_and_fork_need_cookie Examples.session_fork_fails Examples.prog 6699).
  destruct (operationSuspend Examples.session_fork_fails Examples.prog 6699)
    as [[out d] t].
  cbn [snd] in Hin. intros H.
  destruct (H (or_intror Hin)) as (cookie & Hreply & _).
  exists cookie. exact Hreply.
Defined.
